(** * Graph attention layer and training loops of the GAT experiments

    A shallow embedding of [models/gat_with_projection.py] (the [GATConv]
    layer, [train_mini_batch], [train_full_graph], [validate]) and of the
    epoch loop of [experiments/gat/mini_batch.py].

    Conventions of the embedding.
    - Tensor entries are real numbers ([R]); the rounding of the 32-bit
      floats of the program is not modelled.
    - A tensor of shape [(N, H, F)] is a [list (list (list R))]; the
      attention tensors of shape [(N, H, 1)] are kept as [(N, H)].
    - The edge-dropout fraction is a Python [float], an IEEE 754
      binary64 number ([spec_float] at precision 53): line 150 takes
      [int(E * p)] of a floating-point product, whose rounding decides
      how many edges are dropped.  The fractions handed to [nn.Dropout]
      only enter comparisons and tensor arithmetic; they are rationals
      ([Q]).
    - Python exceptions are values of [PyError]; a call either returns
      [Ok v] or raises [Raise e].
    - Random draws ([torch.randperm], the dropout masks) are explicit
      arguments ([Rng]).
    - Tensors are taken with the shapes the layer is built for: node
      tensors have one row per node of the graph, edge tensors one row
      per edge.  Element-wise operations pair the rows they are given
      ([combine]); an index outside a tensor reads the empty row. *)

From Stdlib Require Import String.
From Stdlib Require Import List Arith Bool Lia ZArith QArith Qround.
From Stdlib Require Import Reals Lra Permutation.
From Corelib Require Import SpecFloat.
Import ListNotations.

Close Scope Q_scope.
Close Scope R_scope.
Open Scope nat_scope.

Set Implicit Arguments.

(** ** Python results *)

Inductive PyError : Type :=
| AssertionError
| TypeError
| RuntimeError
| UnboundLocalError
| ZeroDivisionError
| ValueError
| OverflowError
| AttributeError.

Inductive Result (A : Type) : Type :=
| Ok (a : A)
| Raise (e : PyError).

Arguments Ok {A} a.
Arguments Raise {A} e.

Definition bind {A B : Type} (c : Result A) (k : A -> Result B) : Result B :=
  match c with
  | Ok a => k a
  | Raise e => Raise e
  end.

Notation "x <- c ;; k" := (bind c (fun x => k))
  (at level 61, c at next level, right associativity).

Definition returns {A : Type} (c : Result A) : Prop := exists a, c = Ok a.

(** ** Tensors *)

Definition Vec := list R.

Definition rsum (xs : list R) : R := fold_right Rplus 0%R xs.

Definition dot (w x : Vec) : R :=
  rsum (map (fun p => (fst p * snd p)%R) (combine w x)).

(** [nn.Linear(in, out, bias=False)]: the weight has one row per output
    feature. *)
Definition Linear := list Vec.

Definition linear (W : Linear) (x : Vec) : Vec := map (fun row => dot row x) W.

(** [t.view(-1, heads, feats)] on one row of [t]. *)
Fixpoint view (heads feats : nat) (flat : Vec) : list Vec :=
  match heads with
  | O => []
  | S h => firstn feats flat :: view h feats (skipn feats flat)
  end.

Definition vadd (a b : Vec) : Vec :=
  map (fun p => (fst p + snd p)%R) (combine a b).

Definition get2 (t : list Vec) (i h : nat) : R := nth h (nth i t []) 0%R.

Definition get3 (t : list (list Vec)) (i h f : nat) : R :=
  nth f (nth h (nth i t []) []) 0%R.

(** In-place [t[i] = v]. *)
Fixpoint set_nth {A : Type} (t : list A) (i : nat) (v : A) : list A :=
  match t, i with
  | [], _ => []
  | _ :: t', O => v :: t'
  | x :: t', S i' => x :: set_nth t' i' v
  end.

(** ** Graphs

    A [DGLGraph] or a block.  Edge [k] is the [k]-th pair
    [(source, destination)]; a graph that is not a block has
    [num_src_nodes = num_dst_nodes]. *)

Record DGLGraph : Type := {
  is_block : bool;
  num_src_nodes : nat;
  num_dst_nodes : nat;
  edges : list (nat * nat)
}.

Definition num_edges (g : DGLGraph) : nat := length (edges g).

Definition src_of (g : DGLGraph) (k : nat) : nat := fst (nth k (edges g) (0, 0)).
Definition dst_of (g : DGLGraph) (k : nat) : nat := snd (nth k (edges g) (0, 0)).

Definition out_degree (g : DGLGraph) (u : nat) : nat :=
  count_occ Nat.eq_dec (map fst (edges g)) u.

Definition in_degree (g : DGLGraph) (v : nat) : nat :=
  count_occ Nat.eq_dec (map snd (edges g)) v.

Definition out_degrees (g : DGLGraph) : list nat :=
  map (out_degree g) (seq 0 (num_src_nodes g)).

Definition in_degrees (g : DGLGraph) : list nat :=
  map (in_degree g) (seq 0 (num_dst_nodes g)).

(** ** Python floats

    A [float] is an IEEE 754 binary64 number; the operations are those
    of [SpecFloat] at precision 53, rounding to nearest, ties to even. *)

Definition py_float : Type := spec_float.

Definition float_mul (x y : py_float) : py_float := SFmul 53 1024 x y.

(** [x > 0] for a float [x]: false for a NaN. *)
Definition float_pos (x : py_float) : bool := SFltb (S754_zero false) x.

(** [float(n)] of a Python integer, as [n * x] takes it for a float
    [x]: the nearest binary64 (exact below 2^53); [OverflowError] when
    the integer is beyond the largest float. *)
Definition float_of_int (n : Z) : Result py_float :=
  match binary_normalize 53 1024 n 0 false with
  | S754_infinity _ => Raise OverflowError
  | x => Ok x
  end.

(** [int(x)]: truncation towards zero; an infinity raises
    [OverflowError], a NaN [ValueError]. *)
Definition py_int (x : py_float) : Result Z :=
  match x with
  | S754_zero _ => Ok 0%Z
  | S754_finite s m e => Ok (cond_Zopp s (Z.shiftl (Zpos m) e))
  | S754_infinity _ => Raise OverflowError
  | S754_nan => Raise ValueError
  end.

Definition float_zero : py_float := S754_zero false.

(** The float a decimal literal [n / d] denotes ([0.58] is
    [float_lit 58 100]): the binary64 nearest to the quotient. *)
Definition float_lit (n d : Z) : py_float :=
  SFdiv 53 1024 (binary_normalize 53 1024 n 0 false)
                (binary_normalize 53 1024 d 0 false).

(** The rational a finite float stands for. *)
Definition float_value (x : py_float) : Q :=
  match x with
  | S754_finite s m e => (inject_Z (cond_Zopp s (Zpos m)) * Qpower 2 e)%Q
  | _ => 0%Q
  end.


(** [xs[b:]] for a Python integer [b]: a negative [b] counts from the
    end. *)
Definition py_slice_from {A : Type} (xs : list A) (b : Z) : list A :=
  if (b <? 0)%Z then skipn (Z.to_nat (Z.of_nat (length xs) + b)) xs
  else skipn (Z.to_nat b) xs.

(** ** The layer *)

Record GATConv : Type := {
  _out_feats : nat;
  _num_heads : nat;
  _norm : string;
  _attn_dropout : Q;
  _edge_dropout : py_float;
  _negative_slope : R;
  _activation : option (R -> R);
  _allow_zero_in_degree : bool;
  _fc_src : Linear;
  _fc_dst : option Linear;
  bias : option Vec;
  _attn_fc_src : Linear;
  _attn_fc_dst : option Linear;
  _attn_fc_edge : option Linear
}.

(** The random draws of one forward pass: the result of
    [torch.randperm(E)] and, for the attention dropout, whether entry
    [(j, h)] of its argument is kept. *)
Record Rng : Type := {
  randperm : list nat;
  attn_keep : nat -> nat -> bool
}.

Definition Qlt_bool (a b : Q) : bool := negb (Qle_bool b a).


Definition norm_in (n : string) (l : list string) : bool :=
  existsb (String.eqb n) l.

Section Forward.

Local Open Scope R_scope.

(** [nn.LeakyReLU(negative_slope)]. *)
Definition leaky_relu (slope x : R) : R := Rmax 0 x + slope * Rmin 0 x.

(** [nn.Dropout(p)] on one entry: the identity in evaluation mode and
    for [p = 0]; otherwise the entry is zeroed or scaled by
    [1 / (1 - p)]. *)
Definition dropout (p : Q) (training keep : bool) (x : R) : R :=
  if training && Qlt_bool 0 p
  then if keep then x / (1 - Q2R p) else 0
  else x.

(** [degrees.float().clamp(min=1)] on one degree. *)
Definition clamp_min1 (deg : nat) : R := Rmax (INR deg) 1.

(** The factor of lines 113-116 and 166-169: [torch.pow(degrees, -0.5)]
    for ['both'], [1 / degrees] otherwise. *)
Definition norm_factor (n : string) (deg : nat) : R :=
  let degrees := clamp_min1 deg in
  if String.eqb n "both" then Rpower degrees (- (1 / 2)) else 1 / degrees.

Definition scale3 (c : R) (t : list Vec) : list Vec := map (map (Rmult c)) t.

(** [norm] of lines 111-119 and of lines 164-172, one factor per node. *)
Definition src_norm (l : GATConv) (g : DGLGraph) : list R :=
  map (norm_factor (_norm l)) (out_degrees g).

Definition dst_norm (l : GATConv) (g : DGLGraph) : list R :=
  map (norm_factor (_norm l)) (in_degrees g).

(** [t *= norm], with [norm] reshaped to broadcast over the heads and
    the features. *)
Definition mul_norm (t : list (list Vec)) (norm : list R) : list (list Vec) :=
  map (fun p => scale3 (snd p) (fst p)) (combine t norm).

(** Lines 105-121: the source projection, scaled by the out-degree
    factor for ['both'] and ['left']. *)
Definition feat_fc_src (l : GATConv) (g : DGLGraph) (node_inputs : list Vec)
  : list (list Vec) :=
  let feat := map (fun x => view (_num_heads l) (_out_feats l) (linear (_fc_src l) x))
                  node_inputs in
  if norm_in (_norm l) ["both"; "left"]%string
  then mul_norm feat (src_norm l g)
  else feat.

(** Lines 123-146: the per-edge attention logits, one per head. *)
Definition attn_logits (l : GATConv) (g : DGLGraph)
    (node_inputs node_inputs_dst : list Vec) (edge_inputs : option (list Vec))
  : Result (list Vec) :=
  let attn_src := map (linear (_attn_fc_src l)) node_inputs in
  let attn_node :=
    match _attn_fc_dst l with
    | Some W =>
        let attn_dst := map (linear W) node_inputs_dst in
        map (fun uv => vadd (nth (fst uv) attn_src []) (nth (snd uv) attn_dst []))
            (edges g)
    | None => map (fun uv => nth (fst uv) attn_src []) (edges g)
    end in
  e <- match edge_inputs with
       | Some efeat =>
           match _attn_fc_edge l with
           | Some W =>
               Ok (map (fun p => vadd (fst p) (snd p))
                       (combine attn_node (map (linear W) efeat)))
           | None => Raise TypeError
           end
       | None => Ok attn_node
       end ;;
  Ok (map (map (leaky_relu (_negative_slope l))) e).

(** [dgl.ops.edge_softmax(g, z, eids=eids)]: [z] holds the logits of the
    edges [eids], in that order; each is normalised over the edges of
    [eids] with the same destination. *)
Definition seg_exp_sum (g : DGLGraph) (eids : list nat) (z : list Vec)
    (v h : nat) : R :=
  rsum (map (fun p => if Nat.eqb (dst_of g (fst p)) v
                      then exp (nth h (snd p) 0) else 0)
            (combine eids z)).

Definition edge_softmax (g : DGLGraph) (z : list Vec) (eids : list nat)
  : list Vec :=
  map (fun p => map (fun h => exp (nth h (snd p) 0)
                              / seg_exp_sum g eids z (dst_of g (fst p)) h)
                    (seq 0 (length (snd p))))
      (combine eids z).

(** [self._attn_dropout(t)] on a tensor of shape [(len, H)]. *)
Definition attn_drop (l : GATConv) (training : bool) (rng : Rng) (t : list Vec)
  : list Vec :=
  map (fun jr => map (fun hx => dropout (_attn_dropout l) training
                                        (attn_keep rng (fst jr) (fst hx)) (snd hx))
                     (combine (seq 0 (length (snd jr))) (snd jr)))
      (combine (seq 0 (length t)) t).

(** Line 150: [int(g.num_edges() * self._edge_dropout)], the product
    of an integer and a float. *)
Definition dropped (l : GATConv) (g : DGLGraph) : Result Z :=
  E <- float_of_int (Z.of_nat (num_edges g)) ;;
  py_int (float_mul E (_edge_dropout l)).

(** Lines 149-151: the edges that survive the edge dropout. *)
Definition kept_eids (l : GATConv) (rng : Rng) (g : DGLGraph)
  : Result (list nat) :=
  bound <- dropped l g ;;
  Ok (py_slice_from (randperm rng) bound).

(** [t[eids]] and [t[eids] = vals]. *)
Definition gather (t : list Vec) (eids : list nat) : list Vec :=
  map (fun k => nth k t []) eids.

Definition scatter (t : list Vec) (eids : list nat) (vals : list Vec) : list Vec :=
  fold_left (fun acc kv => set_nth acc (fst kv) (snd kv)) (combine eids vals) t.

Definition zeros_like (t : list Vec) : list Vec := map (map (fun _ => 0)) t.

Definition edge_dropout_active (l : GATConv) (training : bool) : bool :=
  training && float_pos (_edge_dropout l).

(** Lines 148-157: the attention weights stored in [g.edata['attn']]. *)
Definition attention (l : GATConv) (training : bool) (rng : Rng) (g : DGLGraph)
    (e : list Vec) : Result (list Vec) :=
  if edge_dropout_active l training
  then
    eids <- kept_eids l rng g ;;
    Ok (scatter (zeros_like e) eids
                (attn_drop l training rng (edge_softmax g (gather e eids) eids)))
  else Ok (attn_drop l training rng (edge_softmax g e (seq 0 (num_edges g)))).

Definition attn_dropout_active (l : GATConv) (training : bool) : bool :=
  training && Qlt_bool 0 (_attn_dropout l).

(** The attention weights of head [h] on the incoming edges of the
    destination node [v], added up. *)
Definition in_weight_sum (g : DGLGraph) (attn : list Vec) (v h : nat) : R :=
  rsum (map (fun k => if Nat.eqb (dst_of g k) v then get2 attn k h else 0)
            (seq 0 (num_edges g))).

(** Lines 159-161: [update_all(u_mul_e, sum)]; entry [(v, h, f)]. *)
Definition msg_sum (g : DGLGraph) (feat : list (list Vec)) (attn : list Vec)
    (v h f : nat) : R :=
  rsum (map (fun kuv => if Nat.eqb (snd (snd kuv)) v
                        then get3 feat (fst (snd kuv)) h f * get2 attn (fst kuv) h
                        else 0)
            (combine (seq 0 (num_edges g)) (edges g))).

Definition update_all (l : GATConv) (g : DGLGraph) (feat : list (list Vec))
    (attn : list Vec) : list (list Vec) :=
  map (fun v => map (fun h => map (fun f => msg_sum g feat attn v h f)
                                  (seq 0 (_out_feats l)))
                    (seq 0 (_num_heads l)))
      (seq 0 (num_dst_nodes g)).

(** Lines 163-174. *)
Definition right_norm (l : GATConv) (g : DGLGraph) (x : list (list Vec))
  : list (list Vec) :=
  if norm_in (_norm l) ["both"; "right"]%string
  then mul_norm x (dst_norm l g)
  else x.

Definition add3 (a b : list (list Vec)) : list (list Vec) :=
  map (fun p => map (fun q => vadd (fst q) (snd q)) (combine (fst p) (snd p)))
      (combine a b).

(** [x += self.bias]: the bias of [out_feats * num_heads] entries is
    broadcast along the last axis, which needs that axis to have the
    same length (or the bias a single entry). *)
Definition add_bias (x : list (list Vec)) (b : Vec) : Result (list (list Vec)) :=
  if forallb (forallb (fun row => Nat.eqb (length row) (length b)
                                  || Nat.eqb (length b) 1)) x
  then Ok (map (map (fun row =>
                       map (fun p => fst p + nth (if Nat.eqb (length b) 1
                                                  then 0%nat else snd p) b 0)
                           (combine row (seq 0 (length row))))) x)
  else Raise RuntimeError.

Definition apply_activation (act : option (R -> R)) (x : list (list Vec))
  : list (list Vec) :=
  match act with
  | Some a => map (map (map a)) x
  | None => x
  end.

(** Lines 95-98. *)
Definition check_in_degree (l : GATConv) (g : DGLGraph) : Result unit :=
  if negb (_allow_zero_in_degree l)
  then if existsb (Nat.eqb 0) (in_degrees g) then Raise AssertionError else Ok tt
  else Ok tt.

(** Lines 100-103. *)
Definition node_inputs_dst (g : DGLGraph) (node_inputs : list Vec) : list Vec :=
  if is_block g then firstn (num_dst_nodes g) node_inputs else node_inputs.

(** Lines 100-184, what follows the in-degree check. *)
Definition forward_body (l : GATConv) (training : bool) (rng : Rng)
    (g : DGLGraph) (node_inputs : list Vec) (edge_inputs : option (list Vec))
  : Result (list (list Vec)) :=
  let inputs_dst := node_inputs_dst g node_inputs in
  let fsrc := feat_fc_src l g node_inputs in
  (* line 107: [self._fc_dst] is called whatever [residual] was *)
  fdst <- match _fc_dst l with
          | Some W => Ok (map (fun x => view (_num_heads l) (_out_feats l) (linear W x))
                              inputs_dst)
          | None => Raise TypeError
          end ;;
  e <- attn_logits l g node_inputs inputs_dst edge_inputs ;;
  attn <- attention l training rng g e ;;
  let x := right_norm l g (update_all l g fsrc attn) in
  x <- match _fc_dst l with
       | Some _ => Ok (add3 x fdst)
       | None =>
           match bias l with
           | Some b => add_bias x b
           | None => Raise TypeError
           end
       end ;;
  Ok (apply_activation (_activation l) x).

(** [GATConv.forward]. *)
Definition forward (l : GATConv) (training : bool) (rng : Rng)
    (g : DGLGraph) (node_inputs : list Vec) (edge_inputs : option (list Vec))
  : Result (list (list Vec)) :=
  _ <- check_in_degree l g ;;
  forward_body l training rng g node_inputs edge_inputs.

End Forward.

(** ** Rows of the tensors of [forward]

    Closed forms of single rows, as the statements below use them. *)

(** Row [k] of the attention logits (lines 123-146). *)
Definition logit_row (l : GATConv) (g : DGLGraph) (x xd : list Vec)
    (ef : option (list Vec)) (k : nat) : Vec :=
  let s := linear (_attn_fc_src l) (nth (src_of g k) x []) in
  let node := match _attn_fc_dst l with
              | Some W => vadd s (linear W (nth (dst_of g k) xd []))
              | None => s
              end in
  map (leaky_relu (_negative_slope l))
      match ef, _attn_fc_edge l with
      | Some efeat, Some W => vadd node (linear W (nth k efeat []))
      | _, _ => node
      end.

(** Row [v] of what [forward] returns, from the source projection, the
    attention weights and the input features of the node itself. *)
Definition out_row (l : GATConv) (g : DGLGraph) (fsrc : list (list Vec))
    (attn : list Vec) (Wd : Linear) (x_v : Vec) (v : nat) : list Vec :=
  let agg := map (fun h => map (fun f => msg_sum g fsrc attn v h f)
                               (seq 0 (_out_feats l)))
                 (seq 0 (_num_heads l)) in
  let x := if norm_in (_norm l) ["both"; "right"]%string
           then scale3 (norm_factor (_norm l) (in_degree g v)) agg
           else agg in
  let y := map (fun q => vadd (fst q) (snd q))
               (combine x (view (_num_heads l) (_out_feats l) (linear Wd x_v))) in
  match _activation l with
  | Some a => map (map a) y
  | None => y
  end.

(** ** A block against the graph it was sampled from

    [nid] and [eid] are the block's [dgl.NID] and [dgl.EID]: the graph
    node behind each source node of the block and the graph edge behind
    each of its edges. *)

Definition in_eids (g : DGLGraph) (v : nat) : list nat :=
  filter (fun k => Nat.eqb (dst_of g k) v) (seq 0 (num_edges g)).

Definition edge_feats_agree (b g : DGLGraph) (eid : list nat)
    (efb efg : option (list Vec)) (d : nat) : Prop :=
  match efb, efg with
  | Some fb, Some fg =>
      List.length fb = num_edges b /\ List.length fg = num_edges g /\
      forall k, In k (in_eids b d) -> nth k fb [] = nth (nth k eid 0) fg []
  | None, None => True
  | _, _ => False
  end.

(** The destination node [d] of the block [b] has its whole incoming
    neighbourhood of the graph [g] in the block, with the same input
    features. *)
Record covers (b g : DGLGraph) (nid eid : list nat) (xb xg : list Vec)
    (efb efg : option (list Vec)) (d : nat) : Prop := {
  cov_block : is_block b = true;
  cov_graph : is_block g = false;
  cov_dst : d < num_dst_nodes b;
  cov_dst_src : num_dst_nodes b <= num_src_nodes b;
  cov_nodes : num_dst_nodes g = num_src_nodes g;
  cov_inputs_b : List.length xb = num_src_nodes b;
  cov_inputs_g : List.length xg = num_src_nodes g;
  cov_nid : forall i, i < num_src_nodes b -> nth i nid 0 < num_src_nodes g;
  cov_feat : forall i, i < num_src_nodes b ->
             nth i xb [] = nth (nth i nid 0) xg [];
  cov_src_b : forall k, k < num_edges b -> src_of b k < num_src_nodes b;
  cov_src : forall k, In k (in_eids b d) ->
            src_of g (nth k eid 0) = nth (src_of b k) nid 0;
  cov_all_in : Permutation (map (fun k => nth k eid 0) (in_eids b d))
                           (in_eids g (nth d nid 0));
  cov_efeat : edge_feats_agree b g eid efb efg d
}.

(** Two forward results agree on row [d] of the first and row [v] of
    the second: both raise the same exception, or both return and the
    rows are equal. *)
Definition agree_at (d v : nat) (rb rg : Result (list (list Vec))) : Prop :=
  match rb, rg with
  | Ok ob, Ok og => nth d ob [] = nth v og []
  | Raise e1, Raise e2 => e1 = e2
  | _, _ => False
  end.

(** ** The constructor

    [GATConv.__init__].  The weights drawn by [nn.Linear] are inputs
    ([InitWeights]).  [nn.Parameter] takes a tensor; line 50 hands it
    the integer [out_feats * num_heads], which the library refuses
    (with a [TypeError], or an [AttributeError] in the releases that
    call [data.detach()]): [nn_Parameter_error] is that exception. *)

Record InitWeights : Type := {
  w_fc_src : Linear;
  w_fc_dst : Linear;
  w_attn_fc_src : Linear;
  w_attn_fc_dst : Linear;
  w_attn_fc_edge : Linear
}.

(** [nn.Dropout(p)]: the constructor refuses a [p] outside [[0, 1]]. *)
Definition nn_Dropout (p : Q) : Result Q :=
  if Qlt_bool p 0 || Qlt_bool 1 p then Raise ValueError else Ok p.

Section Init.

Variable nn_Parameter_error : PyError.

(** [nn.Parameter(data)] for an integer [data]. *)
Definition nn_Parameter (data : nat) : Result Vec := Raise nn_Parameter_error.

Definition GATConv_init (edge_in_feats out_feats num_heads : nat)
    (norm : string) (attn_dropout : Q) (edge_dropout : py_float)
    (negative_slope : R)
    (residual : bool) (activation : option (R -> R))
    (use_attn_dst allow_zero_in_degree : bool) (w : InitWeights)
  : Result GATConv :=
  attn_dropout <- nn_Dropout attn_dropout ;;
  fc_dst_bias <- (if residual
                  then Ok (Some (w_fc_dst w), None)
                  else b <- nn_Parameter (out_feats * num_heads) ;;
                       Ok (None, Some b)) ;;
  Ok {| _out_feats := out_feats;
        _num_heads := num_heads;
        _norm := norm;
        _attn_dropout := attn_dropout;
        _edge_dropout := edge_dropout;
        _negative_slope := negative_slope;
        _activation := activation;
        _allow_zero_in_degree := allow_zero_in_degree;
        _fc_src := w_fc_src w;
        _fc_dst := fst fc_dst_bias;
        bias := snd fc_dst_bias;
        _attn_fc_src := w_attn_fc_src w;
        _attn_fc_dst := if use_attn_dst then Some (w_attn_fc_dst w) else None;
        _attn_fc_edge := if 0 <? edge_in_feats then Some (w_attn_fc_edge w) else None |}.

End Init.

(** ** Training and validation passes

    The model, the optimizer, the loss and the evaluator are those of
    PyTorch and OGB; the passes only need what they read and write.
    Scalars of the loops (losses, scores, times) are rationals. *)

Record Torch : Type := {
  Params : Type;
  Grads : Type;
  OptState : Type;
  Input : Type;
  Mask : Type;
  Logits : Type;
  Labels : Type;
  (** [model(x)] with the given parameters, in training or evaluation mode *)
  model_forward : Params -> bool -> Input -> Result Logits;
  (** [x.dstdata['label']] or [g.ndata['label']] *)
  labels_of : Input -> Labels;
  index_logits : Logits -> Mask -> Logits;
  index_labels : Labels -> Mask -> Labels;
  len : Labels -> nat;
  loss_function : Logits -> Labels -> Q;
  (** [torch.sum(torch.max(logits, dim=1)[1] == labels).item()] *)
  count_correct : Logits -> Labels -> nat;
  get_evaluation_score : Logits -> Labels -> Q;
  (** the gradient [loss.backward()] adds to the [.grad] fields *)
  loss_gradient : Params -> bool -> Input -> Grads;
  zero_grads : Grads;
  add_grads : Grads -> Grads -> Grads;
  optimizer_update : OptState -> Params -> Grads -> Params * OptState
}.

Record ForwardCall : Type := {
  fc_training : bool;
  fc_grad_enabled : bool
}.

Record World (T : Torch) : Type := {
  w_params : Params T;
  w_grads : Grads T;
  w_opt : OptState T;
  w_training : bool;
  w_grad_enabled : bool;
  w_forward_log : list ForwardCall;
  w_clock : nat -> Q;
  w_ticks : nat
}.

Definition M (T : Torch) (A : Type) : Type := World T -> Result A * World T.

Definition ret {T : Torch} {A : Type} (a : A) : M T A := fun w => (Ok a, w).

Definition raise {T : Torch} {A : Type} (e : PyError) : M T A :=
  fun w => (Raise e, w).

Definition bindM {T : Torch} {A B : Type} (c : M T A) (k : A -> M T B) : M T B :=
  fun w => match c w with
           | (Ok a, w') => k a w'
           | (Raise e, w') => (Raise e, w')
           end.

Notation "x <~ c ;; k" := (bindM c (fun x => k))
  (at level 61, c at next level, right associativity).

Section Primitives.

Context {T : Torch}.

Definition set_training (b : bool) : M T unit := fun w =>
  (Ok tt, {| w_params := w_params w; w_grads := w_grads w; w_opt := w_opt w;
             w_training := b; w_grad_enabled := w_grad_enabled w;
             w_forward_log := w_forward_log w;
             w_clock := w_clock w; w_ticks := w_ticks w |}).

Definition set_grad_enabled (b : bool) (w : World T) : World T :=
  {| w_params := w_params w; w_grads := w_grads w; w_opt := w_opt w;
     w_training := w_training w; w_grad_enabled := b;
     w_forward_log := w_forward_log w;
     w_clock := w_clock w; w_ticks := w_ticks w |}.

(** [model.train()] and [model.eval()]. *)
Definition model_train : M T unit := set_training true.
Definition model_eval : M T unit := set_training false.

(** [with torch.no_grad(): body]: the previous mode is restored on
    exit, also when [body] raises. *)
Definition no_grad {A : Type} (body : M T A) : M T A := fun w =>
  let prev := w_grad_enabled w in
  let rw := body (set_grad_enabled false w) in
  (fst rw, set_grad_enabled prev (snd rw)).

Definition default_timer : M T Q := fun w =>
  (Ok (w_clock w (w_ticks w)),
   {| w_params := w_params w; w_grads := w_grads w; w_opt := w_opt w;
      w_training := w_training w; w_grad_enabled := w_grad_enabled w;
      w_forward_log := w_forward_log w;
      w_clock := w_clock w; w_ticks := S (w_ticks w) |}).

(** [model(x)]: the result and whether autograd recorded it. *)
Definition call_model (x : Input T) : M T (Logits T * bool) := fun w =>
  let w' := {| w_params := w_params w; w_grads := w_grads w; w_opt := w_opt w;
               w_training := w_training w; w_grad_enabled := w_grad_enabled w;
               w_forward_log := w_forward_log w ++
                 [{| fc_training := w_training w;
                     fc_grad_enabled := w_grad_enabled w |}];
               w_clock := w_clock w; w_ticks := w_ticks w |} in
  match model_forward T (w_params w) (w_training w) x with
  | Ok y => (Ok (y, w_grad_enabled w), w')
  | Raise e => (Raise e, w')
  end.

Definition optimizer_zero_grad : M T unit := fun w =>
  (Ok tt, {| w_params := w_params w; w_grads := zero_grads T; w_opt := w_opt w;
             w_training := w_training w; w_grad_enabled := w_grad_enabled w;
             w_forward_log := w_forward_log w;
             w_clock := w_clock w; w_ticks := w_ticks w |}).

(** [loss.backward()] for the loss of a forward pass on [x]; a loss that
    autograd did not record has no graph to differentiate. *)
Definition loss_backward (tracked : bool) (x : Input T) : M T unit := fun w =>
  if tracked
  then (Ok tt, {| w_params := w_params w;
                  w_grads := add_grads T (w_grads w)
                               (loss_gradient T (w_params w) (w_training w) x);
                  w_opt := w_opt w;
                  w_training := w_training w; w_grad_enabled := w_grad_enabled w;
                  w_forward_log := w_forward_log w;
                  w_clock := w_clock w; w_ticks := w_ticks w |})
  else (Raise RuntimeError, w).

Definition optimizer_step : M T unit := fun w =>
  let po := optimizer_update T (w_opt w) (w_params w) (w_grads w) in
  (Ok tt, {| w_params := fst po; w_grads := w_grads w; w_opt := snd po;
             w_training := w_training w; w_grad_enabled := w_grad_enabled w;
             w_forward_log := w_forward_log w;
             w_clock := w_clock w; w_ticks := w_ticks w |}).

(** [a / n] for an integer [a] and a length [n]. *)
Definition div_len (a n : nat) : M T Q :=
  if Nat.eqb n 0 then raise ZeroDivisionError
  else ret (inject_Z (Z.of_nat a) / inject_Z (Z.of_nat n))%Q.

(** The local variables of the two mini-batch training passes; [step]
    is bound by the [for] statement only. *)
Record Locals : Type := {
  step : option nat;
  total_loss : Q;
  total_score : Q
}.

Fixpoint for_enumerate {X : Type} (body : nat -> X -> Locals -> M T Locals)
    (items : list (nat * X)) (loc : Locals) : M T Locals :=
  match items with
  | [] => ret loc
  | (i, x) :: rest =>
      loc' <~ body i x {| step := Some i; total_loss := total_loss loc;
                          total_score := total_score loc |} ;;
      for_enumerate body rest loc'
  end.

Definition enumerate {X : Type} (xs : list X) : list (nat * X) :=
  combine (seq 0 (length xs)) xs.

(** Lines 359-365 (and 50-56 of [mini_batch.py]): the averages over
    [step + 1]. *)
Definition averages (start : Q) (loc : Locals) : M T (Q * Q * Q) :=
  stop <~ default_timer ;;
  let time := (stop - start)%Q in
  match step loc with
  | None => raise UnboundLocalError
  | Some s =>
      let n := inject_Z (Z.of_nat (s + 1)) in
      ret (time, (total_loss loc / n)%Q, (total_score loc / n)%Q)
  end.

End Primitives.

Module gat_with_projection.
Section Passes.

Context {T : Torch}.

Definition train_mini_batch_body (_ : nat) (blocks : Input T) (loc : Locals)
  : M T Locals :=
  _ <~ optimizer_zero_grad ;;
  let labels := labels_of T blocks in
  out <~ call_model blocks ;;
  let loss := loss_function T (fst out) labels in
  _ <~ loss_backward (snd out) blocks ;;
  _ <~ optimizer_step ;;
  let correct := count_correct T (fst out) labels in
  accuracy <~ div_len correct (len T labels) ;;
  ret {| step := step loc;
         total_loss := (total_loss loc + loss)%Q;
         total_score := (total_score loc + accuracy)%Q |}.

Definition train_mini_batch (dataloader : list (Input T)) : M T (Q * Q * Q) :=
  _ <~ model_train ;;
  let loc := {| step := None; total_loss := 0%Q; total_score := 0%Q |} in
  start <~ default_timer ;;
  loc <~ for_enumerate train_mini_batch_body (enumerate dataloader) loc ;;
  averages start loc.

Definition train_full_graph (g : Input T) (mask : Mask T) : M T (Q * Q * Q) :=
  let labels := labels_of T g in
  _ <~ model_train ;;
  _ <~ optimizer_zero_grad ;;
  start <~ default_timer ;;
  out <~ call_model g ;;
  let loss := loss_function T (index_logits T (fst out) mask)
                            (index_labels T labels mask) in
  _ <~ loss_backward (snd out) g ;;
  _ <~ optimizer_step ;;
  let correct := count_correct T (index_logits T (fst out) mask)
                               (index_labels T labels mask) in
  accuracy <~ div_len correct (len T (index_labels T labels mask)) ;;
  stop <~ default_timer ;;
  ret ((stop - start)%Q, loss, accuracy).

Definition validate (g : Input T) (mask : Mask T) : M T (Q * Q * Q) :=
  let labels := labels_of T g in
  _ <~ model_eval ;;
  start <~ default_timer ;;
  la <~ no_grad (
    out <~ call_model g ;;
    let loss := loss_function T (index_logits T (fst out) mask)
                              (index_labels T labels mask) in
    let correct := count_correct T (index_logits T (fst out) mask)
                                 (index_labels T labels mask) in
    accuracy <~ div_len correct (len T (index_labels T labels mask)) ;;
    ret (loss, accuracy)) ;;
  stop <~ default_timer ;;
  ret ((stop - start)%Q, fst la, snd la).

End Passes.
End gat_with_projection.

Module full_graph.
Section Passes.

Context {T : Torch}.

Definition validate (g : Input T) (mask : Mask T) : M T (Q * Q * Q) :=
  _ <~ model_eval ;;
  start <~ default_timer ;;
  let labels := index_labels T (labels_of T g) mask in
  ls <~ no_grad (
    out <~ call_model g ;;
    let logits := index_logits T (fst out) mask in
    ret (loss_function T logits labels, get_evaluation_score T logits labels)) ;;
  stop <~ default_timer ;;
  ret ((stop - start)%Q, fst ls, snd ls).

End Passes.
End full_graph.

Module mini_batch.
Section Passes.

Context {T : Torch}.

Definition train_body (_ : nat) (blocks : Input T) (loc : Locals) : M T Locals :=
  _ <~ optimizer_zero_grad ;;
  let labels := labels_of T blocks in
  out <~ call_model blocks ;;
  let loss := loss_function T (fst out) labels in
  let score := get_evaluation_score T (fst out) labels in
  _ <~ loss_backward (snd out) blocks ;;
  _ <~ optimizer_step ;;
  ret {| step := step loc;
         total_loss := (total_loss loc + loss)%Q;
         total_score := (total_score loc + score)%Q |}.

Definition train (dataloader : list (Input T)) : M T (Q * Q * Q) :=
  _ <~ model_train ;;
  let loc := {| step := None; total_loss := 0%Q; total_score := 0%Q |} in
  start <~ default_timer ;;
  loc <~ for_enumerate train_body (enumerate dataloader) loc ;;
  averages start loc.

Definition validate (g : Input T) (mask : Mask T) : M T (Q * Q * Q) :=
  _ <~ model_eval ;;
  start <~ default_timer ;;
  let labels := index_labels T (labels_of T g) mask in
  ls <~ no_grad (
    out <~ call_model g ;;
    let logits := index_logits T (fst out) mask in
    ret (loss_function T logits labels, get_evaluation_score T logits labels)) ;;
  stop <~ default_timer ;;
  ret ((stop - start)%Q, fst ls, snd ls).

(** Modelled from the spec: [utils.Callback], whose source is not part
    of the repository files at hand.  "After each epoch, compare the
    monitored metric (configurable: loss or score) against the
    best-so-far; if improved, replace the retained best snapshot (full
    parameter copy) and reset a patience counter; otherwise increment
    the patience counter."  "When the patience counter reaches a
    configured threshold, halt the epoch loop." *)
Record Checkpoint : Type := {
  best_epoch : nat;
  best_epoch_train_time : Q;
  best_epoch_valid_time : Q;
  best_epoch_train_loss : Q;
  best_epoch_valid_loss : Q;
  best_epoch_train_score : Q;
  best_epoch_valid_score : Q;
  best_epoch_model_parameters : Params T
}.

Record Callback : Type := {
  patience : nat;
  monitor : string;
  lookback : nat;
  best : option Checkpoint
}.

(** Modelled from the spec: [utils.Callback(patience, monitor)] starts
    with no best checkpoint and a patience counter of zero. *)
Definition Callback_init (early_stopping_patience : nat)
    (early_stopping_monitor : string) : Callback :=
  {| patience := early_stopping_patience;
     monitor := early_stopping_monitor;
     lookback := 0;
     best := None |}.

(** Modelled from the spec: the first epoch always improves; later a
    monitored loss improves when it is strictly lower than the best, a
    monitored score when it is strictly higher. *)
Definition improved (cb : Callback) (valid_loss valid_score : Q) : bool :=
  match best cb with
  | None => true
  | Some b =>
      if String.eqb (monitor cb) "loss"
      then Qlt_bool valid_loss (best_epoch_valid_loss b)
      else Qlt_bool (best_epoch_valid_score b) valid_score
  end.

(** Modelled from the spec: [Callback.create], called once per epoch
    with the metrics of the epoch and the model. *)
Definition create (cb : Callback) (epoch : nat)
    (train_time valid_time train_loss valid_loss train_score valid_score : Q)
    (model : Params T) : Callback :=
  if improved cb valid_loss valid_score
  then {| patience := patience cb; monitor := monitor cb;
          lookback := 0;
          best := Some {| best_epoch := epoch;
                          best_epoch_train_time := train_time;
                          best_epoch_valid_time := valid_time;
                          best_epoch_train_loss := train_loss;
                          best_epoch_valid_loss := valid_loss;
                          best_epoch_train_score := train_score;
                          best_epoch_valid_score := valid_score;
                          best_epoch_model_parameters := model |} |}
  else {| patience := patience cb; monitor := monitor cb;
          lookback := S (lookback cb); best := best cb |}.

(** Modelled from the spec: [Callback.should_stop], true once the
    patience counter has reached the configured patience. *)
Definition should_stop (cb : Callback) : bool := patience cb <=? lookback cb.

(** How the epoch loop of [log_run] ends. *)
Inductive LoopExit : Type :=
| Completed
| EarlyStopped (epoch : nat).

(** Lines 182-196 of [mini_batch.py]: one training pass, one validation
    pass, one checkpoint.  The data loader yields [dataloader epoch] in
    the pass of that epoch. *)
Definition run_epoch (dataloader : nat -> list (Input T)) (g : Input T)
    (valid_idx : Mask T) (epoch : nat) (cb : Callback) : M T Callback :=
  tr <~ train (dataloader epoch) ;;
  va <~ validate g valid_idx ;;
  fun w =>
    (Ok (create cb epoch (fst (fst tr)) (fst (fst va)) (snd (fst tr))
                (snd (fst va)) (snd tr) (snd va) (w_params w)), w).

(** Lines 181-211: [for epoch in range(num_epochs)] with its [break]. *)
Fixpoint epoch_loop (dataloader : nat -> list (Input T)) (g : Input T)
    (valid_idx : Mask T) (epochs : list nat) (cb : Callback)
  : M T (LoopExit * Callback) :=
  match epochs with
  | [] => ret (Completed, cb)
  | epoch :: rest =>
      cb' <~ run_epoch dataloader g valid_idx epoch cb ;;
      if should_stop cb' then ret (EarlyStopped epoch, cb')
      else epoch_loop dataloader g valid_idx rest cb'
  end.

Definition log_run_loop (num_epochs early_stopping_patience : nat)
    (early_stopping_monitor : string) (dataloader : nat -> list (Input T))
    (g : Input T) (valid_idx : Mask T) : M T (LoopExit * Callback) :=
  epoch_loop dataloader g valid_idx (seq 0 num_epochs)
             (Callback_init early_stopping_patience early_stopping_monitor).

(** The world and the metrics at the start of epoch [n] when no epoch
    stops the loop: what [n] rounds of [train] and [validate] leave. *)
Definition epoch_passes (dataloader : nat -> list (Input T)) (g : Input T)
    (valid_idx : Mask T) (epoch : nat) : M T ((Q * Q * Q) * (Q * Q * Q)) :=
  tr <~ train (dataloader epoch) ;;
  va <~ validate g valid_idx ;;
  ret (tr, va).

Fixpoint world_after (dataloader : nat -> list (Input T)) (g : Input T)
    (valid_idx : Mask T) (n : nat) (w : World T) : World T :=
  match n with
  | O => w
  | S n' =>
      snd (epoch_passes dataloader g valid_idx n'
                        (world_after dataloader g valid_idx n' w))
  end.

(** The monitored loss of epoch [n], when both passes return. *)
Definition valid_loss_at (dataloader : nat -> list (Input T)) (g : Input T)
    (valid_idx : Mask T) (w : World T) (n : nat) : option Q :=
  match fst (epoch_passes dataloader g valid_idx n
                          (world_after dataloader g valid_idx n w)) with
  | Ok (_, va) => Some (snd (fst va))
  | Raise _ => None
  end.

End Passes.
End mini_batch.

(** A forward call in training mode, recorded by autograd. *)
Definition training_call : ForwardCall :=
  {| fc_training := true; fc_grad_enabled := true |}.

(** ** The training pass of [full_graph.py] *)

Module full_graph_train.
Section Passes.

Context {T : Torch}.

(** [train] of [experiments/gat/full_graph.py], lines 17-46. *)
Definition train (g : Input T) (mask : Mask T) : M T (Q * Q * Q) :=
  _ <~ model_train ;;
  _ <~ optimizer_zero_grad ;;
  start <~ default_timer ;;
  let labels := index_labels T (labels_of T g) mask in
  out <~ call_model g ;;
  let logits := index_logits T (fst out) mask in
  let loss := loss_function T logits labels in
  let score := get_evaluation_score T logits labels in
  _ <~ loss_backward (snd out) g ;;
  _ <~ optimizer_step ;;
  stop <~ default_timer ;;
  ret ((stop - start)%Q, loss, score).

End Passes.
End full_graph_train.

(** ** The scripts

    The hyper-parameter script
    [sigopt/ogbn-arxiv-full-batch-GAT/gat_full_batch_training_run.py] and
    the baseline script [scratch/gat_custom_2_mini_batch_baseline_ogbn_products.py].
    Exceptions the layer never raises are added to those of [PyError]. *)

Inductive PyExn : Type :=
| Builtin (e : PyError)
| IndexError
| KeyError
| NameError.

Inductive Outcome (A : Type) : Type :=
| Returns (a : A)
| Raises (e : PyExn).

Arguments Returns {A} a.
Arguments Raises {A} e.

Definition and_then {A B : Type} (c : Outcome A) (k : A -> Outcome B) : Outcome B :=
  match c with
  | Returns a => k a
  | Raises e => Raises e
  end.

Notation "x <-- c ;; k" := (and_then c (fun x => k))
  (at level 61, c at next level, right associativity).

(** [xs[i]] for a Python integer [i]: negative indices count from the
    end, indices outside the list raise [IndexError]. *)
Definition py_getitem {A : Type} (xs : list A) (i : Z) : Outcome A :=
  let n := Z.of_nat (List.length xs) in
  if (0 <=? i)%Z && (i <? n)%Z then
    match nth_error xs (Z.to_nat i) with Some x => Returns x | None => Raises IndexError end
  else if (- n <=? i)%Z && (i <? 0)%Z then
    match nth_error xs (Z.to_nat (n + i)) with Some x => Returns x | None => Raises IndexError end
  else Raises IndexError.

(** [xs[:n]]. *)
Definition py_slice_to {A : Type} (xs : list A) (n : Z) : list A :=
  if (n <? 0)%Z then firstn (Z.to_nat (Z.of_nat (List.length xs) + n)) xs
  else firstn (Z.to_nat n) xs.

(** [range(n)] and [range(a, b)] for Python integers. *)
Definition py_range (n : Z) : list nat := seq 0 (Z.to_nat n).

Module sigopt_run.

(** Lines 59-65 of [do_sigopt_run].  [params i] is what the SigOpt
    parameters hold under the key [hidden_layer_{i+1}_neurons] before
    the loop ([None] when the key is absent, so that [setdefault] stores
    the default). *)
Fixpoint set_hidden_layers (params : nat -> option Z) (idx : list nat)
    (hidden_layers : list Z) : Outcome (list Z) :=
  match idx with
  | [] => Returns hidden_layers
  | i :: rest =>
      default <-- py_getitem hidden_layers (Z.of_nat i) ;;
      let value := match params i with Some v => v | None => default end in
      set_hidden_layers params rest (set_nth hidden_layers i value)
  end.

Definition hidden_layers_of (hidden_1 hidden_2 hidden_3 : Z)
    (sigopt_number_of_layers args_number_of_layers : Z)
    (params : nat -> option Z) : Outcome (list Z) :=
  let hidden_layers :=
    py_slice_to [hidden_1; hidden_2; hidden_3] sigopt_number_of_layers in
  set_hidden_layers params (py_range args_number_of_layers) hidden_layers.

(** The bookkeeping of the training loop, lines 81-146. *)
Record Bookkeeping : Type := {
  epoch_train_accuracies : list Q;
  epoch_test_accuracies : list Q;
  best_accuracy : option (Q * nat);
  early_stopping_counter : nat;
  early_stop_prints : nat;
  logged_best_train_accuracy : list Q
}.

Definition start : Bookkeeping :=
  {| epoch_train_accuracies := [];
     epoch_test_accuracies := [];
     best_accuracy := None;
     early_stopping_counter := 0;
     early_stop_prints := 0;
     logged_best_train_accuracy := [] |}.

(** Lines 127-133: the early-stopping check. *)
Definition check_best (epoch : nat) (test_accuracy : Q) (b : Bookkeeping)
  : option (Q * nat) * nat * nat :=
  match best_accuracy b with
  | None => (Some (test_accuracy, epoch), 0, early_stop_prints b)
  | Some best =>
      if Qlt_bool (fst best) test_accuracy
      then (Some (test_accuracy, epoch), 0, early_stop_prints b)
      else if Qlt_bool test_accuracy (fst best)
      then let counter := S (early_stopping_counter b) in
           (Some best, counter,
            if 20 <=? counter then S (early_stop_prints b) else early_stop_prints b)
      else (Some best, early_stopping_counter b, early_stop_prints b)
  end.

(** One iteration of the loop of lines 94-152, given the accuracies the
    two passes of the epoch returned. *)
Definition epoch_body (epoch : nat) (train_accuracy test_accuracy : Q)
    (b : Bookkeeping) : Outcome Bookkeeping :=
  let trains := epoch_train_accuracies b ++ [train_accuracy] in
  let tests := epoch_test_accuracies b ++ [test_accuracy] in
  let checked := check_best epoch test_accuracy b in
  match fst (fst checked) with
  | None => Raises (Builtin TypeError)
  | Some best =>
      logged <-- py_getitem trains (Z.of_nat (snd best) - 1) ;;
      Returns {| epoch_train_accuracies := trains;
                 epoch_test_accuracies := tests;
                 best_accuracy := Some best;
                 early_stopping_counter := snd (fst checked);
                 early_stop_prints := snd checked;
                 logged_best_train_accuracy :=
                   logged_best_train_accuracy b ++ [logged] |}
  end.

(** [for epoch in range(1, 1 + number_of_epochs)]; the loop has no
    [break]. *)
Fixpoint epochs (accuracies : nat -> Q * Q) (todo : list nat) (b : Bookkeeping)
  : Outcome Bookkeeping :=
  match todo with
  | [] => Returns b
  | epoch :: rest =>
      b' <-- epoch_body epoch (fst (accuracies epoch)) (snd (accuracies epoch)) b ;;
      epochs accuracies rest b'
  end.

Definition training_loop (accuracies : nat -> Q * Q) (number_of_epochs : nat)
  : Outcome Bookkeeping :=
  epochs accuracies (seq 1 number_of_epochs) start.

End sigopt_run.

Module baseline.

(** Line 40 of the baseline script:
    [batch_size = (len(train_idx) + 29) // 30]. *)
Definition batch_size (num_train : nat) : nat := (num_train + 29) / 30.

(** The number of batches of a data loader with [drop_last=False]. *)
Definition num_batches (num_items size : nat) : nat := (num_items + size - 1) / size.

End baseline.

(** What the bookkeeping holds after the epochs [1 .. m]. *)
Definition kept_after (accuracies : nat -> Q * Q) (m : nat)
    (b : sigopt_run.Bookkeeping) : Prop :=
  sigopt_run.epoch_train_accuracies b = map (fun e => fst (accuracies e)) (seq 1 m) /\
  sigopt_run.epoch_test_accuracies b = map (fun e => snd (accuracies e)) (seq 1 m) /\
  List.length (sigopt_run.logged_best_train_accuracy b) = m /\
  match sigopt_run.best_accuracy b with
  | None => m = 0
  | Some (v, e) =>
      1 <= e <= m /\ v = snd (accuracies e) /\
      (forall j, 1 <= j <= m -> (snd (accuracies j) <= v)%Q) /\
      (forall j, 1 <= j < e -> (snd (accuracies j) < v)%Q)
  end.


(** ** The multi-layer network

    [GAT] of [models/gat_with_projection.py].  [nn.BatchNorm1d] is the
    library's: a function of the mode and of the batch. *)

Record LinearB : Type := {
  lb_weight : Linear;
  lb_bias : Vec
}.

(** [nn.Linear(in, out)] with its bias. *)
Definition linear_b (L : LinearB) (x : Vec) : Vec :=
  vadd (linear (lb_weight L) x) (lb_bias L).

(** [F.relu]. *)
Definition relu (x : R) : R := Rmax 0 x.

Definition BatchNorm : Type := bool -> list Vec -> list Vec.

Record GAT : Type := {
  gat_num_heads : nat;
  gat_num_layers : nat;
  gat_input_dropout : Q;
  gat_dropout : Q;
  gat_residual : bool;
  gat_activation : option (R -> R);
  _node_encoder : LinearB;
  _edge_encoder : option (list LinearB);
  _convs : list GATConv;
  _batch_norms : option (list BatchNorm);
  _fc_prediction : LinearB
}.

(** A graph or block with the feature tensors stored on it:
    [g.srcdata['feat']] and [g.edata['feat']], absent when the key is. *)
Record GraphData : Type := {
  gd_graph : DGLGraph;
  gd_srcdata_feat : option (list Vec);
  gd_edata_feat : option (list Vec)
}.

(** The argument of [GAT.forward]: a list of blocks, or one graph. *)
Inductive GATInput : Type :=
| Blocks (g : list GraphData)
| FullGraph (g : GraphData).

(** The random draws of one pass of the network. *)
Record GATRng : Type := {
  input_keep : nat -> nat -> bool;
  conv_rng : nat -> Rng;
  hidden_keep : nat -> nat -> nat -> bool
}.

(** [nn.Dropout(p)] on a tensor of shape [(N, D)]. *)
Definition drop2 (p : Q) (training : bool) (keep : nat -> nat -> bool)
    (x : list Vec) : list Vec :=
  map (fun ir => map (fun jv => dropout p training (keep (fst ir) (fst jv)) (snd jv))
                     (combine (seq 0 (List.length (snd ir))) (snd ir)))
      (combine (seq 0 (List.length x)) x).

Definition lift {A : Type} (r : Result A) : Outcome A :=
  match r with
  | Ok a => Returns a
  | Raise e => Raises (Builtin e)
  end.

Definition feat_of (data : option (list Vec)) : Outcome (list Vec) :=
  match data with
  | Some f => Returns f
  | None => Raises KeyError
  end.

Definition apply2 (a : R -> R) (x : list Vec) : list Vec := map (map a) x.

Definition act_or_relu (act : option (R -> R)) : R -> R :=
  match act with
  | Some a => a
  | None => relu
  end.

Definition apply_batch_norm (m : GAT) (training : bool) (i : nat) (x : list Vec)
  : Outcome (list Vec) :=
  match _batch_norms m with
  | Some bns => bn <-- py_getitem bns (Z.of_nat i) ;; Returns (bn training x)
  | None => Returns x
  end.

(** Lines 289-295 and 313-319: what follows the convolution. *)
Definition after_conv (m : GAT) (training : bool) (rng : GATRng) (i : nat)
    (y : list (list Vec)) : Outcome (list Vec) :=
  x <-- apply_batch_norm m training i (map (@concat R) y) ;;
  let x := match gat_activation m with
           | Some a => apply2 a x
           | None => x
           end in
  Returns (drop2 (gat_dropout m) training (hidden_keep rng i) x).

(** Lines 275-295: layer [i] on a list of blocks. *)
Definition layer_on_blocks (m : GAT) (training : bool) (rng : GATRng)
    (g : list GraphData) (i : nat) (x : list Vec) : Outcome (list Vec) :=
  efeat_embedding <--
    match _edge_encoder m with
    | Some encoders =>
        gi <-- py_getitem g (Z.of_nat i) ;;
        efeat <-- feat_of (gd_edata_feat gi) ;;
        encoder <-- py_getitem encoders (Z.of_nat i) ;;
        Returns (Some (apply2 (act_or_relu (gat_activation m))
                              (map (linear_b encoder) efeat)))
    | None => Returns None
    end ;;
  conv <-- py_getitem (_convs m) (Z.of_nat i) ;;
  gi <-- py_getitem g (Z.of_nat i) ;;
  y <-- lift (forward conv training (conv_rng rng i) (gd_graph gi) x
                      efeat_embedding) ;;
  after_conv m training rng i y.

(** Lines 303-319: layer [i] on the full graph. *)
Definition layer_on_graph (m : GAT) (training : bool) (rng : GATRng)
    (g : GraphData) (i : nat) (x : list Vec) : Outcome (list Vec) :=
  efeat_embedding <--
    match _edge_encoder m with
    | Some encoders =>
        efeat <-- feat_of (gd_edata_feat g) ;;
        encoder <-- py_getitem encoders (Z.of_nat i) ;;
        Returns (Some (apply2 relu (map (linear_b encoder) efeat)))
    | None => Returns None
    end ;;
  conv <-- py_getitem (_convs m) (Z.of_nat i) ;;
  y <-- lift (forward conv training (conv_rng rng i) (gd_graph g) x
                      efeat_embedding) ;;
  after_conv m training rng i y.

(** [for i in range(self._num_layers)]. *)
Fixpoint layers (layer : nat -> list Vec -> Outcome (list Vec)) (idx : list nat)
    (x : list Vec) : Outcome (list Vec) :=
  match idx with
  | [] => Returns x
  | i :: rest => x' <-- layer i x ;; layers layer rest x'
  end.

(** [GAT.forward]. *)
Definition GAT_forward (m : GAT) (training : bool) (rng : GATRng)
    (input : GATInput) : Outcome (list Vec) :=
  match input with
  | Blocks g =>
      g0 <-- py_getitem g 0 ;;
      feat <-- feat_of (gd_srcdata_feat g0) ;;
      let x := map (linear_b (_node_encoder m)) feat in
      let x := apply2 (act_or_relu (gat_activation m)) x in
      let x := drop2 (gat_input_dropout m) training (input_keep rng) x in
      x <-- layers (layer_on_blocks m training rng g)
                   (seq 0 (gat_num_layers m)) x ;;
      Returns (map (linear_b (_fc_prediction m)) x)
  | FullGraph g =>
      feat <-- feat_of (gd_srcdata_feat g) ;;
      let x := map (linear_b (_node_encoder m)) feat in
      let x := apply2 relu x in
      let x := drop2 (gat_input_dropout m) training (input_keep rng) x in
      x <-- layers (layer_on_graph m training rng g)
                   (seq 0 (gat_num_layers m)) x ;;
      Returns (map (linear_b (_fc_prediction m)) x)
  end.

(** The weights and library objects [GAT.__init__] creates. *)
Record GATWeights : Type := {
  gw_node_encoder : LinearB;
  gw_edge_encoder : nat -> LinearB;
  gw_conv : nat -> InitWeights;
  gw_batch_norm : nat -> BatchNorm;
  gw_fc_prediction : LinearB
}.

Section GATInit.

Variable nn_Parameter_error : PyError.

(** The loop of lines 231-255, for the convolutions. *)
Fixpoint init_convs (edge_hidden_feats node_hidden_feats num_heads : nat)
    (norm : string) (attn_dropout : Q) (edge_dropout : py_float)
    (negative_slope : R)
    (residual use_attn_dst allow_zero_in_degree : bool)
    (w : nat -> InitWeights) (idx : list nat) : Result (list GATConv) :=
  match idx with
  | [] => Ok []
  | i :: rest =>
      conv <- GATConv_init nn_Parameter_error edge_hidden_feats node_hidden_feats
                num_heads norm attn_dropout edge_dropout negative_slope
                residual None use_attn_dst allow_zero_in_degree (w i) ;;
      convs <- init_convs edge_hidden_feats node_hidden_feats num_heads norm
                 attn_dropout edge_dropout negative_slope residual
                 use_attn_dst allow_zero_in_degree w rest ;;
      Ok (conv :: convs)
  end.

(** [GAT.__init__]. *)
Definition GAT_init (edge_hidden_feats node_hidden_feats num_heads num_layers : nat)
    (norm : string) (batch_norm : bool)
    (input_dropout attn_dropout : Q) (edge_dropout : py_float) (dropout : Q)
    (negative_slope : R)
    (residual : bool) (activation : option (R -> R))
    (use_attn_dst allow_zero_in_degree : bool) (w : GATWeights) : Result GAT :=
  input_dropout <- nn_Dropout input_dropout ;;
  dropout <- nn_Dropout dropout ;;
  convs <- init_convs edge_hidden_feats node_hidden_feats num_heads norm
             attn_dropout edge_dropout negative_slope residual use_attn_dst
             allow_zero_in_degree (gw_conv w) (seq 0 num_layers) ;;
  Ok {| gat_num_heads := num_heads;
        gat_num_layers := num_layers;
        gat_input_dropout := input_dropout;
        gat_dropout := dropout;
        gat_residual := residual;
        gat_activation := activation;
        _node_encoder := gw_node_encoder w;
        _edge_encoder := if 0 <? edge_hidden_feats
                         then Some (map (gw_edge_encoder w) (seq 0 num_layers))
                         else None;
        _convs := convs;
        _batch_norms := if batch_norm
                        then Some (map (gw_batch_norm w) (seq 0 num_layers))
                        else None;
        _fc_prediction := gw_fc_prediction w |}.

End GATInit.

(** ** Setters of the layer *)

(** [GATConv.set_allow_zero_in_degree]. *)
Definition set_allow_zero_in_degree (l : GATConv) (value : bool) : GATConv :=
  {| _out_feats := _out_feats l;
     _num_heads := _num_heads l;
     _norm := _norm l;
     _attn_dropout := _attn_dropout l;
     _edge_dropout := _edge_dropout l;
     _negative_slope := _negative_slope l;
     _activation := _activation l;
     _allow_zero_in_degree := value;
     _fc_src := _fc_src l;
     _fc_dst := _fc_dst l;
     bias := bias l;
     _attn_fc_src := _attn_fc_src l;
     _attn_fc_dst := _attn_fc_dst l;
     _attn_fc_edge := _attn_fc_edge l |}.

(** The layer [l] as it would be with [norm = n] in [__init__]. *)
Definition with_norm (l : GATConv) (n : string) : GATConv :=
  {| _out_feats := _out_feats l;
     _num_heads := _num_heads l;
     _norm := n;
     _attn_dropout := _attn_dropout l;
     _edge_dropout := _edge_dropout l;
     _negative_slope := _negative_slope l;
     _activation := _activation l;
     _allow_zero_in_degree := _allow_zero_in_degree l;
     _fc_src := _fc_src l;
     _fc_dst := _fc_dst l;
     bias := bias l;
     _attn_fc_src := _attn_fc_src l;
     _attn_fc_dst := _attn_fc_dst l;
     _attn_fc_edge := _attn_fc_edge l |}.

(** ** Concrete layers, graphs and worlds

    Small instances on which the statements below are evaluated. *)

Definition layer_1x1 (norm : string) (attn_dropout : Q)
    (edge_dropout : py_float) (fc_dst attn_fc_dst : option Linear) (allow_zero : bool) : GATConv :=
  {| _out_feats := 1;
     _num_heads := 1;
     _norm := norm;
     _attn_dropout := attn_dropout;
     _edge_dropout := edge_dropout;
     _negative_slope := (1 / 5)%R;
     _activation := None;
     _allow_zero_in_degree := allow_zero;
     _fc_src := [[1%R]];
     _fc_dst := fc_dst;
     bias := match fc_dst with Some _ => None | None => Some [0%R] end;
     _attn_fc_src := [[1%R]];
     _attn_fc_dst := attn_fc_dst;
     _attn_fc_edge := None |}.

Definition weights_1x1 : InitWeights :=
  {| w_fc_src := [[1%R]];
     w_fc_dst := [[1%R]];
     w_attn_fc_src := [[1%R]];
     w_attn_fc_dst := [[1%R]];
     w_attn_fc_edge := [[1%R]] |}.

Definition rng_const (perm : list nat) (keep : bool) : Rng :=
  {| randperm := perm; attn_keep := fun _ _ => keep |}.

(** One node with a self-loop; one node without edges. *)
Definition g_loop : DGLGraph :=
  {| is_block := false; num_src_nodes := 1; num_dst_nodes := 1;
     edges := [(0, 0)] |}.

(** One node with [n] parallel self-loops. *)
Definition g_loops (n : nat) : DGLGraph :=
  {| is_block := false; num_src_nodes := 1; num_dst_nodes := 1;
     edges := repeat (0, 0) n |}.

Definition g_isolated : DGLGraph :=
  {| is_block := false; num_src_nodes := 1; num_dst_nodes := 1; edges := [] |}.

(** Two nodes that point at each other. *)
Definition g_swap : DGLGraph :=
  {| is_block := false; num_src_nodes := 2; num_dst_nodes := 2;
     edges := [(0, 1); (1, 0)] |}.

(** Node 1 points at node 0 and at itself; the block sampled for the
    seed node 0 keeps the only edge into it. *)
Definition g_fan : DGLGraph :=
  {| is_block := false; num_src_nodes := 2; num_dst_nodes := 2;
     edges := [(1, 0); (1, 1)] |}.

Definition b_fan : DGLGraph :=
  {| is_block := true; num_src_nodes := 2; num_dst_nodes := 1;
     edges := [(1, 0)] |}.

(** A model whose only parameter counts the optimizer steps; the loss
    of a pass is the distance of that count to 3. *)
Definition toy_torch : Torch :=
  {| Params := nat;
     Grads := nat;
     OptState := unit;
     Input := nat;
     Mask := unit;
     Logits := nat;
     Labels := nat;
     model_forward := fun p _ _ => Ok p;
     labels_of := fun x => x;
     index_logits := fun y _ => y;
     index_labels := fun y _ => y;
     len := fun _ => 1;
     loss_function := fun y _ => inject_Z (Z.abs (Z.of_nat y - 3));
     count_correct := fun _ _ => 1;
     get_evaluation_score := fun _ _ => 1%Q;
     loss_gradient := fun _ _ _ => 1;
     zero_grads := 0;
     add_grads := Nat.add;
     optimizer_update := fun o p g => (p + g, o) |}.

Definition toy_world : World toy_torch :=
  {| w_params := 0 : Params toy_torch;
     w_grads := 0 : Grads toy_torch;
     w_opt := tt : OptState toy_torch;
     w_training := false;
     w_grad_enabled := true;
     w_forward_log := [];
     w_clock := fun n => inject_Z (Z.of_nat n);
     w_ticks := 0 |}.

(** One batch per epoch, and the loss the toy model then has in the
    validation pass of epoch [i]. *)
Definition toy_loader (_ : nat) : list (Input toy_torch) := [0].

Definition toy_loss (i : nat) : Q := inject_Z (Z.abs (Z.of_nat (S i) - 3)).

(** The same model with another loss: 0 after the first optimizer
    step, 5 after the second, then 1, 2, 3, ... *)
Definition bump_loss (i : nat) : Q :=
  match i with
  | 0 => 0
  | 1 => 5
  | S (S n) => inject_Z (Z.of_nat (S n))
  end.

Definition bump_torch : Torch :=
  {| Params := nat;
     Grads := nat;
     OptState := unit;
     Input := nat;
     Mask := unit;
     Logits := nat;
     Labels := nat;
     model_forward := fun p _ _ => Ok p;
     labels_of := fun x => x;
     index_logits := fun y _ => y;
     index_labels := fun y _ => y;
     len := fun _ => 1;
     loss_function := fun y _ => bump_loss (y - 1);
     count_correct := fun _ _ => 1;
     get_evaluation_score := fun _ _ => 1%Q;
     loss_gradient := fun _ _ _ => 1;
     zero_grads := 0;
     add_grads := Nat.add;
     optimizer_update := fun o p g => (p + g, o) |}.

Definition bump_world : World bump_torch :=
  {| w_params := 0 : Params bump_torch;
     w_grads := 0 : Grads bump_torch;
     w_opt := tt : OptState bump_torch;
     w_training := false;
     w_grad_enabled := true;
     w_forward_log := [];
     w_clock := fun n => inject_Z (Z.of_nat n);
     w_ticks := 0 |}.

Definition bump_loader (_ : nat) : list (Input bump_torch) := [0].

(** A model that predicts its parameter for every node; inputs are the
    label vectors and masks are lists of node indices. *)
Definition toy_select (y : list nat) (mask : list nat) : list nat :=
  map (fun i => nth i y 0) mask.

Definition toy_masked_torch : Torch :=
  {| Params := nat;
     Grads := nat;
     OptState := unit;
     Input := list nat;
     Mask := list nat;
     Logits := list nat;
     Labels := list nat;
     model_forward := fun p _ x => Ok (map (fun _ => p) x);
     labels_of := fun x => x;
     index_logits := toy_select;
     index_labels := toy_select;
     len := @List.length nat;
     loss_function := fun y _ => inject_Z (Z.of_nat (List.length y));
     count_correct := fun y lb =>
       List.length (filter (fun p => Nat.eqb (fst p) (snd p)) (combine y lb));
     get_evaluation_score := fun _ _ => 0%Q;
     loss_gradient := fun _ _ _ => 1;
     zero_grads := 0;
     add_grads := Nat.add;
     optimizer_update := fun o p g => (p + g, o) |}.

Definition toy_masked_world : World toy_masked_torch :=
  {| w_params := 0 : Params toy_masked_torch;
     w_grads := 0 : Grads toy_masked_torch;
     w_opt := tt : OptState toy_masked_torch;
     w_training := true;
     w_grad_enabled := true;
     w_forward_log := [];
     w_clock := fun n => inject_Z (Z.of_nat n);
     w_ticks := 0 |}.

(** A network of [n] layers of one head and one feature, without edge
    encoder and without batch normalisation. *)
Definition toy_gat_weights : GATWeights :=
  {| gw_node_encoder := {| lb_weight := [[1%R]]; lb_bias := [0%R] |};
     gw_edge_encoder := fun _ => {| lb_weight := [[1%R]]; lb_bias := [0%R] |};
     gw_conv := fun _ => weights_1x1;
     gw_batch_norm := fun _ _ x => x;
     gw_fc_prediction := {| lb_weight := [[1%R]]; lb_bias := [0%R] |} |}.

Definition toy_gat (n : nat) (activation : option (R -> R)) : GAT :=
  {| gat_num_heads := 1;
     gat_num_layers := n;
     gat_input_dropout := 0;
     gat_dropout := 0;
     gat_residual := true;
     gat_activation := activation;
     _node_encoder := gw_node_encoder toy_gat_weights;
     _edge_encoder := None;
     _convs := repeat (layer_1x1 "none" 0 float_zero (Some [[1%R]]) None true) n;
     _batch_norms := None;
     _fc_prediction := gw_fc_prediction toy_gat_weights |}.

Definition gat_rng_const (perm : list nat) (keep : bool) : GATRng :=
  {| input_keep := fun _ _ => keep;
     conv_rng := fun _ => rng_const perm keep;
     hidden_keep := fun _ _ _ => keep |}.

Definition data_loop : GraphData :=
  {| gd_graph := g_loop;
     gd_srcdata_feat := Some [[1%R]];
     gd_edata_feat := None |}.

(** * Properties of the layer *)

Unset Implicit Arguments.

Section LayerFacts.

Local Open Scope R_scope.





Lemma dropped_no_assertion (l : GATConv) (g : DGLGraph) :
  dropped l g <> Raise AssertionError.
Proof.
  unfold dropped, float_of_int.
  destruct (binary_normalize 53 1024 (Z.of_nat (num_edges g)) 0 false);
    simpl; try discriminate;
    match goal with |- py_int ?x <> _ => destruct x; discriminate end.
Qed.

Lemma attention_no_assertion (l : GATConv) (training : bool) (rng : Rng)
    (g : DGLGraph) (e : list Vec) :
  attention l training rng g e <> Raise AssertionError.
Proof.
  unfold attention, kept_eids.
  destruct (edge_dropout_active l training); [|discriminate].
  pose proof (dropped_no_assertion l g) as Hd.
  destruct (dropped l g) as [b|err]; simpl; [discriminate | congruence].
Qed.

Lemma forward_body_no_assertion (l : GATConv) (training : bool) (rng : Rng)
    (g : DGLGraph) (x : list Vec) (ef : option (list Vec)) :
  forward_body l training rng g x ef <> Raise AssertionError.
Proof.
  unfold forward_body.
  destruct (_fc_dst l); simpl; [|discriminate].
  destruct (attn_logits l g x (node_inputs_dst g x) ef) as [e|err] eqn:He; simpl.
  - destruct (attention l training rng g e) as [a|err] eqn:Ha; simpl;
      [discriminate|].
    intros Heq. injection Heq as ->. revert Ha. apply attention_no_assertion.
  - unfold attn_logits in He.
    destruct ef as [efeat|]; [destruct (_attn_fc_edge l)|]; simpl in He;
      congruence.
Qed.

Lemma existsb_zero_in_degree (g : DGLGraph) :
  existsb (Nat.eqb 0) (in_degrees g) = true <->
  exists v, (v < num_dst_nodes g)%nat /\ in_degree g v = 0%nat.
Proof.
  unfold in_degrees. rewrite existsb_exists. split.
  - intros [d [Hin Hd]]. apply in_map_iff in Hin as [v [Hv Hin]].
    apply in_seq in Hin. apply Nat.eqb_eq in Hd.
    exists v. split; [lia | congruence].
  - intros [v [Hv Hz]]. exists 0%nat. split; [|reflexivity].
    apply in_map_iff. exists v. split; [assumption|].
    apply in_seq. lia.
Qed.

End LayerFacts.


(** C6. With [allow_zero_in_degree] disabled, a forward call on a graph
    with a destination node of in-degree zero raises [AssertionError];
    with it enabled, or when every destination node has an incoming
    edge, the assertion does not fire and the call continues with the
    rest of [forward]. *)
Theorem zero_in_degree_is_fatal (l : GATConv) (training : bool) (rng : Rng)
    (g : DGLGraph) (x : list Vec) (ef : option (list Vec)) :
  (_allow_zero_in_degree l = false ->
   (exists v, v < num_dst_nodes g /\ in_degree g v = 0) ->
   forward l training rng g x ef = Raise AssertionError) /\
  (_allow_zero_in_degree l = true \/
   (forall v, v < num_dst_nodes g -> 1 <= in_degree g v) ->
   forward l training rng g x ef = forward_body l training rng g x ef /\
   forward l training rng g x ef <> Raise AssertionError).
Proof.
  unfold forward, check_in_degree. split.
  - intros Hallow Hz.
    apply existsb_zero_in_degree in Hz. rewrite Hallow, Hz. reflexivity.
  - intros Hok.
    assert (Hgo : (if negb (_allow_zero_in_degree l)
                   then if existsb (Nat.eqb 0) (in_degrees g)
                        then Raise AssertionError else Ok tt
                   else Ok tt) = Ok tt).
    { destruct Hok as [-> | Hdeg]; [reflexivity|].
      destruct (negb (_allow_zero_in_degree l)); [|reflexivity].
      destruct (existsb (Nat.eqb 0) (in_degrees g)) eqn:Hex; [|reflexivity].
      apply existsb_zero_in_degree in Hex as [v [Hv Hz]].
      specialize (Hdeg v Hv). lia. }
    rewrite Hgo. simpl. split; [reflexivity|].
    apply forward_body_no_assertion.
Qed.

Lemma nth_map_rows {A : Type} (f : Vec -> A) (d : A) (x x' : list Vec) (u : nat) :
  List.length x = List.length x' ->
  nth u x [] = nth u x' [] ->
  nth u (map f x) d = nth u (map f x') d.
Proof.
  revert x' u. induction x as [|r x IH]; intros [|r' x'] u Hlen Hrow;
    simpl in Hlen; try discriminate; [reflexivity|].
  destruct u as [|u]; simpl in *; [congruence|].
  apply IH; [lia | assumption].
Qed.

(** C5. With [use_attn_dst] disabled ([_attn_fc_dst] is [None]) the
    attention logits of [forward] read the node features only at the
    source of each edge: two calls on the same graph, with the same
    edge features and parameters, whose node features agree on every
    row that is the source of an edge compute the same logits, however
    the rows of the destination nodes differ. *)
Theorem attn_logits_ignore_dst_features (l : GATConv) (g : DGLGraph)
    (node_inputs node_inputs' : list Vec) (edge_inputs : option (list Vec)) :
  _attn_fc_dst l = None ->
  List.length node_inputs = List.length node_inputs' ->
  (forall k, k < num_edges g ->
     nth (src_of g k) node_inputs [] = nth (src_of g k) node_inputs' []) ->
  attn_logits l g node_inputs (node_inputs_dst g node_inputs) edge_inputs =
  attn_logits l g node_inputs' (node_inputs_dst g node_inputs') edge_inputs.
Proof.
  intros Hnone Hlen Hsrc. unfold attn_logits. rewrite Hnone.
  assert (Hnode :
    map (fun uv : nat * nat =>
           nth (fst uv) (map (linear (_attn_fc_src l)) node_inputs) [])
        (edges g) =
    map (fun uv : nat * nat =>
           nth (fst uv) (map (linear (_attn_fc_src l)) node_inputs') [])
        (edges g)).
  { apply map_ext_in. intros uv Huv.
    apply (In_nth _ _ (0, 0)) in Huv as [k [Hk Hnth]].
    apply nth_map_rows; [assumption|].
    specialize (Hsrc k Hk). unfold src_of in Hsrc. rewrite Hnth in Hsrc.
    exact Hsrc. }
  rewrite Hnode. reflexivity.
Qed.

(** C4. A layer with [residual] disabled is never built: line 50 hands
    [nn.Parameter] an integer, so [__init__] raises for every
    configuration, with the library's exception as soon as the
    attention-dropout rate is one [nn.Dropout] accepts.  Nor would the
    bias of lines 178-179 be added to a layer whose [_fc_dst] is
    [None]: line 107 of [forward] calls [_fc_dst] whatever it is, and
    no forward call on such a layer returns. *)
Theorem residual_disabled_never_adds_bias
    (nn_Parameter_error : PyError)
    (edge_in_feats out_feats num_heads : nat) (norm : string)
    (attn_dropout : Q) (edge_dropout : py_float) (negative_slope : R)
    (activation : option (R -> R)) (use_attn_dst allow_zero : bool)
    (w : InitWeights) :
  ~ returns (GATConv_init nn_Parameter_error edge_in_feats out_feats
               num_heads norm attn_dropout edge_dropout negative_slope false
               activation use_attn_dst allow_zero w) /\
  ((0 <= attn_dropout <= 1)%Q ->
   GATConv_init nn_Parameter_error edge_in_feats out_feats num_heads norm
     attn_dropout edge_dropout negative_slope false activation use_attn_dst
     allow_zero w = Raise nn_Parameter_error) /\
  (forall (l : GATConv) (training : bool) (rng : Rng) (g : DGLGraph)
          (x : list Vec) (ef : option (list Vec)),
     _fc_dst l = None ->
     forward_body l training rng g x ef = Raise TypeError /\
     ~ returns (forward l training rng g x ef)).
Proof.
  split; [|split].
  - unfold returns, GATConv_init, nn_Dropout. intros [l Hl].
    destruct (Qlt_bool attn_dropout 0 || Qlt_bool 1 attn_dropout);
      simpl in Hl; discriminate.
  - intros [Hlo Hhi]. unfold GATConv_init, nn_Dropout.
    replace (Qlt_bool attn_dropout 0) with false
      by (symmetry; unfold Qlt_bool; apply negb_false_iff, Qle_bool_iff;
          assumption).
    replace (Qlt_bool 1 attn_dropout) with false
      by (symmetry; unfold Qlt_bool; apply negb_false_iff, Qle_bool_iff;
          assumption).
    reflexivity.
  - intros l training rng g x ef Hn.
    assert (Hbody : forward_body l training rng g x ef = Raise TypeError).
    { unfold forward_body. rewrite Hn. reflexivity. }
    split; [exact Hbody|].
    unfold returns, forward. intros [out Hout].
    destruct (check_in_degree l g) as [[]|err]; simpl in Hout; [|discriminate].
    rewrite Hbody in Hout. discriminate.
Qed.

(** * Properties of the passes *)

Section PassFacts.

Context {T : Torch}.

Lemma for_enumerate_binds_step {X : Type}
    (body : nat -> X -> Locals -> M T Locals) :
  (forall i x loc w loc' w',
      body i x loc w = (Ok loc', w') -> step loc' = step loc) ->
  forall items loc w loc' w',
    for_enumerate body items loc w = (Ok loc', w') ->
    step loc' = fold_left (fun _ ix => Some (fst ix)) items (step loc).
Proof.
  intros Hbody items. induction items as [|[i x] rest IH]; intros loc w loc' w' Hrun.
  - simpl in Hrun. unfold ret in Hrun. injection Hrun as <- _. reflexivity.
  - simpl in Hrun. unfold bindM in Hrun.
    destruct (body i x _ w) as [[loc1|err] w1] eqn:Hb; [|discriminate].
    apply Hbody in Hb. simpl in Hb.
    apply IH in Hrun. rewrite Hrun, Hb. reflexivity.
Qed.

Lemma train_mini_batch_body_keeps_step (i : nat) (x : Input T)
    (loc loc' : Locals) (w w' : World T) :
  gat_with_projection.train_mini_batch_body i x loc w = (Ok loc', w') ->
  step loc' = step loc.
Proof.
  unfold gat_with_projection.train_mini_batch_body, bindM, optimizer_zero_grad,
    call_model, loss_backward, optimizer_step, div_len, ret, raise.
  simpl.
  destruct (model_forward T _ _ x); [|discriminate].
  simpl. destruct (w_grad_enabled w); [|discriminate].
  simpl. destruct (Nat.eqb _ 0); [discriminate|].
  intros H. injection H as <- _. reflexivity.
Qed.

Lemma train_body_keeps_step (i : nat) (x : Input T)
    (loc loc' : Locals) (w w' : World T) :
  mini_batch.train_body i x loc w = (Ok loc', w') -> step loc' = step loc.
Proof.
  unfold mini_batch.train_body, bindM, optimizer_zero_grad,
    call_model, loss_backward, optimizer_step, ret.
  simpl.
  destruct (model_forward T _ _ x); [|discriminate].
  simpl. destruct (w_grad_enabled w); [|discriminate].
  intros H. injection H as <- _. reflexivity.
Qed.

Lemma last_step_of_enumerate {X : Type} (xs : list X) (a : nat) (o : option nat) :
  fold_left (fun _ ix => Some (fst ix)) (combine (seq a (List.length xs)) xs) o =
  match xs with
  | [] => o
  | _ :: _ => Some (a + List.length xs - 1)
  end.
Proof.
  revert a o. induction xs as [|x rest IH]; intros a o; [reflexivity|].
  simpl. rewrite IH. destruct rest; simpl; f_equal; lia.
Qed.

End PassFacts.

(** C10. When the data loader yields no batch, both mini-batch training
    passes ([train_mini_batch] of the model file and [train] of
    [mini_batch.py]) raise the unbound-variable error at [step + 1]
    instead of returning their (time, loss, score) triple; a call that
    returns had a data loader with at least one batch. *)
Theorem empty_dataloader_raises_unbound (T : Torch) (w : World T) :
  fst (gat_with_projection.train_mini_batch [] w) = Raise UnboundLocalError /\
  fst (mini_batch.train [] w) = Raise UnboundLocalError /\
  (forall dataloader,
      returns (fst (gat_with_projection.train_mini_batch dataloader w)) \/
      returns (fst (mini_batch.train dataloader w)) ->
      dataloader <> []).
Proof.
  split; [reflexivity|]. split; [reflexivity|].
  intros dataloader Hret ->.
  destruct Hret as [[r Hr] | [r Hr]]; discriminate Hr.
Qed.

(** For a data loader with at least one batch, [step] is bound when the
    loop ends: an exception of the pass is one of the loop body, and
    otherwise the totals are divided by the number of batches. *)
Lemma train_mini_batch_nonempty (T : Torch) (w : World T)
    (dataloader : list (Input T)) :
  dataloader <> [] ->
  let w0 := snd (default_timer (snd (model_train w))) in
  let n := inject_Z (Z.of_nat (List.length dataloader)) in
  match fst (for_enumerate gat_with_projection.train_mini_batch_body
                           (enumerate dataloader)
                           {| step := None; total_loss := 0%Q; total_score := 0%Q |}
                           w0) with
  | Ok loc =>
      exists time,
        fst (gat_with_projection.train_mini_batch dataloader w)
        = Ok (time, (total_loss loc / n)%Q, (total_score loc / n)%Q)
  | Raise e => fst (gat_with_projection.train_mini_batch dataloader w) = Raise e
  end.
Proof.
  intros Hne w0 n.
  set (loc0 := {| step := None; total_loss := 0%Q; total_score := 0%Q |}).
  assert (Hrun : gat_with_projection.train_mini_batch dataloader w =
                 match for_enumerate gat_with_projection.train_mini_batch_body
                         (enumerate dataloader) loc0 w0 with
                 | (Ok loc, w1) => averages (w_clock w (w_ticks w)) loc w1
                 | (Raise e, w1) => (Raise e, w1)
                 end) by reflexivity.
  rewrite Hrun. clear Hrun.
  destruct (for_enumerate gat_with_projection.train_mini_batch_body
              (enumerate dataloader) loc0 w0) as [[loc|err] w1] eqn:Hloop;
    simpl; [|reflexivity].
  apply for_enumerate_binds_step in Hloop;
    [|intros; eapply train_mini_batch_body_keeps_step; eassumption].
  unfold enumerate in Hloop. rewrite last_step_of_enumerate in Hloop.
  destruct dataloader as [|x rest]; [contradiction|].
  unfold averages, bindM, default_timer, ret. rewrite Hloop.
  replace (0 + List.length (x :: rest) - 1 + 1) with (List.length (x :: rest))
    by (simpl List.length; lia).
  eexists. reflexivity.
Qed.

(** What a training pass on the full graph does to the parameters, for
    comparison: when it returns, they are those of the optimizer step. *)
Lemma train_full_graph_steps_parameters (T : Torch) (g : Input T)
    (mask : Mask T) (w : World T) (r : Q * Q * Q) (w' : World T) :
  gat_with_projection.train_full_graph g mask w = (Ok r, w') ->
  w_params w' =
  fst (optimizer_update T (w_opt w) (w_params w)
         (add_grads T (zero_grads T) (loss_gradient T (w_params w) true g))).
Proof.
  unfold gat_with_projection.train_full_graph, bindM, model_train, set_training,
    optimizer_zero_grad, default_timer, call_model, loss_backward,
    optimizer_step, div_len, ret, raise.
  simpl.
  destruct (model_forward T (w_params w) true g); [|discriminate].
  simpl. destruct (w_grad_enabled w); [|discriminate].
  simpl. destruct (Nat.eqb _ 0); [discriminate|].
  intros H. injection H as _ <-. reflexivity.
Qed.

(** C9. A call of [validate] (the one of the model file and the one of
    [full_graph.py]) runs exactly one forward pass, in evaluation mode
    and with gradient tracking disabled, and leaves the parameters, the
    gradients and the optimizer state as they were, whether it returns
    its metrics or raises. *)
Theorem validate_leaves_parameters (T : Torch) (g : Input T) (mask : Mask T)
    (w : World T) :
  let eval_call := {| fc_training := false; fc_grad_enabled := false |} in
  let w1 := snd (gat_with_projection.validate g mask w) in
  let w2 := snd (full_graph.validate g mask w) in
  (w_params w1 = w_params w /\ w_grads w1 = w_grads w /\ w_opt w1 = w_opt w /\
   w_forward_log w1 = w_forward_log w ++ [eval_call] /\
   w_grad_enabled w1 = w_grad_enabled w) /\
  (w_params w2 = w_params w /\ w_grads w2 = w_grads w /\ w_opt w2 = w_opt w /\
   w_forward_log w2 = w_forward_log w ++ [eval_call] /\
   w_grad_enabled w2 = w_grad_enabled w).
Proof.
  unfold gat_with_projection.validate, full_graph.validate, bindM, model_eval,
    set_training, no_grad, set_grad_enabled, default_timer, call_model,
    div_len, ret, raise.
  simpl.
  destruct (model_forward T (w_params w) false g) as [y|err]; simpl.
  - destruct (Nat.eqb _ 0); simpl; repeat split; reflexivity.
  - repeat split; reflexivity.
Qed.

(** * Evaluations on the concrete instances *)

Lemma zero_in_degree_is_fatal_witness :
  forward (layer_1x1 "none" 0 float_zero (Some [[1%R]]) None false) false
          (rng_const [] true) g_isolated [[1%R]] None
  = Raise AssertionError /\
  forward (layer_1x1 "none" 0 float_zero (Some [[1%R]]) None false) false
          (rng_const [0] true) g_loop [[1%R]] None
  <> Raise AssertionError.
Proof.
  split.
  - apply (proj1 (zero_in_degree_is_fatal _ false (rng_const [] true)
                    g_isolated [[1%R]] None)).
    + reflexivity.
    + exists 0. split; [simpl; lia | reflexivity].
  - apply (proj2 (zero_in_degree_is_fatal _ false (rng_const [0] true)
                    g_loop [[1%R]] None)).
    right. intros v Hv. simpl in Hv.
    assert (v = 0) as -> by lia. unfold in_degree. simpl. lia.
Defined.


Lemma attn_logits_ignore_dst_features_witness :
  attn_logits (layer_1x1 "none" 0 float_zero (Some [[1%R]]) None true) b_fan
              [[1%R]; [2%R]] (node_inputs_dst b_fan [[1%R]; [2%R]]) None =
  attn_logits (layer_1x1 "none" 0 float_zero (Some [[1%R]]) None true) b_fan
              [[7%R]; [2%R]] (node_inputs_dst b_fan [[7%R]; [2%R]]) None.
Proof.
  apply (attn_logits_ignore_dst_features
           (layer_1x1 "none" 0 float_zero (Some [[1%R]]) None true) b_fan
           [[1%R]; [2%R]] [[7%R]; [2%R]] None).
  - reflexivity.
  - reflexivity.
  - intros k Hk. unfold num_edges in Hk. simpl in Hk.
    destruct k as [|k]; [reflexivity | lia].
Defined.

Lemma residual_disabled_never_adds_bias_witness :
  GATConv_init TypeError 0 1 1 "none" 0 float_zero (1 / 5)%R false None true
               true weights_1x1 = Raise TypeError.
Proof.
  apply (proj1 (proj2 (residual_disabled_never_adds_bias TypeError 0 1 1 "none"
                         0 float_zero (1 / 5)%R None true true weights_1x1))).
  split; [apply Qle_refl | discriminate].
Defined.

(** * Properties of the epoch loop *)

Lemma Qlt_bool_true (a b : Q) : Qlt_bool a b = true <-> (a < b)%Q.
Proof.
  unfold Qlt_bool. rewrite negb_true_iff. split.
  - intros H. apply Qnot_le_lt. intros Hle.
    apply Qle_bool_iff in Hle. congruence.
  - intros H. destruct (Qle_bool b a) eqn:E; [|reflexivity].
    apply Qle_bool_iff in E. apply Qlt_not_le in H. contradiction.
Qed.

Lemma Qlt_bool_false (a b : Q) : Qlt_bool a b = false <-> (b <= a)%Q.
Proof.
  unfold Qlt_bool. rewrite negb_false_iff. apply Qle_bool_iff.
Qed.

Section EarlyStopping.

Context {T : Torch}.
Variable dataloader : nat -> list (Input T).
Variable g : Input T.
Variable valid_idx : Mask T.
Variable w0 : World T.

Let W (n : nat) : World T := mini_batch.world_after dataloader g valid_idx n w0.

Let passes (n : nat) := mini_batch.epoch_passes dataloader g valid_idx n (W n).

Lemma run_epoch_passes (epoch : nat) (cb : mini_batch.Callback) (w : World T) :
  mini_batch.run_epoch dataloader g valid_idx epoch cb w =
  match mini_batch.epoch_passes dataloader g valid_idx epoch w with
  | (Ok (tr, va), w') =>
      (Ok (mini_batch.create cb epoch (fst (fst tr)) (fst (fst va))
             (snd (fst tr)) (snd (fst va)) (snd tr) (snd va) (w_params w')), w')
  | (Raise e, w') => (Raise e, w')
  end.
Proof.
  unfold mini_batch.run_epoch, mini_batch.epoch_passes, bindM, ret.
  destruct (mini_batch.train (dataloader epoch) w) as [[tr|e] w1]; [|reflexivity].
  destruct (mini_batch.validate g valid_idx w1) as [[va|e] w2]; reflexivity.
Qed.

Lemma valid_loss_at_passes (n : nat) (q : Q) :
  mini_batch.valid_loss_at dataloader g valid_idx w0 n = Some q ->
  exists tr va, passes n = (Ok (tr, va), W (S n)) /\ snd (fst va) = q.
Proof.
  unfold mini_batch.valid_loss_at. fold (W n). fold (passes n).
  assert (HW : W (S n) = snd (passes n)) by reflexivity.
  destruct (passes n) as [[[tr va]|e] w'] eqn:Hp; simpl; [|discriminate].
  intros H. injection H as <-. exists tr, va. simpl in HW. subst w'.
  split; reflexivity.
Qed.

Variable loss : nat -> Q.
Variable k : nat.
Variable p : nat.

Hypothesis patience_positive : 1 <= p.
Hypothesis observed : forall i, i <= k + p ->
  mini_batch.valid_loss_at dataloader g valid_idx w0 i = Some (loss i).
Hypothesis new_best : forall i, i < k -> (loss k < loss i)%Q.
Hypothesis reached : forall j, j < k ->
  exists i, i <= j < i + p /\ forall i', i' < i -> (loss i < loss i')%Q.
Hypothesis not_below : forall j, k < j <= k + p -> (loss k <= loss j)%Q.

(** What the callback holds when the epochs before [j] have run: the
    checkpoint of the last epoch that was a strict minimum of the
    losses so far, and the number of epochs since. *)
Let kept (j : nat) (cb : mini_batch.Callback) : Prop :=
  mini_batch.patience cb = p /\ mini_batch.monitor cb = "loss"%string /\
  match mini_batch.best cb with
  | None => j = 0
  | Some c =>
      mini_batch.best_epoch c < j /\
      mini_batch.best_epoch_valid_loss c = loss (mini_batch.best_epoch c) /\
      mini_batch.best_epoch_model_parameters c
      = w_params (W (S (mini_batch.best_epoch c))) /\
      (forall i, i < j -> (loss (mini_batch.best_epoch c) <= loss i)%Q) /\
      (forall i, i < mini_batch.best_epoch c ->
                 (loss (mini_batch.best_epoch c) < loss i)%Q) /\
      mini_batch.lookback cb + mini_batch.best_epoch c + 1 = j
  end.

Lemma reached_best (j : nat) :
  j <= k ->
  exists i, i <= j < i + p /\ forall i', i' < i -> (loss i < loss i')%Q.
Proof.
  intros Hj. destruct (Nat.eq_dec j k) as [->|Hne].
  - exists k. split; [lia | exact new_best].
  - apply reached. lia.
Qed.

Lemma epoch_step (j : nat) (cb : mini_batch.Callback) :
  j <= k + p -> kept j cb ->
  exists cb',
    mini_batch.run_epoch dataloader g valid_idx j cb (W j) = (Ok cb', W (S j)) /\
    kept (S j) cb'.
Proof.
  intros Hj [Hp [Hm Hb]].
  apply observed, valid_loss_at_passes in Hj. destruct Hj as [tr [va [Hpass Hl]]].
  rewrite run_epoch_passes. fold (passes j). rewrite Hpass.
  eexists. split; [reflexivity|].
  unfold mini_batch.create, mini_batch.improved.
  destruct (mini_batch.best cb) as [c|] eqn:Hbest.
  - rewrite Hm, String.eqb_refl.
    destruct Hb as [Hmj [Hloss [Hpar [Hpre [Hrun Hlb]]]]].
    rewrite Hloss, Hl.
    destruct (Qlt_bool (loss j) (loss (mini_batch.best_epoch c))) eqn:Hlt.
    + apply Qlt_bool_true in Hlt.
      unfold kept. cbn. split; [exact Hp|]. split; [first [exact Hm | reflexivity]|].
      split; [lia|]. split; [first [exact Hl | reflexivity]|]. split; [reflexivity|].
      split; [|split; [|lia]].
      * intros i Hi. destruct (Nat.eq_dec i j) as [->|Hne]; [apply Qle_refl|].
        apply Qlt_le_weak. apply Qlt_le_trans with (loss (mini_batch.best_epoch c));
          [exact Hlt | apply Hpre; lia].
      * intros i Hi.
        apply Qlt_le_trans with (loss (mini_batch.best_epoch c));
          [exact Hlt | apply Hpre; lia].
    + apply Qlt_bool_false in Hlt.
      unfold kept. cbn. split; [exact Hp|]. split; [first [exact Hm | reflexivity]|].
      split; [lia|]. split; [exact Hloss|]. split; [exact Hpar|].
      split; [|split; [exact Hrun | lia]].
      intros i Hi. destruct (Nat.eq_dec i j) as [->|Hne]; [exact Hlt|].
      apply Hpre. lia.
  - subst j. unfold kept. cbn. split; [exact Hp|]. split; [first [exact Hm | reflexivity]|].
    split; [lia|]. split; [first [exact Hl | reflexivity]|]. split; [reflexivity|].
    split; [|split; [|reflexivity]].
    + intros i Hi. assert (i = 0) as -> by lia. apply Qle_refl.
    + intros i Hi. lia.
Qed.

(** Up to epoch [k] the counter stays below the patience. *)
Lemma epoch_goes_on (j : nat) (cb : mini_batch.Callback) :
  j <= k -> kept (S j) cb -> mini_batch.should_stop cb = false.
Proof.
  intros Hj [Hp [Hm Hb]].
  destruct (reached_best j Hj) as [i [Hi Hmin]].
  unfold mini_batch.should_stop. rewrite Hp. apply Nat.leb_gt.
  destruct (mini_batch.best cb) as [c|]; [|lia].
  destruct Hb as [Hmj [Hloss [Hpar [Hpre [Hrun Hlb]]]]].
  assert (Him : i <= mini_batch.best_epoch c).
  { destruct (Nat.le_gt_cases i (mini_batch.best_epoch c)) as [H|H]; [exact H|].
    exfalso. apply (Qlt_not_le _ _ (Hmin _ H)). apply Hpre. lia. }
  lia.
Qed.

(** The epochs [a .. k] run without a break. *)
Lemma loop_reaches_best (d : nat) :
  forall a n cb,
    a + d = S k -> d <= n -> kept a cb ->
    exists cb',
      kept (S k) cb' /\
      mini_batch.epoch_loop dataloader g valid_idx (seq a n) cb (W a) =
      mini_batch.epoch_loop dataloader g valid_idx (seq (S k) (n - d)) cb'
                            (W (S k)).
Proof.
  induction d as [|d IH]; intros a n cb Ha Hn Hkept.
  - assert (a = S k) by lia. subst a. exists cb. split; [exact Hkept|].
    rewrite Nat.sub_0_r. reflexivity.
  - destruct n as [|n]; [lia|].
    destruct (epoch_step a cb) as [cb1 [Hrun Hkept1]]; [lia | exact Hkept|].
    simpl seq. cbn [mini_batch.epoch_loop]. unfold bindM at 1. rewrite Hrun.
    rewrite (epoch_goes_on a cb1) by (lia || exact Hkept1).
    destruct (IH (S a) n cb1) as [cb' [Hkept' Hloop]];
      [lia | lia | exact Hkept1|].
    exists cb'. split; [exact Hkept'|]. rewrite Hloop. reflexivity.
Qed.

(** The epochs after the best one: none improves, the counter grows by
    one per epoch and the loop breaks when it reaches the patience. *)
Lemma loop_until_patience (j : nat) :
  forall a n cb c,
    1 <= j -> j <= n -> S k <= a -> a + j = S (k + p) ->
    mini_batch.patience cb = p -> mini_batch.monitor cb = "loss"%string ->
    mini_batch.lookback cb + j = p ->
    mini_batch.best cb = Some c ->
    mini_batch.best_epoch_valid_loss c = loss k ->
    exists cb',
      mini_batch.epoch_loop dataloader g valid_idx (seq a n) cb (W a) =
      (Ok (mini_batch.EarlyStopped (k + p), cb'), W (S (k + p))) /\
      mini_batch.best cb' = Some c.
Proof.
  induction j as [|j IH]; intros a n cb c Hj Hn Ha Haj Hp Hm Hlook Hbest Hc; [lia|].
  assert (Hobs : a <= k + p) by lia.
  apply observed, valid_loss_at_passes in Hobs.
  destruct Hobs as [tr [va [Hpass Hl]]].
  destruct n as [|n]; [lia|]. simpl seq. cbn [mini_batch.epoch_loop].
  unfold bindM at 1. rewrite run_epoch_passes. fold (passes a). rewrite Hpass.
  assert (Himp : mini_batch.improved cb (snd (fst va)) (snd va) = false).
  { unfold mini_batch.improved. rewrite Hbest, Hm. simpl. rewrite Hc, Hl.
    apply Qlt_bool_false. apply not_below. lia. }
  unfold mini_batch.create. rewrite Himp.
  unfold mini_batch.should_stop. cbn [mini_batch.patience mini_batch.lookback].
  destruct (Nat.eq_dec j 0) as [->|Hnz].
  - destruct (Nat.leb_spec (mini_batch.patience cb) (S (mini_batch.lookback cb)))
      as [_|Hlt]; [|lia].
    assert (a = k + p) by lia. subst a.
    eexists. split; [reflexivity|]. exact Hbest.
  - destruct (Nat.leb_spec (mini_batch.patience cb) (S (mini_batch.lookback cb)))
      as [Hle|_]; [lia|].
    apply (IH (S a) n); simpl; try assumption; lia.
Qed.

Lemma early_stopping_run (num_epochs : nat) :
  k + p < num_epochs ->
  exists cb c,
    mini_batch.log_run_loop num_epochs p "loss" dataloader g valid_idx w0 =
    (Ok (mini_batch.EarlyStopped (k + p), cb), W (S (k + p))) /\
    mini_batch.best cb = Some c /\
    mini_batch.best_epoch c = k /\
    mini_batch.best_epoch_valid_loss c = loss k /\
    mini_batch.best_epoch_model_parameters c = w_params (W (S k)).
Proof.
  intros Hn. unfold mini_batch.log_run_loop.
  destruct (loop_reaches_best (S k) 0 num_epochs
              (mini_batch.Callback_init p "loss"))
    as [cb1 [Hkept Hloop]]; [lia | lia | |].
  { unfold kept. cbn. auto. }
  change w0 with (W 0) at 1. rewrite Hloop.
  destruct Hkept as [Hp [Hm Hb]].
  destruct (mini_batch.best cb1) as [c|] eqn:Hbest; [|lia].
  destruct Hb as [Hmj [Hloss [Hpar [Hpre [Hrun Hlb]]]]].
  assert (Hk : mini_batch.best_epoch c = k).
  { destruct (Nat.eq_dec (mini_batch.best_epoch c) k) as [H|H]; [exact H|].
    exfalso. assert (Hlt : mini_batch.best_epoch c < k) by lia.
    apply (Qlt_not_le _ _ (new_best _ Hlt)). apply Hpre. lia. }
  rewrite Hk in Hloss, Hpar.
  destruct (loop_until_patience p (S k) (num_epochs - S k) cb1 c)
    as [cb' [Hrun' Hbest']]; try assumption; try lia.
  exists cb', c. split; [exact Hrun'|]. split; [exact Hbest'|].
  split; [exact Hk|]. split; [exact Hloss | exact Hpar].
Qed.

End EarlyStopping.

(** C8 (as amended). Let the monitored loss of epoch [k] be strictly
    below the loss of every earlier epoch, let every epoch before [k]
    be fewer than [patience] epochs after a strict minimum of the
    losses so far (the loop has not broken before [k]), and let no loss
    of the epochs [k + 1 .. k + patience] be below the loss of epoch
    [k], as when the loss strictly increases after epoch [k].  Then,
    with a patience of at least one and more than [k + patience]
    configured epochs, the loop of [log_run] breaks at epoch
    [k + patience], having run the passes of the epochs
    [0 .. k + patience] only, and the retained best checkpoint is the
    one of epoch [k], with the parameters the model had then. *)
Theorem early_stopping_halts_after_patience (T : Torch)
    (dataloader : nat -> list (Input T)) (g : Input T) (valid_idx : Mask T)
    (w0 : World T) (loss : nat -> Q) (k patience num_epochs : nat) :
  1 <= patience ->
  k + patience < num_epochs ->
  (forall i, i <= k + patience ->
     mini_batch.valid_loss_at dataloader g valid_idx w0 i = Some (loss i)) ->
  (forall i, i < k -> (loss k < loss i)%Q) ->
  (forall j, j < k ->
     exists i, i <= j < i + patience /\
               forall i', i' < i -> (loss i < loss i')%Q) ->
  (forall j, k < j <= k + patience -> (loss k <= loss j)%Q) ->
  exists cb c,
    mini_batch.log_run_loop num_epochs patience "loss" dataloader g valid_idx w0 =
    (Ok (mini_batch.EarlyStopped (k + patience), cb),
     mini_batch.world_after dataloader g valid_idx (S (k + patience)) w0) /\
    mini_batch.best cb = Some c /\
    mini_batch.best_epoch c = k /\
    mini_batch.best_epoch_valid_loss c = loss k /\
    mini_batch.best_epoch_model_parameters c =
    w_params (mini_batch.world_after dataloader g valid_idx (S k) w0).
Proof.
  intros Hp Hn Hobs Hbest Hreach Hnot.
  exact (early_stopping_run dataloader g valid_idx w0 loss k patience
           Hp Hobs Hbest Hreach Hnot num_epochs Hn).
Qed.

Lemma early_stopping_halts_after_patience_witness :
  exists cb c,
    fst (mini_batch.log_run_loop 10 2 "loss" toy_loader (0 : Input toy_torch)
           (tt : Mask toy_torch) toy_world)
    = Ok (mini_batch.EarlyStopped 4, cb) /\
    mini_batch.best cb = Some c /\
    mini_batch.best_epoch c = 2.
Proof.
  destruct (@early_stopping_halts_after_patience toy_torch toy_loader
              (0 : Input toy_torch) (tt : Mask toy_torch) toy_world
              toy_loss 2 2 10)
    as [cb [c [Hrun [Hbest [Hepoch _]]]]].
  - lia.
  - lia.
  - intros i Hi.
    do 5 (destruct i as [|i]; [vm_compute; reflexivity|]). lia.
  - intros i Hi.
    do 2 (destruct i as [|i]; [vm_compute; reflexivity|]). lia.
  - intros j Hj. exists j. split; [lia|].
    intros i' Hi'.
    destruct j as [|[|j]]; [lia | | lia].
    assert (i' = 0) as -> by lia. vm_compute. reflexivity.
  - intros j Hj.
    do 3 (destruct j as [|j]; [lia|]).
    do 2 (destruct j as [|j]; [vm_compute; discriminate|]). lia.
  - exists cb, c. rewrite Hrun. repeat split; assumption.
Defined.

(** C8 as stated fails.  In a run of [bump_torch] the monitored loss is
    0, 5, 1, 2, 3, ...: epoch 2 is the first epoch after which it
    strictly increases (it falls from epoch 1 to epoch 2), yet with a
    patience of 2 the loop breaks at epoch 2, not at epoch 4, and the
    retained checkpoint is the one of epoch 0, not of epoch 2: the loss
    of epoch 0 was lower. *)
Lemma early_stopping_needs_best_epoch :
  (forall i, i < 10 ->
     mini_batch.valid_loss_at bump_loader (0 : Input bump_torch)
                              (tt : Mask bump_torch) bump_world i
     = Some (bump_loss i)) /\
  (forall i, 2 <= i < 9 -> (bump_loss i < bump_loss (S i))%Q) /\
  (bump_loss 2 < bump_loss 1)%Q /\
  exists cb c,
    fst (mini_batch.log_run_loop 10 2 "loss" bump_loader (0 : Input bump_torch)
           (tt : Mask bump_torch) bump_world)
    = Ok (mini_batch.EarlyStopped 2, cb) /\
    mini_batch.best cb = Some c /\
    mini_batch.best_epoch c = 0 /\
    2 <> 2 + 2 /\ 0 <> 2.
Proof.
  split; [|split; [|split]].
  - intros i Hi.
    do 10 (destruct i as [|i]; [vm_compute; reflexivity|]). lia.
  - intros i Hi.
    do 2 (destruct i as [|i]; [lia|]).
    do 7 (destruct i as [|i]; [vm_compute; reflexivity|]). lia.
  - vm_compute. reflexivity.
  - eexists. eexists. split; [vm_compute; reflexivity|].
    split; [reflexivity|]. split; [reflexivity|]. split; lia.
Qed.

Lemma empty_dataloader_raises_unbound_witness :
  fst (gat_with_projection.train_mini_batch [] toy_world) = Raise UnboundLocalError /\
  [5 : Input toy_torch] <> [].
Proof.
  split.
  - apply (proj1 (empty_dataloader_raises_unbound toy_torch toy_world)).
  - apply (proj2 (proj2 (empty_dataloader_raises_unbound toy_torch toy_world))).
    left. eexists. vm_compute. reflexivity.
Defined.

(** * Sums over edges *)

Section EdgeSums.

Local Open Scope R_scope.

Lemma map_combine_seq {A B : Type} (G : nat * A -> B) (d : A) (xs : list A) (a : nat) :
  map G (combine (seq a (List.length xs)) xs) =
  map (fun k => G (k, nth (k - a) xs d)) (seq a (List.length xs)).
Proof.
  revert a. induction xs as [|x xs IH]; intros a; [reflexivity|].
  simpl. rewrite Nat.sub_diag. f_equal.
  rewrite IH. apply map_ext_in. intros k Hk. apply in_seq in Hk.
  replace (k - a)%nat with (S (k - S a)) by lia. reflexivity.
Qed.

Lemma map_combine_seq0 {A B : Type} (G : nat * A -> B) (d : A) (xs : list A) :
  map G (combine (seq 0 (List.length xs)) xs) =
  map (fun k => G (k, nth k xs d)) (seq 0 (List.length xs)).
Proof.
  rewrite (map_combine_seq G d xs 0). apply map_ext. intros k.
  rewrite Nat.sub_0_r. reflexivity.
Qed.

Lemma map_snd_combine_seq {A : Type} (xs : list A) (a : nat) :
  map snd (combine (seq a (List.length xs)) xs) = xs.
Proof.
  revert a. induction xs as [|x xs IH]; intros a; [reflexivity|].
  simpl. rewrite IH. reflexivity.
Qed.

Lemma nth_map_seq {B : Type} (F : nat -> B) (d : B) (n k : nat) :
  (k < n)%nat -> nth k (map F (seq 0 n)) d = F k.
Proof.
  intros Hk. rewrite (nth_indep _ d (F 0%nat)) by (rewrite length_map, length_seq; lia).
  rewrite map_nth. rewrite seq_nth by lia. reflexivity.
Qed.

Lemma rsum_scaled (P : nat -> bool) (F : nat -> R) (c : R) (ks : list nat) :
  rsum (map (fun k => if P k then F k / c else 0) ks) =
  rsum (map (fun k => if P k then F k else 0) ks) / c.
Proof.
  induction ks as [|k ks IH]; simpl.
  - unfold Rdiv. ring.
  - rewrite IH. destruct (P k); unfold Rdiv; ring.
Qed.

Lemma rsum_nonneg (xs : list R) : (forall x, In x xs -> 0 <= x) -> 0 <= rsum xs.
Proof.
  induction xs as [|x xs IH]; intros H; simpl; [lra|].
  pose proof (H x (or_introl eq_refl)).
  assert (0 <= rsum xs) by (apply IH; intros y Hy; apply H; right; assumption).
  lra.
Qed.

Lemma rsum_pos (xs : list R) (x : R) :
  (forall y, In y xs -> 0 <= y) -> In x xs -> 0 < x -> 0 < rsum xs.
Proof.
  induction xs as [|y xs IH]; intros Hnn Hin Hx; [contradiction|].
  simpl. pose proof (Hnn y (or_introl eq_refl)) as Hy.
  assert (Hrest : 0 <= rsum xs)
    by (apply rsum_nonneg; intros z Hz; apply Hnn; right; assumption).
  destruct Hin as [-> | Hin]; [lra|].
  assert (0 < rsum xs) by (apply IH; auto; intros z Hz; apply Hnn; right; assumption).
  lra.
Qed.

Lemma rsum_filter (P : nat -> bool) (F : nat -> R) (ks : list nat) :
  rsum (map (fun k => if P k then F k else 0) ks) = rsum (map F (filter P ks)).
Proof.
  induction ks as [|k ks IH]; simpl; [reflexivity|].
  rewrite IH. destruct (P k); simpl; lra.
Qed.

Lemma rsum_permutation (xs ys : list R) : Permutation xs ys -> rsum xs = rsum ys.
Proof.
  intros H. induction H; simpl; lra.
Qed.

(** The sum that normalises the softmax, over all edges. *)
Lemma seg_exp_sum_all (g : DGLGraph) (e : list Vec) (v h : nat) :
  List.length e = num_edges g ->
  seg_exp_sum g (seq 0 (num_edges g)) e v h =
  rsum (map (fun k => if Nat.eqb (dst_of g k) v then exp (get2 e k h) else 0)
            (seq 0 (num_edges g))).
Proof.
  intros Hlen. unfold seg_exp_sum. rewrite <- Hlen.
  rewrite (@map_combine_seq0 Vec R _ [] e). reflexivity.
Qed.

Lemma in_degree_has_edge (g : DGLGraph) (v : nat) :
  (1 <= in_degree g v)%nat ->
  exists k, (k < num_edges g)%nat /\ dst_of g k = v.
Proof.
  unfold in_degree, num_edges, dst_of. intros Hdeg.
  assert (Hin : In v (map snd (edges g))).
  { apply (count_occ_In Nat.eq_dec). lia. }
  apply (In_nth _ _ 0%nat) in Hin as [k [Hk Hnth]].
  rewrite length_map in Hk. exists k. split; [assumption|].
  rewrite <- Hnth.
  change 0%nat with (snd (0%nat, 0%nat)) at 3. rewrite map_nth. reflexivity.
Qed.

Lemma seg_exp_sum_pos (g : DGLGraph) (e : list Vec) (v h : nat) :
  List.length e = num_edges g ->
  (1 <= in_degree g v)%nat ->
  0 < seg_exp_sum g (seq 0 (num_edges g)) e v h.
Proof.
  intros Hlen Hdeg. rewrite seg_exp_sum_all by assumption.
  destruct (in_degree_has_edge g v Hdeg) as [k [Hk Hdst]].
  apply rsum_pos with (x := exp (get2 e k h)).
  - intros y Hy. apply in_map_iff in Hy as [j [<- _]].
    destruct (Nat.eqb _ v); [left; apply exp_pos | lra].
  - apply in_map_iff. exists k. split; [|apply in_seq; lia].
    rewrite Hdst, Nat.eqb_refl. reflexivity.
  - apply exp_pos.
Qed.

(** Entry [(k, h)] of the softmax over all edges. *)
Lemma edge_softmax_entry (g : DGLGraph) (e : list Vec) (k h : nat) :
  List.length e = num_edges g ->
  (k < num_edges g)%nat ->
  (h < List.length (nth k e []))%nat ->
  get2 (edge_softmax g e (seq 0 (num_edges g))) k h =
  exp (get2 e k h) / seg_exp_sum g (seq 0 (num_edges g)) e (dst_of g k) h.
Proof.
  intros Hlen Hk Hh. unfold edge_softmax, get2.
  replace (combine (seq 0 (num_edges g)) e)
    with (combine (seq 0 (List.length e)) e) by (rewrite Hlen; reflexivity).
  rewrite (@map_combine_seq0 Vec Vec _ [] e).
  rewrite Hlen. rewrite nth_map_seq by assumption.
  cbn [fst snd]. rewrite nth_map_seq by assumption. reflexivity.
Qed.

Lemma softmax_in_weights_sum_to_one (g : DGLGraph) (e : list Vec) (v h : nat) :
  List.length e = num_edges g ->
  (forall k, (k < num_edges g)%nat -> (h < List.length (nth k e []))%nat) ->
  (1 <= in_degree g v)%nat ->
  in_weight_sum g (edge_softmax g e (seq 0 (num_edges g))) v h = 1.
Proof.
  intros Hlen Hheads Hdeg. unfold in_weight_sum.
  pose proof (seg_exp_sum_pos g e v h Hlen Hdeg) as Hpos.
  rewrite (map_ext_in _
             (fun k => if Nat.eqb (dst_of g k) v
                       then exp (get2 e k h)
                            / seg_exp_sum g (seq 0 (num_edges g)) e v h
                       else 0)).
  - rewrite rsum_scaled. rewrite <- seg_exp_sum_all by assumption.
    field. lra.
  - intros k Hk. apply in_seq in Hk.
    destruct (Nat.eqb_spec (dst_of g k) v) as [Hd|]; [|reflexivity].
    rewrite edge_softmax_entry; [rewrite Hd; reflexivity | assumption | lia |].
    apply Hheads. lia.
Qed.

Lemma attn_drop_inactive (l : GATConv) (training : bool) (rng : Rng) (t : list Vec) :
  attn_dropout_active l training = false -> attn_drop l training rng t = t.
Proof.
  unfold attn_dropout_active, attn_drop, dropout. intros ->.
  rewrite <- (map_snd_combine_seq t 0) at 3.
  apply map_ext. intros [j row]. cbn [fst snd].
  rewrite <- (map_snd_combine_seq row 0) at 3.
  apply map_ext. intros [i x]. reflexivity.
Qed.

Lemma attention_without_edge_dropout (l : GATConv) (training : bool)
    (rng : Rng) (g : DGLGraph) (e : list Vec) :
  edge_dropout_active l training = false ->
  attention l training rng g e
  = Ok (attn_drop l training rng (edge_softmax g e (seq 0 (num_edges g)))).
Proof. intros Hedge. unfold attention. rewrite Hedge. reflexivity. Qed.

End EdgeSums.

(** C1 (as amended). For every graph and every destination node with at
    least one incoming edge, for every head: the segment softmax of the
    logits sums to 1 over the incoming edges of the node; and when edge
    dropout is disabled and attention dropout is inactive (rate 0 or
    evaluation mode) the weights [forward] stores in [g.edata['attn']]
    are that softmax, so they sum to 1 as well. *)
Theorem attention_weights_sum_to_one (l : GATConv) (training : bool)
    (rng : Rng) (g : DGLGraph) (e : list Vec) (v h : nat) :
  List.length e = num_edges g ->
  (forall k, k < num_edges g -> h < List.length (nth k e [])) ->
  1 <= in_degree g v ->
  in_weight_sum g (edge_softmax g e (seq 0 (num_edges g))) v h = 1%R /\
  (edge_dropout_active l training = false ->
   attn_dropout_active l training = false ->
   attention l training rng g e = Ok (edge_softmax g e (seq 0 (num_edges g))) /\
   exists attn, attention l training rng g e = Ok attn /\
                in_weight_sum g attn v h = 1%R).
Proof.
  intros Hlen Hheads Hdeg.
  pose proof (softmax_in_weights_sum_to_one g e v h Hlen Hheads Hdeg) as Hsum.
  split; [exact Hsum|].
  intros Hedge Hattn.
  assert (Heq : attention l training rng g e
                = Ok (edge_softmax g e (seq 0 (num_edges g)))).
  { rewrite attention_without_edge_dropout by exact Hedge.
    rewrite attn_drop_inactive by exact Hattn. reflexivity. }
  split; [exact Heq|]. eexists. split; [exact Heq | exact Hsum].
Qed.

Lemma attention_weights_sum_to_one_witness :
  exists attn,
    attention (layer_1x1 "none" 0 float_zero (Some [[1%R]]) None true) true
              (rng_const [0] true) g_loop [[0%R]] = Ok attn /\
    in_weight_sum g_loop attn 0 0 = 1%R.
Proof.
  apply (attention_weights_sum_to_one
           (layer_1x1 "none" 0 float_zero (Some [[1%R]]) None true) true
           (rng_const [0] true) g_loop [[0%R]] 0 0).
  - reflexivity.
  - intros k Hk. unfold num_edges in Hk. simpl in Hk.
    assert (k = 0) as -> by lia. simpl. lia.
  - unfold in_degree. simpl. lia.
  - reflexivity.
  - reflexivity.
Defined.

(** C1 as stated fails: edge dropout disabled does not make the stored
    weights a softmax.  In training mode with an attention dropout of
    one half, on the graph of one self-loop (in-degree 1), a draw that
    drops the only edge leaves the weight 0. *)
Lemma attention_dropout_breaks_normalisation :
  exists e,
    attn_logits (layer_1x1 "none" (1 # 2) float_zero (Some [[1%R]]) None true) g_loop
                [[1%R]] [[1%R]] None = Ok e /\
    edge_dropout_active (layer_1x1 "none" (1 # 2) float_zero (Some [[1%R]]) None true) true
    = false /\
    in_degree g_loop 0 = 1 /\
    exists attn,
      attention (layer_1x1 "none" (1 # 2) float_zero (Some [[1%R]]) None true) true
                (rng_const [0] false) g_loop e = Ok attn /\
      in_weight_sum g_loop attn 0 0 = 0%R /\
      (0 <> 1)%R.
Proof.
  eexists. split; [reflexivity|]. split; [reflexivity|].
  split; [reflexivity|]. eexists. split; [reflexivity|]. split; [|lra].
  unfold in_weight_sum, attn_drop, dropout, get2. simpl. lra.
Qed.

(** * Edge dropout *)

Section EdgeDropout.

Lemma set_nth_length {A : Type} (t : list A) (i : nat) (v : A) :
  List.length (set_nth t i v) = List.length t.
Proof.
  revert i. induction t as [|x t IH]; intros [|i]; simpl; auto.
Qed.

Lemma nth_set_nth_same {A : Type} (t : list A) (i : nat) (v d : A) :
  i < List.length t -> nth i (set_nth t i v) d = v.
Proof.
  revert i. induction t as [|x t IH]; intros [|i] Hi; simpl in *;
    try lia; auto. apply IH. lia.
Qed.

Lemma nth_set_nth_other {A : Type} (t : list A) (i k : nat) (v d : A) :
  k <> i -> nth k (set_nth t i v) d = nth k t d.
Proof.
  revert i k. induction t as [|x t IH]; intros [|i] [|k] Hki; simpl;
    try reflexivity; try lia. apply IH. lia.
Qed.

Lemma scatter_length (t : list Vec) (eids : list nat) (vals : list Vec) :
  List.length (scatter t eids vals) = List.length t.
Proof.
  unfold scatter. revert t vals.
  induction eids as [|i eids IH]; intros t [|v vals]; simpl; auto.
  rewrite IH. apply set_nth_length.
Qed.



Lemma nth_map_in_range {A B : Type} (f : A -> B) (xs : list A) (d : A)
    (d' : B) (k : nat) :
  k < List.length xs -> nth k (map f xs) d' = f (nth k xs d).
Proof.
  revert k. induction xs as [|x xs IH]; intros [|k] Hk; simpl in *;
    try lia; auto. apply IH. lia.
Qed.





Lemma zeros_row_entry (row : Vec) (h : nat) :
  nth h (map (fun _ : R => 0%R) row) 0%R = 0%R.
Proof.
  revert h. induction row as [|x row IH]; intros [|h]; simpl; auto.
Qed.

Lemma zeros_like_entry (t : list Vec) (k h : nat) : get2 (zeros_like t) k h = 0%R.
Proof.
  unfold get2, zeros_like. revert k.
  induction t as [|row t IH]; intros [|k]; simpl; auto.
  - destruct h; reflexivity.
  - destruct h; reflexivity.
  - apply zeros_row_entry.
Qed.






Lemma kept_eids_of_bound (l : GATConv) (rng : Rng) (g : DGLGraph) (bound : Z) :
  dropped l g = Ok bound -> (0 <= bound)%Z ->
  kept_eids l rng g = Ok (skipn (Z.to_nat bound) (randperm rng)).
Proof.
  intros Hd Hb. unfold kept_eids, py_slice_from. rewrite Hd. simpl.
  replace (bound <? 0)%Z with false by (symmetry; apply Z.ltb_ge; assumption).
  reflexivity.
Qed.



End EdgeDropout.



(** The product of line 150 is a floating-point one: with 50 edges and
    [p = 0.58] it is [28.999999999999996] and 28 edges are dropped, not
    the 29 of the exact product; with 10 edges and [p = 0.3] it is
    [3.0] and 3 edges are dropped, although the float [0.3] is below
    three tenths. *)
Lemma dropped_is_a_float_product :
  dropped (layer_1x1 "none" 0 (float_lit 58 100) (Some [[1%R]]) None true)
          (g_loops 50) = Ok 28%Z /\
  dropped (layer_1x1 "none" 0 (float_lit 3 10) (Some [[1%R]]) None true)
          (g_loops 10) = Ok 3%Z /\
  (float_value (float_lit 3 10) < 3 # 10)%Q.
Proof.
  split; [vm_compute; reflexivity|]. split; [vm_compute; reflexivity|].
  vm_compute. reflexivity.
Qed.

(** An infinite fraction passes the test [p > 0] of line 148; [int]
    then refuses the product and the pass raises. *)
Lemma infinite_edge_dropout_raises (l : GATConv) (rng : Rng) (g : DGLGraph)
    (e : list Vec) :
  _edge_dropout l = S754_infinity false ->
  exists err, attention l true rng g e = Raise err /\
              (err = OverflowError \/ err = ValueError).
Proof.
  intros Hp. unfold attention, edge_dropout_active, kept_eids, dropped.
  rewrite Hp. simpl. unfold float_of_int.
  destruct (binary_normalize 53 1024 (Z.of_nat (num_edges g)) 0 false)
    as [s|s| |s m ex]; simpl; eauto.
Qed.


(** * A block against the full graph *)

Section RowsOfForward.

Local Open Scope R_scope.

Lemma nth_map_nil {A B : Type} (f : list A -> list B) (xs : list (list A)) (k : nat) :
  f [] = [] -> nth k (map f xs) [] = f (nth k xs []).
Proof.
  intros Hf. revert k. induction xs as [|x xs IH]; intros [|k]; simpl; auto.
Qed.

Lemma nth_combine_in_range {A B : Type} (xs : list A) (ys : list B)
    (da : A) (db : B) (k : nat) :
  (k < List.length xs)%nat -> (k < List.length ys)%nat ->
  nth k (combine xs ys) (da, db) = (nth k xs da, nth k ys db).
Proof.
  revert ys k. induction xs as [|x xs IH]; intros [|y ys] [|k] Hx Hy;
    simpl in *; try lia; auto. apply IH; lia.
Qed.

Lemma filter_seq_count (xs : list (nat * nat)) (v a : nat) :
  List.length (filter (fun k => Nat.eqb (snd (nth (k - a) xs (0, 0)%nat)) v)
                      (seq a (List.length xs)))
  = count_occ Nat.eq_dec (map snd xs) v.
Proof.
  revert a. induction xs as [|x xs IH]; intros a; [reflexivity|].
  cbn [List.length seq filter map count_occ]. rewrite Nat.sub_diag. cbn [nth].
  rewrite (filter_ext_in _ (fun k => Nat.eqb (snd (nth (k - S a) xs (0, 0)%nat)) v)).
  - rewrite <- (IH (S a)).
    destruct (Nat.eq_dec (snd x) v) as [->|Hne].
    + rewrite Nat.eqb_refl. reflexivity.
    + apply Nat.eqb_neq in Hne. rewrite Hne. reflexivity.
  - intros k Hk. apply in_seq in Hk.
    replace (k - a)%nat with (S (k - S a)) by lia. reflexivity.
Qed.

Lemma in_degree_in_eids (g : DGLGraph) (v : nat) :
  in_degree g v = List.length (in_eids g v).
Proof.
  unfold in_degree, in_eids, num_edges, dst_of.
  rewrite <- (filter_seq_count (edges g) v 0).
  f_equal. apply filter_ext. intros k. rewrite Nat.sub_0_r. reflexivity.
Qed.

Lemma in_eids_spec (g : DGLGraph) (v k : nat) :
  In k (in_eids g v) <-> (k < num_edges g)%nat /\ dst_of g k = v.
Proof.
  unfold in_eids. rewrite filter_In, in_seq, Nat.eqb_eq. split; intros [H1 H2];
    split; auto; lia.
Qed.

Lemma msg_sum_in_eids (g : DGLGraph) (feat : list (list Vec)) (attn : list Vec)
    (v h f : nat) :
  msg_sum g feat attn v h f =
  rsum (map (fun k => get3 feat (src_of g k) h f * get2 attn k h) (in_eids g v)).
Proof.
  unfold msg_sum, in_eids, num_edges.
  rewrite (@map_combine_seq0 (nat * nat) R _ (0, 0)%nat (edges g)).
  cbn [fst snd].
  apply (rsum_filter (fun k => Nat.eqb (dst_of g k) v)
                     (fun k => get3 feat (src_of g k) h f * get2 attn k h)).
Qed.

Lemma seg_exp_sum_in_eids (g : DGLGraph) (e : list Vec) (v h : nat) :
  List.length e = num_edges g ->
  seg_exp_sum g (seq 0 (num_edges g)) e v h =
  rsum (map (fun k => exp (get2 e k h)) (in_eids g v)).
Proof.
  intros Hlen. rewrite seg_exp_sum_all by assumption. apply rsum_filter.
Qed.

Lemma edge_softmax_entry_any (g : DGLGraph) (e : list Vec) (k h : nat) :
  List.length e = num_edges g ->
  (k < num_edges g)%nat ->
  get2 (edge_softmax g e (seq 0 (num_edges g))) k h =
  if Nat.ltb h (List.length (nth k e []))
  then exp (get2 e k h) / seg_exp_sum g (seq 0 (num_edges g)) e (dst_of g k) h
  else 0.
Proof.
  intros Hlen Hk.
  destruct (Nat.ltb_spec h (List.length (nth k e []))) as [Hh|Hh].
  - apply edge_softmax_entry; assumption.
  - unfold edge_softmax, get2.
    replace (combine (seq 0 (num_edges g)) e)
      with (combine (seq 0 (List.length e)) e) by (rewrite Hlen; reflexivity).
    rewrite (@map_combine_seq0 Vec Vec _ [] e).
    rewrite Hlen. rewrite nth_map_seq by assumption.
    cbn [fst snd]. apply nth_overflow. rewrite length_map, length_seq. assumption.
Qed.

Lemma attn_logits_length (l : GATConv) (g : DGLGraph) (x xd : list Vec)
    (ef : option (list Vec)) (e : list Vec) :
  match ef with Some efeat => List.length efeat = num_edges g | None => True end ->
  attn_logits l g x xd ef = Ok e ->
  List.length e = num_edges g.
Proof.
  unfold attn_logits, num_edges. intros Hef He.
  assert (Hnode : forall (F : nat * nat -> Vec),
            List.length (map F (edges g)) = List.length (edges g))
    by (intros; apply length_map).
  destruct ef as [efeat|]; simpl in He.
  - destruct (_attn_fc_edge l) as [W|]; simpl in He; [|discriminate].
    injection He as <-.
    rewrite !length_map, length_combine, length_map.
    destruct (_attn_fc_dst l); rewrite length_map; unfold Vec in *; lia.
  - injection He as <-. rewrite length_map.
    destruct (_attn_fc_dst l); apply length_map.
Qed.

Lemma attn_logits_row (l : GATConv) (g : DGLGraph) (x xd : list Vec)
    (ef : option (list Vec)) (e : list Vec) (k : nat) :
  match ef with Some efeat => List.length efeat = num_edges g | None => True end ->
  attn_logits l g x xd ef = Ok e ->
  (k < num_edges g)%nat ->
  (src_of g k < List.length x)%nat ->
  (dst_of g k < List.length xd)%nat ->
  nth k e [] = logit_row l g x xd ef k.
Proof.
  unfold attn_logits, logit_row, num_edges, src_of, dst_of.
  intros Hef He Hk Hs Hd.
  set (attn_node := match _attn_fc_dst l with
                    | Some W =>
                        map (fun uv => vadd (nth (fst uv) (map (linear (_attn_fc_src l)) x) [])
                                            (nth (snd uv) (map (linear W) xd) []))
                            (edges g)
                    | None => map (fun uv => nth (fst uv) (map (linear (_attn_fc_src l)) x) [])
                                  (edges g)
                    end) in He.
  assert (Hnode : nth k attn_node [] =
                  match _attn_fc_dst l with
                  | Some W => vadd (linear (_attn_fc_src l) (nth (fst (nth k (edges g) (0, 0)%nat)) x []))
                                   (linear W (nth (snd (nth k (edges g) (0, 0)%nat)) xd []))
                  | None => linear (_attn_fc_src l) (nth (fst (nth k (edges g) (0, 0)%nat)) x [])
                  end).
  { unfold attn_node. destruct (_attn_fc_dst l) as [W|].
    - rewrite (nth_map_in_range _ _ (0, 0)%nat) by assumption.
      rewrite (nth_map_in_range _ x []) by assumption.
      rewrite (nth_map_in_range _ xd []) by assumption. reflexivity.
    - rewrite (nth_map_in_range _ _ (0, 0)%nat) by assumption.
      rewrite (nth_map_in_range _ x []) by assumption. reflexivity. }
  assert (Hnlen : List.length attn_node = List.length (edges g)).
  { unfold attn_node. destruct (_attn_fc_dst l); apply length_map. }
  unfold Vec in *.
  destruct ef as [efeat|]; simpl in He.
  - destruct (_attn_fc_edge l) as [W|]; simpl in He; [|discriminate].
    injection He as <-.
    rewrite nth_map_nil by reflexivity.
    rewrite (nth_map_in_range _ _ ([], []))
      by (rewrite length_combine, length_map; unfold Vec in *; lia).
    rewrite nth_combine_in_range
      by (try rewrite length_map; unfold Vec in *; lia).
    cbn [fst snd]. rewrite Hnode.
    rewrite (nth_map_in_range _ efeat []) by (unfold Vec in *; lia).
    reflexivity.
  - injection He as <-. rewrite nth_map_nil by reflexivity.
    rewrite Hnode. destruct (_attn_fc_dst l); reflexivity.
Qed.

End RowsOfForward.

Section OutputRow.

Local Open Scope R_scope.

Lemma update_all_length (l : GATConv) (g : DGLGraph) (fsrc : list (list Vec))
    (attn : list Vec) :
  List.length (update_all l g fsrc attn) = num_dst_nodes g.
Proof. unfold update_all. rewrite length_map, length_seq. reflexivity. Qed.

Lemma right_norm_length (l : GATConv) (g : DGLGraph) (x : list (list Vec)) :
  List.length x = num_dst_nodes g ->
  List.length (right_norm l g x) = num_dst_nodes g.
Proof.
  intros Hx. unfold right_norm, mul_norm, dst_norm, in_degrees.
  destruct (norm_in _ _); [|assumption].
  rewrite length_map, length_combine, !length_map, length_seq. lia.
Qed.

Lemma right_norm_row (l : GATConv) (g : DGLGraph) (x : list (list Vec)) (v : nat) :
  List.length x = num_dst_nodes g ->
  (v < num_dst_nodes g)%nat ->
  nth v (right_norm l g x) [] =
  if norm_in (_norm l) ["both"; "right"]%string
  then scale3 (norm_factor (_norm l) (in_degree g v)) (nth v x [])
  else nth v x [].
Proof.
  intros Hx Hv. unfold right_norm, mul_norm, dst_norm, in_degrees.
  destruct (norm_in _ _); [|reflexivity].
  rewrite (nth_map_in_range _ _ ([], 0)).
  - rewrite nth_combine_in_range.
    + cbn [fst snd]. rewrite map_map, nth_map_seq by assumption. reflexivity.
    + lia.
    + rewrite !length_map, length_seq. assumption.
  - rewrite length_combine, !length_map, length_seq. lia.
Qed.

Lemma forward_body_row (l : GATConv) (training : bool) (rng : Rng)
    (g : DGLGraph) (x : list Vec) (ef : option (list Vec)) (Wd : Linear)
    (e attn : list Vec) (v : nat) :
  _fc_dst l = Some Wd ->
  attn_logits l g x (node_inputs_dst g x) ef = Ok e ->
  attention l training rng g e = Ok attn ->
  (v < num_dst_nodes g)%nat ->
  (v < List.length (node_inputs_dst g x))%nat ->
  exists out,
    forward_body l training rng g x ef = Ok out /\
    nth v out [] =
    out_row l g (feat_fc_src l g x) attn Wd
            (nth v (node_inputs_dst g x) []) v.
Proof.
  intros Hdst He Ha Hv Hvx. unfold forward_body. rewrite Hdst, He. simpl.
  rewrite Ha. simpl.
  eexists. split; [reflexivity|].
  unfold out_row, apply_activation, add3.
  set (X := right_norm l g (update_all l g (feat_fc_src l g x)
                                       attn)).
  set (Fd := map (fun x0 => view (_num_heads l) (_out_feats l) (linear Wd x0))
                 (node_inputs_dst g x)).
  assert (HX : List.length X = num_dst_nodes g)
    by (apply right_norm_length, update_all_length).
  assert (HFd : List.length Fd = List.length (node_inputs_dst g x))
    by apply length_map.
  assert (Hrow : nth v (map (fun p : list Vec * list Vec =>
                               map (fun q => vadd (fst q) (snd q))
                                   (combine (fst p) (snd p)))
                            (combine X Fd)) [] =
                 map (fun q => vadd (fst q) (snd q))
                     (combine (nth v X []) (nth v Fd []))).
  { rewrite (nth_map_in_range _ _ ([], [])) by (rewrite length_combine; lia).
    rewrite nth_combine_in_range by lia. reflexivity. }
  assert (HXv : nth v X [] =
                if norm_in (_norm l) ["both"; "right"]%string
                then scale3 (norm_factor (_norm l) (in_degree g v))
                       (map (fun h => map (fun f =>
                               msg_sum g (feat_fc_src l g x)
                                       attn v h f)
                               (seq 0 (_out_feats l)))
                            (seq 0 (_num_heads l)))
                else map (fun h => map (fun f =>
                               msg_sum g (feat_fc_src l g x)
                                       attn v h f)
                               (seq 0 (_out_feats l)))
                         (seq 0 (_num_heads l))).
  { unfold X. rewrite right_norm_row by (try apply update_all_length; assumption).
    unfold update_all. rewrite nth_map_seq by assumption. reflexivity. }
  assert (HFv : nth v Fd [] =
                view (_num_heads l) (_out_feats l)
                     (linear Wd (nth v (node_inputs_dst g x) []))).
  { unfold Fd.
    apply (nth_map_in_range
             (fun x0 => view (_num_heads l) (_out_feats l) (linear Wd x0))
             (node_inputs_dst g x) [] [] v Hvx). }
  rewrite <- HXv, <- HFv, <- Hrow.
  destruct (_activation l) as [a|]; [|reflexivity].
  apply (nth_map_nil (map (map a))). reflexivity.
Qed.

Lemma forward_body_returns (l : GATConv) (training : bool) (rng : Rng)
    (g : DGLGraph) (x : list Vec) (ef : option (list Vec))
    (out : list (list Vec)) :
  forward_body l training rng g x ef = Ok out ->
  exists Wd e attn,
    _fc_dst l = Some Wd /\
    attn_logits l g x (node_inputs_dst g x) ef = Ok e /\
    attention l training rng g e = Ok attn /\
    out = apply_activation (_activation l)
            (add3 (right_norm l g (update_all l g (feat_fc_src l g x) attn))
                  (map (fun x0 => view (_num_heads l) (_out_feats l) (linear Wd x0))
                       (node_inputs_dst g x))).
Proof.
  unfold forward_body.
  destruct (_fc_dst l) as [Wd|]; [|discriminate]. cbn [bind].
  destruct (attn_logits l g x (node_inputs_dst g x) ef) as [e|err] eqn:He;
    [|discriminate]. cbn [bind].
  destruct (attention l training rng g e) as [attn|err] eqn:Ha; [|discriminate].
  cbn [bind]. intros H. injection H as <-.
  exists Wd, e, attn. repeat split; assumption || reflexivity.
Qed.

End OutputRow.

Section BlockAgainstGraph.

Local Open Scope R_scope.

Variable l : GATConv.
Variable training : bool.
Variables rng_b rng_g : Rng.
Variables b g : DGLGraph.
Variables nid eid : list nat.
Variables xb xg : list Vec.
Variables efb efg : option (list Vec).
Variable d : nat.

Hypothesis Hcov : covers b g nid eid xb xg efb efg d.
Hypothesis no_left_norm : norm_in (_norm l) ["both"; "left"]%string = false.
Hypothesis no_attn_dropout : attn_dropout_active l training = false.

Let v : nat := nth d nid 0%nat.
Let eidf (k : nat) : nat := nth k eid 0%nat.

Lemma covered_node_in_range : (v < num_src_nodes g)%nat.
Proof.
  apply (cov_nid Hcov). pose proof (cov_dst Hcov). pose proof (cov_dst_src Hcov). lia.
Qed.

Lemma covered_edge (k : nat) :
  In k (in_eids b d) ->
  (k < num_edges b)%nat /\ dst_of b k = d /\
  (eidf k < num_edges g)%nat /\ dst_of g (eidf k) = v /\
  (src_of b k < num_src_nodes b)%nat /\
  src_of g (eidf k) = nth (src_of b k) nid 0%nat.
Proof.
  intros Hk. pose proof Hk as Hk'. apply in_eids_spec in Hk' as [Hkb Hkd].
  assert (Hin : In (eidf k) (in_eids g v)).
  { apply (Permutation_in _ (cov_all_in Hcov)).
    apply (in_map (fun j => nth j eid 0%nat)). assumption. }
  apply in_eids_spec in Hin as [Hge Hgd].
  repeat split; auto.
  - apply (cov_src_b Hcov). assumption.
  - apply (cov_src Hcov). assumption.
Qed.

Lemma dst_inputs_b : node_inputs_dst b xb = firstn (num_dst_nodes b) xb.
Proof. unfold node_inputs_dst. rewrite (cov_block Hcov). reflexivity. Qed.

Lemma dst_inputs_g : node_inputs_dst g xg = xg.
Proof. unfold node_inputs_dst. rewrite (cov_graph Hcov). reflexivity. Qed.

Lemma dst_inputs_b_length :
  List.length (node_inputs_dst b xb) = num_dst_nodes b.
Proof.
  rewrite dst_inputs_b, length_firstn, (cov_inputs_b Hcov).
  pose proof (cov_dst_src Hcov). lia.
Qed.

Lemma dst_row_agrees :
  nth d (node_inputs_dst b xb) [] = nth v (node_inputs_dst g xg) [].
Proof.
  rewrite dst_inputs_b, dst_inputs_g. rewrite nth_firstn.
  pose proof (cov_dst Hcov) as Hd. pose proof (cov_dst_src Hcov).
  destruct (Nat.ltb_spec d (num_dst_nodes b)) as [_|]; [|lia].
  apply (cov_feat Hcov). lia.
Qed.

Lemma edge_feats_lengths :
  match efb with Some f => List.length f = num_edges b | None => True end /\
  match efg with Some f => List.length f = num_edges g | None => True end.
Proof.
  pose proof (cov_efeat Hcov) as H. unfold edge_feats_agree in H.
  destruct efb, efg; try contradiction; intuition.
Qed.

Lemma logit_rows_agree (k : nat) :
  In k (in_eids b d) ->
  logit_row l b xb (node_inputs_dst b xb) efb k =
  logit_row l g xg (node_inputs_dst g xg) efg (eidf k).
Proof.
  intros Hk. destruct (covered_edge k Hk) as [Hkb [Hkd [Hge [Hgd [Hsb Hsg]]]]].
  unfold logit_row. rewrite Hkd, Hgd, Hsg.
  rewrite <- (cov_feat Hcov) by assumption. rewrite dst_row_agrees.
  pose proof (cov_efeat Hcov) as Hef. unfold edge_feats_agree in Hef.
  destruct efb as [fb|], efg as [fg|]; try contradiction; [|reflexivity].
  destruct Hef as [_ [_ Hrows]]. rewrite (Hrows k Hk). reflexivity.
Qed.

Variables eb eg : list Vec.
Hypothesis Heb : attn_logits l b xb (node_inputs_dst b xb) efb = Ok eb.
Hypothesis Heg : attn_logits l g xg (node_inputs_dst g xg) efg = Ok eg.

Lemma logits_lengths :
  List.length eb = num_edges b /\ List.length eg = num_edges g.
Proof.
  destruct edge_feats_lengths as [Hb Hg]. split.
  - exact (attn_logits_length l b xb _ efb eb Hb Heb).
  - exact (attn_logits_length l g xg _ efg eg Hg Heg).
Qed.

Lemma logits_agree (k : nat) :
  In k (in_eids b d) -> nth k eb [] = nth (eidf k) eg [].
Proof.
  intros Hk. destruct (covered_edge k Hk) as [Hkb [Hkd [Hge [Hgd [Hsb Hsg]]]]].
  destruct edge_feats_lengths as [Hb Hg].
  rewrite (attn_logits_row l b xb _ efb eb k Hb Heb Hkb).
  - rewrite (attn_logits_row l g xg _ efg eg (eidf k) Hg Heg Hge).
    + apply logit_rows_agree. assumption.
    + rewrite Hsg, (cov_inputs_g Hcov). apply (cov_nid Hcov). assumption.
    + rewrite Hgd, dst_inputs_g, (cov_inputs_g Hcov). apply covered_node_in_range.
  - rewrite (cov_inputs_b Hcov). assumption.
  - rewrite Hkd, dst_inputs_b_length. apply (cov_dst Hcov).
Qed.

Lemma sum_over_covered_edges (Fb Fg : nat -> R) :
  (forall k, In k (in_eids b d) -> Fb k = Fg (eidf k)) ->
  rsum (map Fb (in_eids b d)) = rsum (map Fg (in_eids g v)).
Proof.
  intros Hpt. unfold v.
  rewrite <- (rsum_permutation _ _ (Permutation_map Fg (cov_all_in Hcov))).
  rewrite map_map. f_equal. apply map_ext_in. exact Hpt.
Qed.

Lemma softmax_sums_agree (h : nat) :
  seg_exp_sum b (seq 0 (num_edges b)) eb d h =
  seg_exp_sum g (seq 0 (num_edges g)) eg v h.
Proof.
  destruct logits_lengths as [Hlb Hlg].
  rewrite !seg_exp_sum_in_eids by assumption.
  apply sum_over_covered_edges. intros k Hk.
  unfold get2. rewrite (logits_agree k Hk). reflexivity.
Qed.

Lemma attention_agrees (k h : nat) :
  In k (in_eids b d) ->
  get2 (attn_drop l training rng_b (edge_softmax b eb (seq 0 (num_edges b)))) k h =
  get2 (attn_drop l training rng_g (edge_softmax g eg (seq 0 (num_edges g)))) (eidf k) h.
Proof.
  intros Hk. destruct (covered_edge k Hk) as [Hkb [Hkd [Hge [Hgd _]]]].
  destruct logits_lengths as [Hlb Hlg].
  rewrite !attn_drop_inactive by assumption.
  rewrite !edge_softmax_entry_any by assumption.
  rewrite Hkd, Hgd, softmax_sums_agree.
  unfold get2. rewrite (logits_agree k Hk). reflexivity.
Qed.

Lemma source_projection_agrees (k h f : nat) :
  In k (in_eids b d) ->
  get3 (feat_fc_src l b xb) (src_of b k) h f =
  get3 (feat_fc_src l g xg) (src_of g (eidf k)) h f.
Proof.
  intros Hk. destruct (covered_edge k Hk) as [_ [_ [_ [_ [Hsb Hsg]]]]].
  unfold get3, feat_fc_src. rewrite no_left_norm.
  rewrite (nth_map_in_range _ xb [] [])
    by (rewrite (cov_inputs_b Hcov); assumption).
  rewrite (nth_map_in_range _ xg [] [])
    by (rewrite Hsg, (cov_inputs_g Hcov); apply (cov_nid Hcov); assumption).
  rewrite Hsg, <- (cov_feat Hcov) by assumption. reflexivity.
Qed.

Lemma messages_agree (h f : nat) :
  msg_sum b (feat_fc_src l b xb) (attn_drop l training rng_b (edge_softmax b eb (seq 0 (num_edges b)))) d h f =
  msg_sum g (feat_fc_src l g xg) (attn_drop l training rng_g (edge_softmax g eg (seq 0 (num_edges g)))) v h f.
Proof.
  rewrite !msg_sum_in_eids.
  apply (sum_over_covered_edges
           (fun k => get3 (feat_fc_src l b xb) (src_of b k) h f
                     * get2 (attn_drop l training rng_b (edge_softmax b eb (seq 0 (num_edges b)))) k h)
           (fun k => get3 (feat_fc_src l g xg) (src_of g k) h f
                     * get2 (attn_drop l training rng_g (edge_softmax g eg (seq 0 (num_edges g)))) k h)).
  intros k Hk.
  rewrite (source_projection_agrees k h f Hk), (attention_agrees k h Hk).
  reflexivity.
Qed.

Lemma in_degrees_agree : in_degree b d = in_degree g v.
Proof.
  rewrite !in_degree_in_eids. unfold v.
  rewrite <- (Permutation_length (cov_all_in Hcov)). symmetry. apply length_map.
Qed.

Lemma out_rows_agree (Wd : Linear) :
  out_row l b (feat_fc_src l b xb) (attn_drop l training rng_b (edge_softmax b eb (seq 0 (num_edges b)))) Wd
          (nth d (node_inputs_dst b xb) []) d =
  out_row l g (feat_fc_src l g xg) (attn_drop l training rng_g (edge_softmax g eg (seq 0 (num_edges g)))) Wd
          (nth v (node_inputs_dst g xg) []) v.
Proof.
  unfold out_row. rewrite dst_row_agrees, in_degrees_agree.
  assert (Hagg : map (fun h => map (fun f =>
                    msg_sum b (feat_fc_src l b xb)
                            (attn_drop l training rng_b (edge_softmax b eb (seq 0 (num_edges b)))) d h f)
                    (seq 0 (_out_feats l))) (seq 0 (_num_heads l)) =
                 map (fun h => map (fun f =>
                    msg_sum g (feat_fc_src l g xg)
                            (attn_drop l training rng_g (edge_softmax g eg (seq 0 (num_edges g)))) v h f)
                    (seq 0 (_out_feats l))) (seq 0 (_num_heads l))).
  { apply map_ext. intros h. apply map_ext. intros f. apply messages_agree. }
  rewrite Hagg. reflexivity.
Qed.

End BlockAgainstGraph.

Lemma attn_logits_outcome (l : GATConv) (g : DGLGraph) (x xd : list Vec)
    (ef : option (list Vec)) :
  (ef <> None /\ _attn_fc_edge l = None /\
   attn_logits l g x xd ef = Raise TypeError) \/
  ((ef = None \/ _attn_fc_edge l <> None) /\
   exists e, attn_logits l g x xd ef = Ok e).
Proof.
  unfold attn_logits. destruct ef as [efeat|]; simpl.
  - destruct (_attn_fc_edge l) as [W|]; simpl.
    + right. split; [right; discriminate | eexists; reflexivity].
    + left. repeat split. discriminate.
  - right. split; [left; reflexivity | eexists; reflexivity].
Qed.

(** C3 (as amended). For a layer whose [norm] is neither ['left'] nor
    ['both'], with both dropouts inactive (evaluation mode, or rates 0)
    and the in-degree check passing on both graphs: when a destination
    node [d] of a block has its entire incoming neighbourhood of the
    full graph in the block, with the same input features, the row of
    [forward] on the block for [d] equals the row of [forward] on the
    full graph for the node behind [d]; the two calls raise the same
    exception or both return, and they return when the residual
    projection is configured and the edge features have their layer. *)
Theorem block_row_matches_full_graph (l : GATConv) (training : bool)
    (rng_b rng_g : Rng) (b g : DGLGraph) (nid eid : list nat)
    (xb xg : list Vec) (efb efg : option (list Vec)) (d : nat) :
  covers b g nid eid xb xg efb efg d ->
  norm_in (_norm l) ["both"; "left"]%string = false ->
  edge_dropout_active l training = false ->
  attn_dropout_active l training = false ->
  check_in_degree l b = Ok tt ->
  check_in_degree l g = Ok tt ->
  agree_at d (nth d nid 0)
           (forward l training rng_b b xb efb)
           (forward l training rng_g g xg efg) /\
  (_fc_dst l <> None ->
   efb = None \/ _attn_fc_edge l <> None ->
   returns (forward l training rng_b b xb efb) /\
   returns (forward l training rng_g g xg efg)).
Proof.
  intros Hcov Hnorm Hedge Hattn Hcb Hcg.
  unfold forward. rewrite Hcb, Hcg. simpl.
  destruct (_fc_dst l) as [Wd|] eqn:Hdst.
  2:{ unfold forward_body. rewrite Hdst. simpl. split; [reflexivity|].
      intros H. contradiction H. reflexivity. }
  assert (Hsame : efb = None <-> efg = None).
  { pose proof (cov_efeat Hcov) as H. unfold edge_feats_agree in H.
    destruct efb, efg; try contradiction; split; intros; congruence. }
  destruct (attn_logits_outcome l b xb (node_inputs_dst b xb) efb)
    as [[Hb1 [Hb2 Hb3]] | [Hb1 [eb Heb]]].
  - destruct (attn_logits_outcome l g xg (node_inputs_dst g xg) efg)
      as [[Hg1 [Hg2 Hg3]] | [Hg1 _]].
    + unfold forward_body. rewrite Hdst, Hb3, Hg3. simpl.
      split; [reflexivity|].
      intros _ [Hn | Hn]; [contradiction | contradiction].
    + exfalso. destruct Hg1 as [Hg1 | Hg1]; [|contradiction].
      apply Hb1, Hsame, Hg1.
  - destruct (attn_logits_outcome l g xg (node_inputs_dst g xg) efg)
      as [[Hg1 [Hg2 Hg3]] | [Hg1 [eg Heg]]].
    + exfalso. destruct Hb1 as [Hb1 | Hb1]; [|contradiction].
      apply Hg1, Hsame, Hb1.
    + pose proof (cov_dst Hcov) as Hd.
      pose proof (covered_node_in_range b g nid eid xb xg efb efg d Hcov) as Hv.
      pose proof (attention_without_edge_dropout l training rng_b b eb Hedge)
        as Hab.
      pose proof (attention_without_edge_dropout l training rng_g g eg Hedge)
        as Hag.
      destruct (forward_body_row l training rng_b b xb efb Wd eb _ d Hdst Heb
                                 Hab Hd)
        as [ob [Hob Hrow_b]].
      { rewrite (dst_inputs_b_length b g nid eid xb xg efb efg d Hcov). exact Hd. }
      destruct (forward_body_row l training rng_g g xg efg Wd eg _ (nth d nid 0)
                                 Hdst Heg Hag)
        as [og [Hog Hrow_g]].
      { rewrite (cov_nodes Hcov). exact Hv. }
      { rewrite (dst_inputs_g b g nid eid xb xg efb efg d Hcov),
          (cov_inputs_g Hcov). exact Hv. }
      rewrite Hob, Hog. simpl. split.
      * rewrite Hrow_b, Hrow_g.
        exact (out_rows_agree l training rng_b rng_g b g nid eid xb xg efb efg d
                              Hcov Hnorm Hattn eb eg Heb Heg Wd).
      * intros _ _. split; eexists; reflexivity.
Qed.

Lemma fan_covers :
  covers b_fan g_fan [0; 1] [0] [[1%R]; [2%R]] [[1%R]; [2%R]] None None 0.
Proof.
  constructor; try reflexivity; simpl; try lia.
  - intros i Hi. destruct i as [|[|i]]; simpl; lia.
  - intros i Hi. destruct i as [|[|i]]; try reflexivity. lia.
  - intros k Hk. unfold num_edges in Hk. simpl in Hk.
    assert (k = 0) as -> by lia. unfold src_of. simpl. lia.
  - intros k [<- | []]. reflexivity.
Qed.

Lemma block_row_matches_full_graph_witness :
  agree_at 0 0
    (forward (layer_1x1 "right" 0 float_zero (Some [[1%R]]) (Some [[1%R]]) false) false
             (rng_const [0] true) b_fan [[1%R]; [2%R]] None)
    (forward (layer_1x1 "right" 0 float_zero (Some [[1%R]]) (Some [[1%R]]) false) false
             (rng_const [0; 1] true) g_fan [[1%R]; [2%R]] None).
Proof.
  apply (proj1 (block_row_matches_full_graph
                  (layer_1x1 "right" 0 float_zero (Some [[1%R]]) (Some [[1%R]]) false)
                  false (rng_const [0] true) (rng_const [0; 1] true)
                  b_fan g_fan [0; 1] [0] [[1%R]; [2%R]] [[1%R]; [2%R]]
                  None None 0 fan_covers eq_refl eq_refl eq_refl
                  eq_refl eq_refl)).
Defined.

(** C3 as stated fails for [norm = 'left'] (and ['both']): the factor
    of lines 110-121 uses the out-degrees of the graph that is passed,
    and a source node has fewer outgoing edges in the block.  Node 1 of
    [g_fan] has out-degree 2 in the graph and 1 in the block, whose
    destination node 0 has its whole incoming neighbourhood; the rows
    for node 0 differ. *)
Lemma left_norm_breaks_block_equivalence :
  covers b_fan g_fan [0; 1] [0] [[1%R]; [2%R]] [[1%R]; [2%R]] None None 0 /\
  exists ob og,
    forward (layer_1x1 "left" 0 float_zero (Some [[1%R]]) None true) false
            (rng_const [0] true) b_fan [[1%R]; [2%R]] None = Ok ob /\
    forward (layer_1x1 "left" 0 float_zero (Some [[1%R]]) None true) false
            (rng_const [0; 1] true) g_fan [[1%R]; [2%R]] None = Ok og /\
    nth 0 ob [] <> nth 0 og [].
Proof.
  split; [exact fan_covers|].
  set (l := layer_1x1 "left" 0 float_zero (Some [[1%R]]) None true).
  set (x := [[1%R]; [2%R]]).
  destruct (attn_logits_outcome l b_fan x (node_inputs_dst b_fan x) None)
    as [[H _] | [_ [eb Heb]]]; [contradiction H; reflexivity|].
  destruct (attn_logits_outcome l g_fan x (node_inputs_dst g_fan x) None)
    as [[H _] | [_ [eg Heg]]]; [contradiction H; reflexivity|].
  destruct (forward_body_row l false (rng_const [0] true) b_fan x None
              [[1%R]] eb _ 0 eq_refl Heb
              (attention_without_edge_dropout l false _ b_fan eb eq_refl))
    as [ob [Hob Hrb]];
    [simpl; lia | simpl; lia |].
  destruct (forward_body_row l false (rng_const [0; 1] true) g_fan x None
              [[1%R]] eg _ 0 eq_refl Heg
              (attention_without_edge_dropout l false _ g_fan eg eq_refl))
    as [og [Hog Hrg]];
    [simpl; lia | simpl; lia |].
  exists ob, og. split; [exact Hob|]. split; [exact Hog|].
  rewrite Hrb, Hrg.
  injection Heb as <-. injection Heg as <-.
  unfold out_row, msg_sum, get2, get3. simpl.
  set (z := leaky_relu (1 / 5)%R (dot [1%R] [2%R])).
  pose proof (exp_pos z) as Hz.
  unfold vadd, dropout, seg_exp_sum, norm_factor, clamp_min1, dot, rsum,
    out_degree, dst_of. simpl.
  assert (H1 : Rmax 1 1 = 1%R) by (apply Rmax_left; lra).
  assert (H2 : Rmax (1 + 1) 1 = 2%R) by (rewrite Rmax_left; lra).
  assert (H3 : (exp z / (exp z + 0) = 1)%R) by (field; lra).
  assert (H4 : (exp z / (exp z + (0 + 0)) = 1)%R) by (field; lra).
  rewrite H1, H2, H3, H4.
  intros H. injection H as H. lra.
Qed.

(** * Further properties of the layer *)

Section MoreLayerFacts.

Local Open Scope R_scope.

Lemma attention_eval (l : GATConv) (rng : Rng) (g : DGLGraph) (e : list Vec) :
  attention l false rng g e = Ok (edge_softmax g e (seq 0 (num_edges g))).
Proof.
  unfold attention. change (edge_dropout_active l false) with false.
  rewrite attn_drop_inactive by reflexivity. reflexivity.
Qed.

Lemma attention_without_dropout (l : GATConv) (training : bool) (rng : Rng)
    (g : DGLGraph) (e : list Vec) :
  edge_dropout_active l training = false ->
  attn_dropout_active l training = false ->
  attention l training rng g e = Ok (edge_softmax g e (seq 0 (num_edges g))).
Proof.
  intros Hedge Hattn. rewrite attention_without_edge_dropout by assumption.
  rewrite attn_drop_inactive by assumption. reflexivity.
Qed.

Lemma rsum_ge_member (xs : list R) (x : R) :
  (forall y, In y xs -> 0 <= y) -> In x xs -> x <= rsum xs.
Proof.
  induction xs as [|y xs IH]; intros Hnn Hin; [contradiction|].
  simpl.
  assert (Hrest : 0 <= rsum xs)
    by (apply rsum_nonneg; intros z Hz; apply Hnn; right; assumption).
  destruct Hin as [-> | Hin]; [lra|].
  pose proof (Hnn y (or_introl eq_refl)).
  assert (x <= rsum xs) by (apply IH; auto; intros z Hz; apply Hnn; right; assumption).
  lra.
Qed.

Lemma in_eids_singleton (g : DGLGraph) (v k : nat) :
  in_degree g v = 1%nat -> (k < num_edges g)%nat -> dst_of g k = v ->
  in_eids g v = [k].
Proof.
  intros Hdeg Hk Hd. rewrite in_degree_in_eids in Hdeg.
  assert (Hin : In k (in_eids g v)) by (apply in_eids_spec; auto).
  destruct (in_eids g v) as [|j [|j' rest]]; simpl in *; try lia; try contradiction.
  destruct Hin as [-> | []]. reflexivity.
Qed.

Lemma in_eids_empty (g : DGLGraph) (v : nat) :
  in_degree g v = 0%nat -> in_eids g v = [].
Proof.
  intros Hdeg. rewrite in_degree_in_eids in Hdeg.
  destruct (in_eids g v); [reflexivity | discriminate].
Qed.

End MoreLayerFacts.

(** X1. In evaluation mode [forward] does not depend on the random
    draws: neither the edge dropout nor the attention dropout is
    applied. *)
Theorem eval_forward_ignores_random_draws (l : GATConv) (rng rng' : Rng)
    (g : DGLGraph) (x : list Vec) (ef : option (list Vec)) :
  forward l false rng g x ef = forward l false rng' g x ef.
Proof.
  unfold forward, forward_body.
  destruct (check_in_degree l g) as [[]|err]; simpl; [|reflexivity].
  destruct (_fc_dst l) as [Wd|]; simpl; [|reflexivity].
  destruct (attn_logits l g x (node_inputs_dst g x) ef) as [e|err];
    [|reflexivity].
  cbn [bind]. rewrite !attn_drop_inactive by reflexivity. reflexivity.
Qed.

(** X2. Without dropout every attention weight lies in (0, 1]. *)
Theorem attention_weight_bounds (l : GATConv) (training : bool) (rng : Rng)
    (g : DGLGraph) (e : list Vec) (k h : nat) :
  edge_dropout_active l training = false ->
  attn_dropout_active l training = false ->
  List.length e = num_edges g ->
  k < num_edges g ->
  h < List.length (nth k e []) ->
  exists attn, attention l training rng g e = Ok attn /\
               (0 < get2 attn k h <= 1)%R.
Proof.
  intros Hedge Hattn Hlen Hk Hh.
  eexists. split; [apply attention_without_dropout; assumption|].
  rewrite edge_softmax_entry by assumption.
  rewrite seg_exp_sum_all by assumption.
  set (S := rsum _).
  assert (Hmem : (exp (get2 e k h) <= S)%R).
  { apply rsum_ge_member.
    - intros y Hy. apply in_map_iff in Hy as [j [<- _]].
      destruct (Nat.eqb _ _); [left; apply exp_pos | lra].
    - apply in_map_iff. exists k. split; [|apply in_seq; lia].
      rewrite Nat.eqb_refl. reflexivity. }
  pose proof (exp_pos (get2 e k h)) as Hpos.
  split.
  - apply Rdiv_lt_0_compat; lra.
  - apply (Rmult_le_reg_r S); [lra|].
    unfold Rdiv. rewrite Rmult_assoc, Rinv_l by lra. lra.
Qed.

(** X3. A destination node with exactly one incoming edge gives that
    edge the weight 1 (without dropout), and the message it aggregates
    is the projected feature of the source node of that edge. *)
Theorem single_in_edge_has_weight_one (l : GATConv) (training : bool)
    (rng : Rng) (g : DGLGraph) (e : list Vec) (feat : list (list Vec))
    (v k h f : nat) :
  edge_dropout_active l training = false ->
  attn_dropout_active l training = false ->
  List.length e = num_edges g ->
  in_degree g v = 1 ->
  k < num_edges g ->
  dst_of g k = v ->
  h < List.length (nth k e []) ->
  exists attn,
    attention l training rng g e = Ok attn /\
    get2 attn k h = 1%R /\
    msg_sum g feat attn v h f = get3 feat (src_of g k) h f.
Proof.
  intros Hedge Hattn Hlen Hdeg Hk Hd Hh.
  eexists. split; [apply attention_without_dropout; assumption|].
  assert (Hw : get2 (edge_softmax g e (seq 0 (num_edges g))) k h = 1%R).
  { rewrite edge_softmax_entry by assumption.
    rewrite seg_exp_sum_in_eids by assumption.
    rewrite Hd, (in_eids_singleton g v k Hdeg Hk Hd). simpl.
    pose proof (exp_pos (get2 e k h)). field. lra. }
  split; [exact Hw|].
  rewrite msg_sum_in_eids, (in_eids_singleton g v k Hdeg Hk Hd). simpl.
  rewrite Hw. ring.
Qed.

Section ShapesOfForward.

Local Open Scope R_scope.

Lemma view_length (heads feats : nat) (flat : Vec) :
  List.length (view heads feats flat) = heads.
Proof.
  revert flat. induction heads as [|h IH]; intros flat; simpl; auto.
Qed.

Lemma view_chunks (heads feats : nat) (flat : Vec) (r : Vec) :
  (heads * feats <= List.length flat)%nat ->
  In r (view heads feats flat) -> List.length r = feats.
Proof.
  revert flat. induction heads as [|h IH]; intros flat Hlen Hin; [contradiction|].
  simpl in Hin. destruct Hin as [<- | Hin].
  - rewrite length_firstn. simpl in Hlen. lia.
  - apply (IH (skipn feats flat)); [|assumption].
    rewrite length_skipn. simpl in Hlen. lia.
Qed.

Lemma linear_length (W : Linear) (x : Vec) : List.length (linear W x) = List.length W.
Proof. unfold linear. apply length_map. Qed.

Lemma vadd_zeros (zs r : Vec) :
  (forall z, In z zs -> z = 0) -> List.length zs = List.length r -> vadd zs r = r.
Proof.
  unfold vadd. revert r. induction zs as [|z zs IH]; intros [|y r] Hz Hlen;
    simpl in *; try lia; auto.
  rewrite (Hz z (or_introl eq_refl)). rewrite Rplus_0_l. f_equal.
  apply IH; [|lia]. intros z' Hz'. apply Hz. right. assumption.
Qed.

Lemma map_combine_snd {A B : Type} (G : A * B -> B) (xs : list A) (ys : list B) :
  (forall p, In p (combine xs ys) -> G p = snd p) ->
  List.length xs = List.length ys ->
  map G (combine xs ys) = ys.
Proof.
  revert ys. induction xs as [|x xs IH]; intros [|y ys] HG Hlen;
    simpl in *; try lia; auto.
  rewrite (HG (x, y) (or_introl eq_refl)). simpl. f_equal.
  apply IH; [|lia]. intros p Hp. apply HG. right. assumption.
Qed.

(** The aggregated message of a node without incoming edges is zero,
    whatever the attention weights are. *)
Lemma msg_sum_isolated (g : DGLGraph) (feat : list (list Vec)) (attn : list Vec)
    (v h f : nat) :
  in_degree g v = 0%nat -> msg_sum g feat attn v h f = 0.
Proof.
  intros Hdeg. rewrite msg_sum_in_eids, (in_eids_empty g v Hdeg). reflexivity.
Qed.

Lemma out_row_isolated (l : GATConv) (g : DGLGraph) (fsrc : list (list Vec))
    (attn : list Vec) (Wd : Linear) (x_v : Vec) (v : nat) :
  in_degree g v = 0%nat ->
  (_num_heads l * _out_feats l <= List.length Wd)%nat ->
  out_row l g fsrc attn Wd x_v v =
  match _activation l with
  | Some a => map (map a) (view (_num_heads l) (_out_feats l) (linear Wd x_v))
  | None => view (_num_heads l) (_out_feats l) (linear Wd x_v)
  end.
Proof.
  intros Hdeg HW. unfold out_row.
  set (agg := map (fun h => map (fun f => msg_sum g fsrc attn v h f)
                                (seq 0 (_out_feats l)))
                  (seq 0 (_num_heads l))).
  set (x := if norm_in (_norm l) ["both"; "right"]%string
            then scale3 (norm_factor (_norm l) (in_degree g v)) agg else agg).
  assert (Hx : forall row, In row x ->
                 List.length row = _out_feats l /\ forall z, In z row -> z = 0).
  { assert (Hagg : forall row, In row agg ->
                     List.length row = _out_feats l /\ forall z, In z row -> z = 0).
    { intros row Hrow. unfold agg in Hrow.
      apply in_map_iff in Hrow as [h [<- _]]. split.
      - rewrite length_map, length_seq. reflexivity.
      - intros z Hz. apply in_map_iff in Hz as [f [<- _]].
        apply msg_sum_isolated. assumption. }
    unfold x. destruct (norm_in _ _); [|exact Hagg].
    intros row Hrow. unfold scale3 in Hrow.
    apply in_map_iff in Hrow as [row0 [<- Hrow0]].
    destruct (Hagg row0 Hrow0) as [Hl Hz]. split.
    - rewrite length_map. assumption.
    - intros z Hin. apply in_map_iff in Hin as [z0 [<- Hz0]].
      rewrite (Hz z0 Hz0). ring. }
  assert (Hxlen : List.length x = _num_heads l).
  { unfold x, scale3, agg. destruct (norm_in _ _);
      rewrite ?length_map, length_seq; reflexivity. }
  assert (Hy : map (fun q : Vec * Vec => vadd (fst q) (snd q))
                   (combine x (view (_num_heads l) (_out_feats l) (linear Wd x_v)))
               = view (_num_heads l) (_out_feats l) (linear Wd x_v)).
  { apply map_combine_snd; [|rewrite view_length; assumption].
    intros [zs r] Hp. cbn [fst snd].
    pose proof (in_combine_l _ _ _ _ Hp) as Hzs.
    pose proof (in_combine_r _ _ _ _ Hp) as Hr.
    destruct (Hx zs Hzs) as [Hl Hz].
    apply vadd_zeros; [assumption|].
    rewrite Hl. symmetry. apply (view_chunks (_num_heads l) _ (linear Wd x_v)).
    - rewrite linear_length. assumption.
    - assumption. }
  rewrite Hy. reflexivity.
Qed.

End ShapesOfForward.

(** X4. A destination node without incoming edges (allowed by
    [allow_zero_in_degree]) aggregates nothing: its output row is its
    own residual projection, passed through the activation, in either
    mode and whatever the dropout draws are. *)
Theorem isolated_node_gets_residual_only (l : GATConv) (training : bool)
    (rng : Rng) (g : DGLGraph) (x : list Vec) (ef : option (list Vec))
    (Wd : Linear) (out : list (list Vec)) (v : nat) :
  forward l training rng g x ef = Ok out ->
  _fc_dst l = Some Wd ->
  _num_heads l * _out_feats l <= List.length Wd ->
  v < num_dst_nodes g ->
  v < List.length (node_inputs_dst g x) ->
  in_degree g v = 0 ->
  nth v out [] =
  match _activation l with
  | Some a => map (map a) (view (_num_heads l) (_out_feats l)
                                (linear Wd (nth v (node_inputs_dst g x) [])))
  | None => view (_num_heads l) (_out_feats l)
                 (linear Wd (nth v (node_inputs_dst g x) []))
  end.
Proof.
  intros Hfw Hdst HW Hv Hvx Hdeg.
  unfold forward in Hfw.
  destruct (check_in_degree l g) as [[]|err]; simpl in Hfw; [|discriminate].
  destruct (forward_body_returns l training rng g x ef out Hfw)
    as [Wd' [e [attn [_ [He [Ha _]]]]]].
  destruct (forward_body_row l training rng g x ef Wd e attn v Hdst He Ha Hv Hvx)
    as [out' [Hout' Hrow]].
  rewrite Hout' in Hfw. injection Hfw as <-.
  rewrite Hrow. apply out_row_isolated; assumption.
Qed.

Lemma out_row_shape (l : GATConv) (g : DGLGraph) (fsrc : list (list Vec))
    (attn : list Vec) (Wd : Linear) (x_v : Vec) (v : nat) :
  _num_heads l * _out_feats l <= List.length Wd ->
  List.length (out_row l g fsrc attn Wd x_v v) = _num_heads l /\
  forall r, In r (out_row l g fsrc attn Wd x_v v) -> List.length r = _out_feats l.
Proof.
  intros HW. unfold out_row.
  set (agg := map (fun h => map (fun f => msg_sum g fsrc attn v h f)
                                (seq 0 (_out_feats l)))
                  (seq 0 (_num_heads l))).
  set (x := if norm_in (_norm l) ["both"; "right"]%string
            then scale3 (norm_factor (_norm l) (in_degree g v)) agg else agg).
  set (y := map (fun q : Vec * Vec => vadd (fst q) (snd q))
                (combine x (view (_num_heads l) (_out_feats l) (linear Wd x_v)))).
  assert (Hagg : List.length agg = _num_heads l /\
                 forall row, In row agg -> List.length row = _out_feats l).
  { unfold agg. split.
    - rewrite length_map, length_seq. reflexivity.
    - intros row Hrow. apply in_map_iff in Hrow as [h [<- _]].
      rewrite length_map, length_seq. reflexivity. }
  assert (Hx : List.length x = _num_heads l /\
               forall row, In row x -> List.length row = _out_feats l).
  { unfold x. destruct (norm_in _ _); [|exact Hagg].
    destruct Hagg as [Hl Hrows]. unfold scale3. split.
    - rewrite length_map. assumption.
    - intros row Hrow. apply in_map_iff in Hrow as [row0 [<- Hrow0]].
      rewrite length_map. apply Hrows. assumption. }
  assert (Hy : List.length y = _num_heads l /\
               forall r, In r y -> List.length r = _out_feats l).
  { destruct Hx as [Hl Hrows]. unfold y. split.
    - rewrite length_map, length_combine, view_length. lia.
    - intros r Hr. apply in_map_iff in Hr as [[zs c] [<- Hp]]. cbn [fst snd].
      unfold vadd. rewrite length_map, length_combine.
      rewrite (Hrows zs (in_combine_l _ _ _ _ Hp)).
      rewrite (view_chunks (_num_heads l) (_out_feats l) (linear Wd x_v) c);
        [lia | rewrite linear_length; assumption | exact (in_combine_r _ _ _ _ Hp)]. }
  destruct (_activation l) as [a|]; [|exact Hy].
  destruct Hy as [Hl Hrows]. split.
  - rewrite length_map. assumption.
  - intros r Hr. apply in_map_iff in Hr as [r0 [<- Hr0]].
    rewrite length_map. apply Hrows. assumption.
Qed.

(** X5. When [forward] returns, its result has the shape
    [(num_dst_nodes, num_heads, out_feats)]: one row per destination
    node, one entry per head and per output feature.  The inputs have a
    row for every destination node and the residual projection has
    [num_heads * out_feats] output features, as [__init__] builds it. *)
Theorem forward_output_shape (l : GATConv) (training : bool) (rng : Rng)
    (g : DGLGraph) (x : list Vec) (ef : option (list Vec)) (Wd : Linear)
    (out : list (list Vec)) :
  forward l training rng g x ef = Ok out ->
  _fc_dst l = Some Wd ->
  _num_heads l * _out_feats l <= List.length Wd ->
  num_dst_nodes g <= List.length (node_inputs_dst g x) ->
  List.length out = num_dst_nodes g /\
  forall row, In row out ->
    List.length row = _num_heads l /\
    forall r, In r row -> List.length r = _out_feats l.
Proof.
  intros Hfw Hdst HW Hin.
  unfold forward in Hfw.
  destruct (check_in_degree l g) as [[]|err]; simpl in Hfw; [|discriminate].
  destruct (forward_body_returns l training rng g x ef out Hfw)
    as [Wd' [e [attn [Hdst' [He [Ha Hout]]]]]].
  assert (Hlen : List.length out = num_dst_nodes g).
  { rewrite Hout.
    assert (Hadd : forall X Fd : list (list Vec),
              List.length (add3 X Fd) = Nat.min (List.length X) (List.length Fd))
      by (intros; unfold add3; rewrite length_map, length_combine; reflexivity).
    unfold apply_activation.
    destruct (_activation l); rewrite ?length_map, Hadd, length_map,
      right_norm_length by apply update_all_length; lia. }
  split; [exact Hlen|].
  intros row Hrow.
  apply (In_nth _ _ []) in Hrow as [v [Hv Hnth]]. rewrite Hlen in Hv.
  destruct (forward_body_row l training rng g x ef Wd e attn v Hdst He Ha Hv)
    as [out' [Hout' Hrow']]; [lia|].
  rewrite Hout' in Hfw. injection Hfw as Hsame.
  rewrite <- Hnth, <- Hsame, Hrow'. apply out_row_shape. assumption.
Qed.

(** X6. When [int(E * p)] reaches the number of edges (as it does for
    [p = 1.0]), a training-mode pass keeps no edge: every attention
    weight is zero. *)
Theorem full_edge_dropout_zeroes_attention (l : GATConv) (rng : Rng)
    (g : DGLGraph) (e : list Vec) (bound : Z) (k h : nat) :
  edge_dropout_active l true = true ->
  dropped l g = Ok bound ->
  (Z.of_nat (num_edges g) <= bound)%Z ->
  List.length (randperm rng) = num_edges g ->
  kept_eids l rng g = Ok [] /\
  exists attn, attention l true rng g e = Ok attn /\ get2 attn k h = 0%R.
Proof.
  intros Hact Hd Hall Hperm.
  assert (Hkept : kept_eids l rng g = Ok []).
  { rewrite (kept_eids_of_bound l rng g bound Hd) by lia.
    f_equal. apply skipn_all2. lia. }
  split; [exact Hkept|].
  unfold attention. rewrite Hact, Hkept. cbn [bind].
  eexists. split; [reflexivity|]. apply zeros_like_entry.
Qed.

(** X7. After [set_allow_zero_in_degree(True)] no forward call raises
    the assertion, whatever the graph: the call is the rest of
    [forward] on the layer as it was.  After
    [set_allow_zero_in_degree(False)] a graph with a destination node
    of in-degree zero is refused, whatever the flag was before. *)
Theorem set_allow_zero_in_degree_switches_check (l : GATConv)
    (training : bool) (rng : Rng) (g : DGLGraph) (x : list Vec)
    (ef : option (list Vec)) :
  forward (set_allow_zero_in_degree l true) training rng g x ef
  = forward_body l training rng g x ef /\
  ((exists v, v < num_dst_nodes g /\ in_degree g v = 0) ->
   forward (set_allow_zero_in_degree l false) training rng g x ef
   = Raise AssertionError).
Proof.
  split; [reflexivity|].
  intros Hz. apply existsb_zero_in_degree in Hz.
  unfold forward, check_in_degree.
  cbn [set_allow_zero_in_degree _allow_zero_in_degree negb].
  rewrite Hz. reflexivity.
Qed.

Lemma string_eqb_false (a b : string) : a <> b -> String.eqb a b = false.
Proof. intros H. apply String.eqb_neq. exact H. Qed.

(** X8. A [norm] other than ['both'], ['left'] and ['right'] is not
    rejected: the layer then applies no degree normalisation at all,
    exactly as with ['none']. *)
Theorem unknown_norm_means_none (l : GATConv) (n : string) (training : bool)
    (rng : Rng) (g : DGLGraph) (x : list Vec) (ef : option (list Vec)) :
  n <> "both"%string -> n <> "left"%string -> n <> "right"%string ->
  forward (with_norm l n) training rng g x ef
  = forward (with_norm l "none") training rng g x ef.
Proof.
  intros Hb Hl Hr.
  assert (Hleft : norm_in n ["both"; "left"]%string = false).
  { unfold norm_in. simpl. rewrite !string_eqb_false by assumption. reflexivity. }
  assert (Hright : norm_in n ["both"; "right"]%string = false).
  { unfold norm_in. simpl. rewrite !string_eqb_false by assumption. reflexivity. }
  unfold forward, forward_body, feat_fc_src, right_norm.
  cbn [with_norm _norm _out_feats _num_heads _fc_src _fc_dst].
  rewrite Hleft, Hright. reflexivity.
Qed.

(** X9. A layer built with [edge_in_feats = 0] has no edge projection;
    passing it edge features makes [forward] raise [TypeError] (after
    the in-degree check), it does not ignore them. *)
Theorem edge_inputs_without_edge_layer (nn_Parameter_error : PyError)
    (out_feats num_heads : nat) (norm : string)
    (attn_dropout : Q) (edge_dropout : py_float) (negative_slope : R)
    (residual : bool)
    (activation : option (R -> R)) (use_attn_dst allow_zero : bool)
    (w : InitWeights) (l : GATConv) (training : bool) (rng : Rng)
    (g : DGLGraph) (x efeat : list Vec) :
  GATConv_init nn_Parameter_error 0 out_feats num_heads norm attn_dropout
               edge_dropout negative_slope residual activation
               use_attn_dst allow_zero w = Ok l ->
  forward_body l training rng g x (Some efeat) = Raise TypeError /\
  ~ returns (forward l training rng g x (Some efeat)).
Proof.
  intros Hinit.
  assert (Hedge : _attn_fc_edge l = None).
  { unfold GATConv_init, nn_Dropout in Hinit.
    destruct (Qlt_bool attn_dropout 0 || Qlt_bool 1 attn_dropout);
      simpl in Hinit; [discriminate|].
    destruct residual; simpl in Hinit; [|discriminate].
    injection Hinit as <-. reflexivity. }
  assert (Hbody : forward_body l training rng g x (Some efeat) = Raise TypeError).
  { unfold forward_body, attn_logits. rewrite Hedge.
    destruct (_fc_dst l); reflexivity. }
  split; [exact Hbody|].
  unfold returns, forward. intros [out Hout].
  destruct (check_in_degree l g) as [[]|err]; simpl in Hout; [|discriminate].
  rewrite Hbody in Hout. discriminate.
Qed.

(** Evaluations of the properties above on the concrete layers. *)

Lemma attention_weight_bounds_witness :
  exists attn,
    attention (layer_1x1 "none" 0 float_zero (Some [[1%R]]) None true) true
              (rng_const [0] true) g_loop [[0%R]] = Ok attn /\
    (0 < get2 attn 0 0 <= 1)%R.
Proof.
  apply (attention_weight_bounds
           (layer_1x1 "none" 0 float_zero (Some [[1%R]]) None true) true
           (rng_const [0] true) g_loop [[0%R]] 0 0);
    try reflexivity; simpl; unfold num_edges; simpl; lia.
Defined.

Lemma single_in_edge_has_weight_one_witness :
  exists attn,
    attention (layer_1x1 "none" 0 float_zero (Some [[1%R]]) None true) false
              (rng_const [0; 1] true) g_fan [[0%R]; [3%R]] = Ok attn /\
    get2 attn 0 0 = 1%R /\
    msg_sum g_fan [[[5%R]]; [[7%R]]] attn 0 0 0
    = get3 [[[5%R]]; [[7%R]]] (src_of g_fan 0) 0 0.
Proof.
  apply (single_in_edge_has_weight_one
           (layer_1x1 "none" 0 float_zero (Some [[1%R]]) None true) false
           (rng_const [0; 1] true) g_fan [[0%R]; [3%R]] [[[5%R]]; [[7%R]]]
           0 0 0 0);
    try reflexivity; simpl; unfold num_edges; simpl; lia.
Defined.

Lemma isolated_node_gets_residual_only_witness :
  exists out,
    forward (layer_1x1 "right" 0 float_zero (Some [[1%R]]) None true) true
            (rng_const [] true) g_isolated [[2%R]] None = Ok out /\
    nth 0 out [] = [[dot [1%R] [2%R]]].
Proof.
  eexists. split; [reflexivity|].
  apply (isolated_node_gets_residual_only
           (layer_1x1 "right" 0 float_zero (Some [[1%R]]) None true) true
           (rng_const [] true) g_isolated [[2%R]] None [[1%R]] _ 0);
    try reflexivity; simpl; lia.
Defined.

Lemma forward_output_shape_witness :
  exists out,
    forward (layer_1x1 "none" 0 float_zero (Some [[1%R]]) None true) false
            (rng_const [0; 1] true) g_fan [[1%R]; [2%R]] None = Ok out /\
    List.length out = 2.
Proof.
  eexists. split; [reflexivity|].
  apply (forward_output_shape
           (layer_1x1 "none" 0 float_zero (Some [[1%R]]) None true) false
           (rng_const [0; 1] true) g_fan [[1%R]; [2%R]] None [[1%R]]);
    try reflexivity; simpl; lia.
Defined.

Lemma full_edge_dropout_zeroes_attention_witness :
  kept_eids (layer_1x1 "none" 0 (float_lit 1 1) (Some [[1%R]]) None true)
            (rng_const [1; 0] true) g_swap = Ok [] /\
  exists attn,
    attention (layer_1x1 "none" 0 (float_lit 1 1) (Some [[1%R]]) None true) true
              (rng_const [1; 0] true) g_swap [[0%R]; [0%R]] = Ok attn /\
    get2 attn 1 0 = 0%R.
Proof.
  apply (full_edge_dropout_zeroes_attention
           (layer_1x1 "none" 0 (float_lit 1 1) (Some [[1%R]]) None true)
           (rng_const [1; 0] true) g_swap [[0%R]; [0%R]] 2%Z 1 0).
  - reflexivity.
  - reflexivity.
  - simpl. lia.
  - reflexivity.
Defined.

Lemma set_allow_zero_in_degree_switches_check_witness :
  forward (set_allow_zero_in_degree
             (layer_1x1 "none" 0 float_zero (Some [[1%R]]) None true) false)
          false (rng_const [] true) g_isolated [[1%R]] None
  = Raise AssertionError.
Proof.
  apply (proj2 (set_allow_zero_in_degree_switches_check
                  (layer_1x1 "none" 0 float_zero (Some [[1%R]]) None true)
                  false (rng_const [] true) g_isolated [[1%R]] None)).
  exists 0. split; [simpl; lia | reflexivity].
Defined.

Lemma unknown_norm_means_none_witness :
  forward (with_norm (layer_1x1 "left" 0 float_zero (Some [[1%R]]) None true) "symmetric")
          false (rng_const [0; 1] true) g_fan [[1%R]; [2%R]] None
  = forward (with_norm (layer_1x1 "left" 0 float_zero (Some [[1%R]]) None true) "none")
            false (rng_const [0; 1] true) g_fan [[1%R]; [2%R]] None.
Proof.
  apply unknown_norm_means_none; discriminate.
Defined.

Lemma edge_inputs_without_edge_layer_witness :
  forward_body (layer_1x1 "none" 0 float_zero (Some [[1%R]]) (Some [[1%R]]) true) false
               (rng_const [0] true) g_loop [[1%R]] (Some [[1%R]])
  = Raise TypeError /\
  ~ returns (forward (layer_1x1 "none" 0 float_zero (Some [[1%R]]) (Some [[1%R]]) true)
                     false (rng_const [0] true) g_loop [[1%R]] (Some [[1%R]])).
Proof.
  apply (edge_inputs_without_edge_layer TypeError 1 1 "none" 0 float_zero
           (1 / 5)%R true None true true weights_1x1).
  reflexivity.
Defined.

(** * Further properties of the passes *)

Section MorePassFacts.

Context {T : Torch}.

Lemma train_mini_batch_body_effect (i : nat) (x : Input T)
    (loc loc' : Locals) (w w' : World T) :
  gat_with_projection.train_mini_batch_body i x loc w = (Ok loc', w') ->
  w_grad_enabled w = true /\
  w_training w' = w_training w /\
  w_grad_enabled w' = w_grad_enabled w /\
  w_forward_log w' =
  w_forward_log w ++ [{| fc_training := w_training w; fc_grad_enabled := true |}].
Proof.
  unfold gat_with_projection.train_mini_batch_body, bindM, optimizer_zero_grad,
    call_model, loss_backward, optimizer_step, div_len, ret, raise.
  simpl.
  destruct (model_forward T _ _ x); [|discriminate].
  simpl. destruct (w_grad_enabled w) eqn:Hg; [|discriminate].
  simpl. destruct (Nat.eqb _ 0); [discriminate|].
  intros H. injection H as _ <-. simpl. auto.
Qed.

Lemma for_enumerate_log {X : Type} (body : nat -> X -> Locals -> M T Locals) :
  (forall i x loc w loc' w',
      body i x loc w = (Ok loc', w') ->
      w_grad_enabled w = true /\
      w_training w' = w_training w /\
      w_grad_enabled w' = w_grad_enabled w /\
      w_forward_log w' =
      w_forward_log w ++ [{| fc_training := w_training w; fc_grad_enabled := true |}]) ->
  forall items loc w loc' w',
    for_enumerate body items loc w = (Ok loc', w') ->
    w_training w' = w_training w /\
    w_forward_log w' =
    w_forward_log w
    ++ repeat {| fc_training := w_training w; fc_grad_enabled := true |}
              (List.length items).
Proof.
  intros Hbody items. induction items as [|[i x] rest IH]; intros loc w loc' w' Hrun.
  - simpl in Hrun. unfold ret in Hrun. injection Hrun as _ <-.
    simpl. rewrite app_nil_r. auto.
  - simpl in Hrun. unfold bindM in Hrun.
    destruct (body i x _ w) as [[loc1|err] w1] eqn:Hb; [|discriminate].
    apply Hbody in Hb as [_ [Ht [_ Hlog]]].
    apply IH in Hrun as [Ht' Hlog'].
    split; [congruence|].
    rewrite Hlog', Hlog, Ht. simpl. rewrite <- app_assoc. reflexivity.
Qed.

End MorePassFacts.

(** X10. When [train_mini_batch] returns, the model was called exactly
    once per batch of the data loader, each time in training mode with
    gradient tracking on, and it is left in training mode. *)
Theorem train_mini_batch_calls_model_per_batch (T : Torch)
    (dataloader : list (Input T)) (w w' : World T) (r : Q * Q * Q) :
  gat_with_projection.train_mini_batch dataloader w = (Ok r, w') ->
  w_forward_log w' =
  w_forward_log w ++ repeat training_call (List.length dataloader) /\
  w_training w' = true.
Proof.
  intros Hrun.
  set (loc0 := {| step := None; total_loss := 0%Q; total_score := 0%Q |}).
  set (w0 := snd (default_timer (snd (model_train w)))).
  assert (Heq : gat_with_projection.train_mini_batch dataloader w =
                match for_enumerate gat_with_projection.train_mini_batch_body
                        (enumerate dataloader) loc0 w0 with
                | (Ok loc, w1) => averages (w_clock w (w_ticks w)) loc w1
                | (Raise e, w1) => (Raise e, w1)
                end) by reflexivity.
  rewrite Heq in Hrun. clear Heq.
  destruct (for_enumerate gat_with_projection.train_mini_batch_body
              (enumerate dataloader) loc0 w0) as [[loc|err] w1] eqn:Hloop;
    [|discriminate].
  apply (for_enumerate_log gat_with_projection.train_mini_batch_body) in Hloop;
    [|intros; eapply train_mini_batch_body_effect; eassumption].
  destruct Hloop as [Ht Hlog].
  unfold averages, bindM, default_timer, ret, raise in Hrun.
  destruct (step loc); [|discriminate].
  injection Hrun as _ <-. simpl.
  unfold enumerate in Hlog. rewrite length_combine, length_seq, Nat.min_id in Hlog.
  split; [exact Hlog | exact Ht].
Qed.

Lemma train_mini_batch_calls_model_per_batch_witness :
  w_forward_log (snd (gat_with_projection.train_mini_batch
                        [4 : Input toy_torch; 5 : Input toy_torch] toy_world))
  = [training_call; training_call].
Proof.
  destruct (gat_with_projection.train_mini_batch
              [4 : Input toy_torch; 5 : Input toy_torch] toy_world)
    as [[r|err] w'] eqn:Hrun.
  - apply (proj1 (train_mini_batch_calls_model_per_batch toy_torch _ _ _ _ Hrun)).
  - vm_compute in Hrun. discriminate Hrun.
Defined.

Lemma train_mini_batch_nonempty_witness :
  exists time,
    fst (gat_with_projection.train_mini_batch
           [4 : Input toy_torch; 5 : Input toy_torch] toy_world)
    = Ok (time, (5 / 2)%Q, (2 / 2)%Q).
Proof.
  assert (Hne : [4 : Input toy_torch; 5 : Input toy_torch] <> []) by discriminate.
  exact (train_mini_batch_nonempty toy_torch toy_world _ Hne).
Defined.

(** X12. A training pass on the full graph ([train_full_graph] of the
    model file and [train] of [full_graph.py]) that returns has made
    exactly one optimizer step, from gradients that were zeroed first:
    the new parameters and optimizer state are those of one update with
    the gradient of this pass alone, whatever gradients were left
    before. *)
Theorem full_graph_pass_is_one_step (T : Torch) (g : Input T)
    (mask : Mask T) (w : World T) :
  let stepped :=
    optimizer_update T (w_opt w) (w_params w)
      (add_grads T (zero_grads T) (loss_gradient T (w_params w) true g)) in
  (forall r w', gat_with_projection.train_full_graph g mask w = (Ok r, w') ->
                w_params w' = fst stepped /\ w_opt w' = snd stepped /\
                w_forward_log w' = w_forward_log w ++ [training_call]) /\
  (forall r w', full_graph_train.train g mask w = (Ok r, w') ->
                w_params w' = fst stepped /\ w_opt w' = snd stepped /\
                w_forward_log w' = w_forward_log w ++ [training_call]).
Proof.
  intros stepped. split; intros r w'.
  - unfold gat_with_projection.train_full_graph, bindM, model_train, set_training,
      optimizer_zero_grad, default_timer, call_model, loss_backward,
      optimizer_step, div_len, ret, raise.
    simpl.
    destruct (model_forward T (w_params w) true g); [|discriminate].
    simpl. destruct (w_grad_enabled w); [|discriminate].
    simpl. destruct (Nat.eqb _ 0); [discriminate|].
    intros H. injection H as _ <-. simpl. auto.
  - unfold full_graph_train.train, bindM, model_train, set_training,
      optimizer_zero_grad, default_timer, call_model, loss_backward,
      optimizer_step, ret, raise.
    simpl.
    destruct (model_forward T (w_params w) true g); [|discriminate].
    simpl. destruct (w_grad_enabled w); [|discriminate].
    intros H. injection H as _ <-. simpl. auto.
Qed.

Lemma full_graph_pass_is_one_step_witness :
  w_params (snd (full_graph_train.train (0 : Input toy_torch)
                   (tt : Mask toy_torch) toy_world)) = (1 : Params toy_torch).
Proof.
  destruct (full_graph_train.train (0 : Input toy_torch) (tt : Mask toy_torch)
              toy_world) as [[r|err] w'] eqn:Hrun.
  - apply (proj2 (full_graph_pass_is_one_step toy_torch (0 : Input toy_torch)
                    (tt : Mask toy_torch) toy_world) r w' Hrun).
  - vm_compute in Hrun. discriminate Hrun.
Defined.

(** X13. With a mask that selects no node, [validate] of the model file
    divides the number of correct predictions by zero and raises
    [ZeroDivisionError] (when the forward pass itself returns), while
    [validate] of [full_graph.py], which leaves the score to the
    evaluator, returns. *)
Theorem validate_on_empty_mask (T : Torch) (g : Input T) (mask : Mask T)
    (w : World T) (y : Logits T) :
  model_forward T (w_params w) false g = Ok y ->
  len T (index_labels T (labels_of T g) mask) = 0 ->
  fst (gat_with_projection.validate g mask w) = Raise ZeroDivisionError /\
  returns (fst (full_graph.validate g mask w)).
Proof.
  intros Hfw Hlen.
  unfold gat_with_projection.validate, full_graph.validate, bindM, model_eval,
    set_training, no_grad, set_grad_enabled, default_timer, call_model,
    div_len, ret, raise, returns.
  simpl. rewrite Hfw. simpl. rewrite Hlen. simpl.
  split; [reflexivity | eexists; reflexivity].
Qed.

Lemma validate_on_empty_mask_witness :
  fst (gat_with_projection.validate ([0; 1] : Input toy_masked_torch)
         ([] : Mask toy_masked_torch) toy_masked_world)
  = Raise ZeroDivisionError /\
  returns (fst (full_graph.validate ([0; 1] : Input toy_masked_torch)
                  ([] : Mask toy_masked_torch) toy_masked_world)).
Proof.
  apply (validate_on_empty_mask toy_masked_torch ([0; 1] : Input toy_masked_torch)
           ([] : Mask toy_masked_torch) toy_masked_world [0; 0]);
    reflexivity.
Defined.

(** * Further properties of the epoch loop *)

Section LoopFacts.

Context {T : Torch}.
Variable dataloader : nat -> list (Input T).
Variable g : Input T.
Variable valid_idx : Mask T.
Variable w0 : World T.

Lemma create_keeps_configuration (cb : mini_batch.Callback) (epoch : nat)
    (a b c d e f : Q) (m : Params T) :
  mini_batch.patience (mini_batch.create cb epoch a b c d e f m)
  = mini_batch.patience cb /\
  mini_batch.monitor (mini_batch.create cb epoch a b c d e f m)
  = mini_batch.monitor cb.
Proof.
  unfold mini_batch.create. destruct (mini_batch.improved cb d f); auto.
Qed.

Lemma epoch_loop_exit (n : nat) :
  forall a cb exit cb' w',
    mini_batch.epoch_loop dataloader g valid_idx (seq a n) cb
      (mini_batch.world_after dataloader g valid_idx a w0)
    = (Ok (exit, cb'), w') ->
    mini_batch.patience cb' = mini_batch.patience cb /\
    mini_batch.monitor cb' = mini_batch.monitor cb /\
    match exit with
    | mini_batch.Completed =>
        w' = mini_batch.world_after dataloader g valid_idx (a + n) w0 /\
        (1 <= n -> mini_batch.should_stop cb' = false)
    | mini_batch.EarlyStopped e =>
        a <= e < a + n /\
        w' = mini_batch.world_after dataloader g valid_idx (S e) w0 /\
        mini_batch.should_stop cb' = true
    end.
Proof.
  induction n as [|n IH]; intros a cb exit cb' w' Hrun.
  - simpl in Hrun. unfold ret in Hrun. injection Hrun as <- <- <-.
    rewrite Nat.add_0_r. repeat split; auto. lia.
  - simpl seq in Hrun. cbn [mini_batch.epoch_loop] in Hrun.
    unfold bindM at 1 in Hrun. rewrite run_epoch_passes in Hrun.
    remember (mini_batch.world_after dataloader g valid_idx a w0) as wa eqn:Hwa.
    destruct (mini_batch.epoch_passes dataloader g valid_idx a wa)
      as [[[tr va]|err] w1] eqn:Hpass; [|discriminate].
    assert (HW : mini_batch.world_after dataloader g valid_idx (S a) w0 = w1).
    { simpl. rewrite <- Hwa, Hpass. reflexivity. }
    set (cb1 := mini_batch.create cb a (fst (fst tr)) (fst (fst va))
                  (snd (fst tr)) (snd (fst va)) (snd tr) (snd va) (w_params w1))
      in Hrun.
    destruct (create_keeps_configuration cb a (fst (fst tr)) (fst (fst va))
                (snd (fst tr)) (snd (fst va)) (snd tr) (snd va) (w_params w1))
      as [Hp Hm].
    fold cb1 in Hp, Hm.
    destruct (mini_batch.should_stop cb1) eqn:Hstop.
    + unfold ret in Hrun. injection Hrun as <- <- <-.
      repeat split; auto; lia.
    + rewrite <- HW in Hrun.
      destruct n as [|n'].
      * cbn [seq mini_batch.epoch_loop] in Hrun. unfold ret in Hrun.
        injection Hrun as <- <- <-.
        replace (a + 1) with (S a) by lia. repeat split; auto.
      * apply IH in Hrun as [Hp' [Hm' Hexit]].
        split; [congruence|]. split; [congruence|].
        destruct exit as [|e].
        -- destruct Hexit as [Hw Hs]. split.
           ++ rewrite Hw. f_equal. lia.
           ++ intros _. apply Hs. lia.
        -- destruct Hexit as [He [Hw Hs]]. repeat split; auto; lia.
Qed.

End LoopFacts.

(** X14. How the epoch loop of [log_run] ends, when no pass raises.
    If it runs to completion, the passes of all [num_epochs] epochs were
    run and the last checkpoint did not ask to stop; if it breaks at
    epoch [e], then [e < num_epochs], the passes of the epochs
    [0 .. e] were run and no other, and the checkpoint of epoch [e]
    asked to stop.  The callback keeps its patience and its monitor. *)
Theorem epoch_loop_runs_until_stop (T : Torch)
    (dataloader : nat -> list (Input T)) (g : Input T) (valid_idx : Mask T)
    (w0 w' : World T) (num_epochs patience : nat) (monitor : string)
    (exit : mini_batch.LoopExit) (cb : mini_batch.Callback) :
  mini_batch.log_run_loop num_epochs patience monitor dataloader g valid_idx w0
  = (Ok (exit, cb), w') ->
  mini_batch.patience cb = patience /\
  mini_batch.monitor cb = monitor /\
  match exit with
  | mini_batch.Completed =>
      w' = mini_batch.world_after dataloader g valid_idx num_epochs w0 /\
      (1 <= num_epochs -> mini_batch.should_stop cb = false)
  | mini_batch.EarlyStopped e =>
      e < num_epochs /\
      w' = mini_batch.world_after dataloader g valid_idx (S e) w0 /\
      mini_batch.should_stop cb = true
  end.
Proof.
  intros Hrun. unfold mini_batch.log_run_loop in Hrun.
  apply (epoch_loop_exit dataloader g valid_idx w0 num_epochs 0) in Hrun.
  destruct Hrun as [Hp [Hm Hexit]].
  split; [exact Hp|]. split; [exact Hm|].
  destruct exit as [|e]; [exact Hexit|].
  destruct Hexit as [He Hrest]. split; [lia | exact Hrest].
Qed.

Lemma epoch_loop_runs_until_stop_witness :
  w_params (snd (mini_batch.log_run_loop 3 5 "loss" toy_loader
                   (0 : Input toy_torch) (tt : Mask toy_torch) toy_world))
  = (3 : Params toy_torch).
Proof.
  destruct (mini_batch.log_run_loop 3 5 "loss" toy_loader
              (0 : Input toy_torch) (tt : Mask toy_torch) toy_world)
    as [[[exit cb]|err] w'] eqn:Hrun.
  - destruct (epoch_loop_runs_until_stop toy_torch _ _ _ _ _ _ _ _ _ _ Hrun)
      as [_ [_ Hexit]].
    destruct exit as [|e].
    + destruct Hexit as [-> _]. reflexivity.
    + vm_compute in Hrun. discriminate Hrun.
  - vm_compute in Hrun. discriminate Hrun.
Defined.

(** X15. If the data loader yields no batch in the first epoch, the
    epoch loop of [log_run] raises the unbound-variable error of the
    training pass at once: no validation pass and no forward call is
    made. *)
Theorem epoch_loop_on_empty_loader (T : Torch)
    (dataloader : nat -> list (Input T)) (g : Input T) (valid_idx : Mask T)
    (w0 : World T) (num_epochs patience : nat) (monitor : string) :
  dataloader 0 = [] ->
  1 <= num_epochs ->
  fst (mini_batch.log_run_loop num_epochs patience monitor dataloader g valid_idx w0)
  = Raise UnboundLocalError /\
  w_forward_log
    (snd (mini_batch.log_run_loop num_epochs patience monitor dataloader g
                                  valid_idx w0))
  = w_forward_log w0.
Proof.
  intros Hdl Hn. destruct num_epochs as [|n]; [lia|].
  unfold mini_batch.log_run_loop. simpl seq. cbn [mini_batch.epoch_loop].
  unfold bindM at 1. unfold mini_batch.run_epoch. unfold bindM at 1.
  rewrite Hdl. split; reflexivity.
Qed.

Lemma epoch_loop_on_empty_loader_witness :
  fst (mini_batch.log_run_loop 4 2 "loss" (fun _ => [] : list (Input toy_torch))
         (0 : Input toy_torch) (tt : Mask toy_torch) toy_world)
  = Raise UnboundLocalError.
Proof.
  apply (proj1 (epoch_loop_on_empty_loader toy_torch
                  (fun _ => [] : list (Input toy_torch))
                  (0 : Input toy_torch) (tt : Mask toy_torch) toy_world
                  4 2 "loss" eq_refl ltac:(lia))).
Defined.

(** * Properties of the scripts *)

Section ScriptFacts.

Lemma py_getitem_nat {A : Type} (xs : list A) (i : nat) (d : A) :
  py_getitem xs (Z.of_nat i) =
  if i <? List.length xs then Returns (nth i xs d) else Raises IndexError.
Proof.
  unfold py_getitem.
  destruct (Nat.ltb_spec i (List.length xs)) as [Hi|Hi].
  - replace ((0 <=? Z.of_nat i)%Z) with true by (symmetry; apply Z.leb_le; lia).
    replace ((Z.of_nat i <? Z.of_nat (List.length xs))%Z) with true
      by (symmetry; apply Z.ltb_lt; lia).
    simpl. rewrite Nat2Z.id.
    destruct (nth_error xs i) as [x|] eqn:He.
    + rewrite (nth_error_nth _ _ d He). reflexivity.
    + apply nth_error_None in He. lia.
  - replace ((Z.of_nat i <? Z.of_nat (List.length xs))%Z) with false
      by (symmetry; apply Z.ltb_ge; lia).
    replace ((Z.of_nat i <? 0)%Z) with false by (symmetry; apply Z.ltb_ge; lia).
    rewrite !andb_false_r. reflexivity.
Qed.

Lemma set_hidden_layers_runs (params : nat -> option Z) (k : nat) :
  forall a hl,
    a + k <= List.length hl ->
    exists hl',
      sigopt_run.set_hidden_layers params (seq a k) hl = Returns hl' /\
      List.length hl' = List.length hl /\
      forall i, nth i hl' 0%Z =
                if (a <=? i) && (i <? a + k)
                then match params i with Some v => v | None => nth i hl 0%Z end
                else nth i hl 0%Z.
Proof.
  induction k as [|k IH]; intros a hl Hlen.
  - exists hl. split; [reflexivity|]. split; [reflexivity|].
    intros i. destruct (a <=? i) eqn:E1; destruct (i <? a + 0) eqn:E2; simpl; auto.
    apply Nat.leb_le in E1. apply Nat.ltb_lt in E2. lia.
  - simpl. rewrite (py_getitem_nat hl a 0%Z).
    destruct (Nat.ltb_spec a (List.length hl)) as [_|]; [|lia]. simpl.
    set (value := match params a with Some v => v | None => nth a hl 0%Z end).
    destruct (IH (S a) (set_nth hl a value)) as [hl' [Hrun [Hl Hnth]]].
    { rewrite set_nth_length. lia. }
    exists hl'. split; [exact Hrun|]. split; [rewrite Hl; apply set_nth_length|].
    intros i. rewrite Hnth.
    destruct (Nat.eq_dec i a) as [->|Hne].
    + replace (S a <=? a) with false by (symmetry; apply Nat.leb_gt; lia).
      rewrite Nat.leb_refl.
      replace (a <? a + S k) with true by (symmetry; apply Nat.ltb_lt; lia).
      simpl. rewrite nth_set_nth_same by lia. reflexivity.
    + rewrite nth_set_nth_other by assumption.
      destruct (Nat.leb_spec (S a) i), (Nat.leb_spec a i),
        (Nat.ltb_spec i (S a + k)), (Nat.ltb_spec i (a + S k));
        simpl; try reflexivity; lia.
Qed.

Lemma set_hidden_layers_overruns (params : nat -> option Z) (k : nat) :
  forall a hl,
    a <= List.length hl -> List.length hl < a + k ->
    sigopt_run.set_hidden_layers params (seq a k) hl = Raises IndexError.
Proof.
  induction k as [|k IH]; intros a hl Ha Hlen; [lia|].
  simpl. rewrite (py_getitem_nat hl a 0%Z).
  destruct (Nat.ltb_spec a (List.length hl)) as [Hin|Hout]; [|reflexivity].
  simpl. apply IH; rewrite set_nth_length; lia.
Qed.

End ScriptFacts.

(** X16. The hidden widths of the hyper-parameter script: the list is
    cut to [int(sigopt.params.number_of_layers)] of the three
    configured widths, and the loop reads one entry per layer of
    [args.number_of_layers].  When that many entries exist, each one is
    replaced by the SigOpt value stored under its key, or kept when the
    key is new; when more layers are asked for than entries exist (in
    particular for more than three layers) the script raises
    [IndexError]. *)
Theorem hidden_layers_bounds (h1 h2 h3 sigopt_layers args_layers : Z)
    (params : nat -> option Z) :
  let available := py_slice_to [h1; h2; h3] sigopt_layers in
  (Z.to_nat args_layers <= List.length available ->
   exists hl,
     sigopt_run.hidden_layers_of h1 h2 h3 sigopt_layers args_layers params
     = Returns hl /\
     List.length hl = List.length available /\
     forall i, i < Z.to_nat args_layers ->
       nth i hl 0%Z = match params i with
                      | Some v => v
                      | None => nth i available 0%Z
                      end) /\
  (List.length available < Z.to_nat args_layers ->
   sigopt_run.hidden_layers_of h1 h2 h3 sigopt_layers args_layers params
   = Raises IndexError) /\
  List.length available <= 3.
Proof.
  intros available. split; [|split].
  - intros Hle.
    destruct (set_hidden_layers_runs params (Z.to_nat args_layers) 0 available Hle)
      as [hl [Hrun [Hl Hnth]]].
    exists hl. split; [exact Hrun|]. split; [exact Hl|].
    intros i Hi. rewrite Hnth. simpl.
    destruct (Nat.ltb_spec i (Z.to_nat args_layers)); [reflexivity | lia].
  - intros Hlt.
    apply (set_hidden_layers_overruns params (Z.to_nat args_layers) 0 available);
      lia.
  - unfold available, py_slice_to.
    destruct (sigopt_layers <? 0)%Z; rewrite length_firstn; simpl; lia.
Qed.

Lemma hidden_layers_bounds_witness :
  sigopt_run.hidden_layers_of 4 3 2 4 4 (fun _ => None) = Raises IndexError /\
  exists hl, sigopt_run.hidden_layers_of 4 3 2 2 2
               (fun i => if Nat.eqb i 1 then Some 8%Z else None) = Returns hl /\
             List.length hl = 2.
Proof.
  split.
  - apply (proj1 (proj2 (hidden_layers_bounds 4 3 2 4 4 (fun _ => None)))).
    simpl. lia.
  - destruct (proj1 (hidden_layers_bounds 4 3 2 2 2
                       (fun i => if Nat.eqb i 1 then Some 8%Z else None)))
      as [hl [Hrun [Hl _]]]; [simpl; lia|].
    exists hl. split; [exact Hrun | exact Hl].
Defined.

(** X18. The batch size of the baseline script,
    [(len(train_idx) + 29) // 30], is at least 1 for a non-empty
    training set and splits it into at most 30 batches. *)
Theorem baseline_batch_size_gives_thirty_batches (num_train : nat) :
  1 <= num_train ->
  1 <= baseline.batch_size num_train /\
  num_train <= 30 * baseline.batch_size num_train /\
  baseline.num_batches num_train (baseline.batch_size num_train) <= 30.
Proof.
  intros Hn. unfold baseline.batch_size, baseline.num_batches.
  set (bs := (num_train + 29) / 30).
  assert (Hdiv : num_train + 29 = 30 * bs + (num_train + 29) mod 30)
    by (apply Nat.div_mod_eq).
  assert (Hmod : (num_train + 29) mod 30 < 30) by (apply Nat.mod_upper_bound; lia).
  assert (Hbs : 1 <= bs) by (apply Nat.div_le_lower_bound; lia).
  split; [exact Hbs|]. split; [lia|].
  assert (Hlt : (num_train + bs - 1) / bs < 31)
    by (apply Nat.Div0.div_lt_upper_bound; lia).
  lia.
Qed.

Lemma baseline_batch_size_gives_thirty_batches_witness :
  baseline.num_batches 100 (baseline.batch_size 100) <= 30.
Proof.
  apply (proj2 (proj2 (baseline_batch_size_gives_thirty_batches 100
                         ltac:(lia)))).
Defined.

Section SigoptLoopFacts.

Variable accuracies : nat -> Q * Q.

Lemma epoch_body_keeps (m : nat) (b : sigopt_run.Bookkeeping) :
  kept_after accuracies m b ->
  exists b',
    sigopt_run.epoch_body (S m) (fst (accuracies (S m))) (snd (accuracies (S m))) b
    = Returns b' /\
    kept_after accuracies (S m) b' /\
    last (sigopt_run.logged_best_train_accuracy b') 0%Q
    = fst (accuracies (match sigopt_run.best_accuracy b' with
                       | Some (_, e) => e
                       | None => 0
                       end)).
Proof.
  intros [Htr [Hte [Hlog Hbest]]].
  unfold sigopt_run.epoch_body.
  set (t := snd (accuracies (S m))).
  assert (Hseq : seq 1 (S m) = seq 1 m ++ [S m])
    by (rewrite seq_S; reflexivity).
  assert (Htrains : sigopt_run.epoch_train_accuracies b ++ [fst (accuracies (S m))]
                    = map (fun e => fst (accuracies e)) (seq 1 (S m))).
  { rewrite Hseq, map_app, Htr. reflexivity. }
  assert (Htests : sigopt_run.epoch_test_accuracies b ++ [t]
                   = map (fun e => snd (accuracies e)) (seq 1 (S m))).
  { rewrite Hseq, map_app, Hte. reflexivity. }
  assert (Hget : forall e, 1 <= e <= S m ->
            py_getitem (sigopt_run.epoch_train_accuracies b ++ [fst (accuracies (S m))])
                       (Z.of_nat e - 1)
            = Returns (fst (accuracies e))).
  { intros e He. replace (Z.of_nat e - 1)%Z with (Z.of_nat (e - 1)) by lia.
    rewrite (py_getitem_nat _ (e - 1) 0%Q), Htrains, length_map, length_seq.
    destruct (Nat.ltb_spec (e - 1) (S m)); [|lia].
    rewrite (nth_indep _ 0%Q (fst (accuracies 0))) by (rewrite length_map, length_seq; lia).
    rewrite (map_nth (fun e0 => fst (accuracies e0))), seq_nth by lia.
    replace (1 + (e - 1)) with e by lia. reflexivity. }
  assert (Hchecked :
            exists v e c p,
              sigopt_run.check_best (S m) t b = (Some (v, e), c, p) /\
              1 <= e <= S m /\ v = snd (accuracies e) /\
              (forall j, 1 <= j <= S m -> (snd (accuracies j) <= v)%Q) /\
              (forall j, 1 <= j < e -> (snd (accuracies j) < v)%Q)).
  { unfold sigopt_run.check_best.
    destruct (sigopt_run.best_accuracy b) as [[v e]|].
    - destruct Hbest as [He [Hv [Hmax Hfirst]]]. cbn [fst snd].
      destruct (Qlt_bool v t) eqn:Hnew.
      + apply Qlt_bool_true in Hnew.
        exists t, (S m), 0, (sigopt_run.early_stop_prints b).
        split; [reflexivity|]. split; [lia|]. split; [reflexivity|]. split.
        * intros j Hj. destruct (Nat.eq_dec j (S m)) as [->|Hne].
          -- apply Qle_refl.
          -- apply Qlt_le_weak. apply Qle_lt_trans with v; [|assumption].
             apply Hmax. lia.
        * intros j Hj. apply Qle_lt_trans with v; [|assumption]. apply Hmax. lia.
      + apply Qlt_bool_false in Hnew.
        assert (Hkeep : forall j, 1 <= j <= S m -> (snd (accuracies j) <= v)%Q).
        { intros j Hj. destruct (Nat.eq_dec j (S m)) as [->|Hne];
            [exact Hnew | apply Hmax; lia]. }
        destruct (Qlt_bool t v).
        * eexists v, e, _, _. split; [reflexivity|]. repeat split; auto; lia.
        * eexists v, e, _, _. split; [reflexivity|]. repeat split; auto; lia.
    - exists t, (S m), 0, (sigopt_run.early_stop_prints b).
      split; [reflexivity|]. split; [lia|]. split; [reflexivity|]. split.
      + intros j Hj. assert (j = S m) as -> by lia. apply Qle_refl.
      + intros j Hj. lia. }
  destruct Hchecked as [v [e [c [p [Hck [He [Hv [Hmax Hfirst]]]]]]]].
  fold t. rewrite Hck. cbn [fst snd]. rewrite (Hget e He). simpl.
  eexists. split; [reflexivity|]. split.
  - unfold kept_after. cbn.
    split; [exact Htrains|]. split; [exact Htests|].
    split; [rewrite length_app, Hlog; simpl; lia|].
    repeat split; auto; lia.
  - cbn. rewrite last_last. reflexivity.
Qed.

Lemma epochs_keep (k : nat) :
  forall m b,
    kept_after accuracies m b ->
    exists b',
      sigopt_run.epochs accuracies (seq (S m) k) b = Returns b' /\
      kept_after accuracies (m + k) b'.
Proof.
  induction k as [|k IH]; intros m b Hb.
  - exists b. rewrite Nat.add_0_r. split; [reflexivity | exact Hb].
  - simpl. destruct (epoch_body_keeps m b Hb) as [b1 [Hstep [Hb1 _]]].
    rewrite Hstep. simpl.
    destruct (IH (S m) b1 Hb1) as [b' [Hrun Hb']].
    exists b'. split; [exact Hrun|].
    replace (m + S k) with (S m + k) by lia. exact Hb'.
Qed.

End SigoptLoopFacts.

(** X17. The training loop of the hyper-parameter script never stops
    early and never fails on its look-ups: for every number of epochs
    and every sequence of accuracies it runs all the epochs (the
    early-stopping counter only prints), the best accuracy it keeps is
    the maximum of the test accuracies, attributed to the first epoch
    that reached it, and the index [best epoch - 1] it reads the logged
    metrics at is always inside the lists. *)
Theorem sigopt_loop_runs_all_epochs (accuracies : nat -> Q * Q)
    (number_of_epochs : nat) :
  exists b,
    sigopt_run.training_loop accuracies number_of_epochs = Returns b /\
    sigopt_run.epoch_test_accuracies b
    = map (fun e => snd (accuracies e)) (seq 1 number_of_epochs) /\
    List.length (sigopt_run.logged_best_train_accuracy b) = number_of_epochs /\
    match sigopt_run.best_accuracy b with
    | None => number_of_epochs = 0
    | Some (v, e) =>
        1 <= e <= number_of_epochs /\ v = snd (accuracies e) /\
        (forall j, 1 <= j <= number_of_epochs -> (snd (accuracies j) <= v)%Q) /\
        (forall j, 1 <= j < e -> (snd (accuracies j) < v)%Q)
    end.
Proof.
  destruct (epochs_keep accuracies number_of_epochs 0 sigopt_run.start)
    as [b [Hrun [_ [Hte [Hlog Hbest]]]]].
  { unfold kept_after. simpl. auto. }
  exists b. split; [exact Hrun|]. split; [exact Hte|]. split; [exact Hlog|].
  exact Hbest.
Qed.
